(** * Obfuscratchor: renaming passes over a Scratch project document

    A shallow embedding of [obfuscratchor.py] (version 2.5) and of the older
    [Obfuscratchor.py] (version 0.1.0).  The project document and the options
    record are the trees [json.loads] and a Python literal produce: they are
    modelled as a type of dynamically typed values, every subscript, call and
    comparison of the source is a fallible operation, and the in-place
    mutations of the document are functional updates at the same position
    (the document is a tree: no object is reachable along two paths). *)

From Stdlib Require Import List ZArith QArith Bool String Ascii Lia.
Import ListNotations.
Open Scope Z_scope.

Set Warnings "-register-all".

(** ** Values *)

(** A Python [str] is its sequence of code points. *)
Definition pystr := list Z.

Definition str (x : string) : pystr :=
  map (fun a => Z.of_N (N_of_ascii a)) (list_ascii_of_string x).

(** Keys of a dict: the strings of a JSON object, and the integers that a
    subscript store such as [entry[0] = name] binds when [entry] is a dict. *)
Inductive key : Type :=
| KStr (k : pystr)
| KInt (i : Z).

Inductive exn : Type :=
| OptionError
| TypeError
| KeyError
| IndexError
| ValueError
| OverflowError
| AttributeError
| FileNotFoundError
| IsNotAScratchFileError.

(** The result of evaluating an expression. *)
Inductive res (A : Type) : Type :=
| Ok (a : A)
| Raise (e : exn).

Arguments Ok {A} a.
Arguments Raise {A} e.

(** The values a JSON document or an options literal holds.  A float is the
    rational it denotes (NaN and the infinities are left out); a dict keeps
    its bindings in insertion order, with pairwise distinct keys.  An
    options literal can also hold a callable (a function, a type): it is
    given by its identity [id] and by what a call with no argument does at
    a position of the run, which is to return a string or to raise (a
    callable that returns another object is left out); [json.loads] puts no
    callable in a document. *)
Inductive value : Type :=
| VNone
| VBool (b : bool)
| VInt (z : Z)
| VFloat (q : Q)
| VStr (s : pystr)
| VList (l : list value)
| VDict (d : list (key * value))
| VCallable (id : Z) (f : nat -> res pystr * nat).

Definition dict := list (key * value).

Definition bind {A B} (r : res A) (k : A -> res B) : res B :=
  match r with
  | Ok a => k a
  | Raise e => Raise e
  end.

Notation "x <- r ;; k" := (bind r (fun x => k))
  (at level 61, r at next level, right associativity).

(** The outcome of a statement that mutates an object in place: the object
    and the local state when the statement ends, and the exception that ended
    it, if any.  What was mutated before a raise stays mutated. *)
Definition outcome (A S : Type) : Type := (A * S * option exn)%type.

(** ** Strings and keys *)

Fixpoint str_eqb (a b : pystr) : bool :=
  match a, b with
  | [], [] => true
  | x :: a', y :: b' => (x =? y) && str_eqb a' b'
  | _, _ => false
  end.

Definition key_eqb (a b : key) : bool :=
  match a, b with
  | KStr x, KStr y => str_eqb x y
  | KInt x, KInt y => x =? y
  | _, _ => false
  end.

(** [a > b] on strings: lexicographic on code points. *)
Fixpoint str_gtb (a b : pystr) : bool :=
  match a, b with
  | [], _ => false
  | _ :: _, [] => true
  | x :: a', y :: b' => if x =? y then str_gtb a' b' else y <? x
  end.

(** ** Dicts *)

Fixpoint lookup (k : key) (d : dict) : option value :=
  match d with
  | [] => None
  | (k', v) :: d' => if key_eqb k k' then Some v else lookup k d'
  end.

(** [d[k] = v]: an existing key keeps its position, a new key goes last. *)
Fixpoint store (k : key) (v : value) (d : dict) : dict :=
  match d with
  | [] => [(k, v)]
  | (k', v') :: d' => if key_eqb k k' then (k', v) :: d' else (k', v') :: store k v d'
  end.

Definition remove (k : key) (d : dict) : dict :=
  filter (fun kv => negb (key_eqb k (fst kv))) d.

(** [d.pop(k, default)]: the value bound to [k], if any, and [d] without it. *)
Definition pop (k : key) (d : dict) : option value * dict :=
  (lookup k d, remove k d).

Definition keys (d : dict) : list key := map fst d.

(** ** Subscripts *)

(** Position [i] of a sequence of length [n], counting from the end when
    [i] is negative. *)
Definition index (i : Z) (n : nat) : option nat :=
  let j := if i <? 0 then i + Z.of_nat n else i in
  if (0 <=? j) && (j <? Z.of_nat n) then Some (Z.to_nat j) else None.

Fixpoint replace {A} (n : nat) (x : A) (l : list A) : list A :=
  match l, n with
  | [], _ => []
  | _ :: l', O => x :: l'
  | y :: l', S n' => y :: replace n' x l'
  end.

(** [v[k]] *)
Definition getitem (v : value) (k : key) : res value :=
  match v with
  | VDict d =>
      match lookup k d with
      | Some x => Ok x
      | None => Raise KeyError
      end
  | VList l =>
      match k with
      | KInt i =>
          match index i (List.length l) with
          | Some n => match nth_error l n with Some x => Ok x | None => Raise IndexError end
          | None => Raise IndexError
          end
      | KStr _ => Raise TypeError
      end
  | VStr s =>
      match k with
      | KInt i =>
          match index i (List.length s) with
          | Some n => match nth_error s n with Some c => Ok (VStr [c]) | None => Raise IndexError end
          | None => Raise IndexError
          end
      | KStr _ => Raise TypeError
      end
  | _ => Raise TypeError
  end.

(** [v[k] = x] *)
Definition setitem (v : value) (k : key) (x : value) : res value :=
  match v with
  | VDict d => Ok (VDict (store k x d))
  | VList l =>
      match k with
      | KInt i =>
          match index i (List.length l) with
          | Some n => Ok (VList (replace n x l))
          | None => Raise IndexError
          end
      | KStr _ => Raise TypeError
      end
  | _ => Raise TypeError
  end.

(** ** Truth, types and comparisons *)

Definition truthy (v : value) : bool :=
  match v with
  | VNone => false
  | VBool b => b
  | VInt z => negb (z =? 0)
  | VFloat q => negb (Qeq_bool q 0)
  | VStr s => match s with [] => false | _ => true end
  | VList l => match l with [] => false | _ => true end
  | VDict d => match d with [] => false | _ => true end
  | VCallable _ _ => true
  end.

(** [isinstance(v, int)] holds of ints and of bools; the integer is returned. *)
Definition as_int (v : value) : option Z :=
  match v with
  | VInt z => Some z
  | VBool b => Some (if b then 1 else 0)
  | _ => None
  end.

Definition isinstance_dict (v : value) : bool :=
  match v with VDict _ => true | _ => false end.

Definition isinstance_bool (v : value) : bool :=
  match v with VBool _ => true | _ => false end.

Definition num (v : value) : option Q :=
  match v with
  | VInt z => Some (inject_Z z)
  | VBool b => Some (if b then 1%Q else 0%Q)
  | VFloat q => Some q
  | _ => None
  end.

(** [a == b]; two callables are equal when they are the same object. *)
Fixpoint py_eq (a b : value) {struct a} : bool :=
  match a, b with
  | VNone, VNone => true
  | VStr x, VStr y => str_eqb x y
  | VCallable i _, VCallable j _ => i =? j
  | VList l, VList m =>
      (fix all2 (l m : list value) {struct l} : bool :=
         match l, m with
         | [], [] => true
         | x :: l', y :: m' => py_eq x y && all2 l' m'
         | _, _ => false
         end) l m
  | VDict d, VDict e =>
      Nat.eqb (List.length d) (List.length e) &&
      (fix sub (d : list (key * value)) : bool :=
         match d with
         | [] => true
         | (k, x) :: d' =>
             match lookup k e with
             | Some y => py_eq x y
             | None => false
             end && sub d'
         end) d
  | _, _ =>
      match num a, num b with
      | Some p, Some q => Qeq_bool p q
      | _, _ => false
      end
  end.

(** [a > b]: numbers by value, strings and lists lexicographically, anything
    else raises [TypeError]. *)
Fixpoint py_gt (a b : value) {struct a} : res bool :=
  match a, b with
  | VStr x, VStr y => Ok (str_gtb x y)
  | VList l, VList m =>
      (fix lex (l m : list value) {struct l} : res bool :=
         match l, m with
         | [], _ => Ok false
         | _ :: _, [] => Ok true
         | x :: l', y :: m' => if py_eq x y then lex l' m' else py_gt x y
         end) l m
  | _, _ =>
      match num a, num b with
      | Some p, Some q => Ok (negb (Qle_bool p q))
      | _, _ => Raise TypeError
      end
  end.

(** [v == 'literal'] *)
Definition is_str (v : value) (x : string) : bool := py_eq v (VStr (str x)).


(** A value that can be a key of a dict. *)
Definition hashable (v : value) : bool :=
  match v with
  | VList _ | VDict _ => false
  | _ => true
  end.

(** ** Statements that mutate in place *)

Section Loops.

Variables A S : Type.

(** A [for] loop whose body mutates the element it visits; the first
    exception ends the loop and leaves the remaining elements as they
    were. *)
Fixpoint for_each (body : A -> S -> outcome A S) (l : list A) (st : S)
  : outcome (list A) S :=
  match l with
  | [] => ([], st, None)
  | x :: r =>
      match body x st with
      | (x', st', Some e) => (x' :: r, st', Some e)
      | (x', st', None) =>
          match for_each body r st' with
          | (r', st'', e) => (x' :: r', st'', e)
          end
      end
  end.

End Loops.

Arguments for_each {A S} body l st.

Section Statements.

Variable S : Type.

(** A statement acting on one object. *)
Definition stmt : Type := value -> S -> outcome value S.

(** [v] with the object at [k] replaced by its mutated self. *)
Definition put (v : value) (k : key) (x : value) : value :=
  match setitem v k x with
  | Ok v' => v'
  | Raise _ => v
  end.

(** Evaluate [v[k]], then run [body] on that object. *)
Definition at_item (k : key) (body : stmt) : stmt :=
  fun v st =>
    match getitem v k with
    | Raise e => (v, st, Some e)
    | Ok x =>
        match body x st with
        | (x', st', e) => (put v k x', st', e)
        end
    end.

Definition key_value (k : key) : value :=
  match k with
  | KStr s => VStr s
  | KInt i => VInt i
  end.

(** The elements [for x in v] visits when [v] is a dict or a string:
    fresh immutable objects, so the loop leaves [v] as it is. *)
Definition elements (v : value) : option (list value) :=
  match v with
  | VDict d => Some (map (fun kv => key_value (fst kv)) d)
  | VStr s => Some (map (fun c => VStr [c]) s)
  | _ => None
  end.

(** [for x in v: body] *)
Definition for_in (body : stmt) : stmt :=
  fun v st =>
    match v with
    | VList l =>
        match for_each body l st with
        | (l', st', e) => (VList l', st', e)
        end
    | _ =>
        match elements v with
        | Some l =>
            match for_each body l st with
            | (_, st', e) => (v, st', e)
            end
        | None => (v, st, Some TypeError)
        end
    end.

(** [for x in v[1:]: body]: the slice is a new list of the same objects.
    Slicing a dict raises ([TypeError] up to Python 3.11). *)
Definition for_tail (body : stmt) : stmt :=
  fun v st =>
    match v with
    | VList [] => (v, st, None)
    | VList (x :: r) =>
        match for_each body r st with
        | (r', st', e) => (VList (x :: r'), st', e)
        end
    | VStr s =>
        match for_each body (map (fun c => VStr [c]) (tl s)) st with
        | (_, st', e) => (v, st', e)
        end
    | _ => (v, st, Some TypeError)
    end.

(** [for k, x in v.items(): body], and [for k in list(v.keys())] with a
    body that only uses [v[k]]: [x] is the object [v[k]]. *)
Definition for_items (body : key -> stmt) : stmt :=
  fun v st =>
    match v with
    | VDict d =>
        match for_each (fun kv st =>
                          match body (fst kv) (snd kv) st with
                          | (x', st', e) => ((fst kv, x'), st', e)
                          end) d st with
        | (d', st', e) => (VDict d', st', e)
        end
    | _ => (v, st, Some AttributeError)
    end.

(** Evaluate an expression; on an exception the statement ends. *)
Definition eval {A} (r : res A) (v : value) (st : S) (k : A -> outcome value S)
  : outcome value S :=
  match r with
  | Ok a => k a
  | Raise e => (v, st, Some e)
  end.

End Statements.

Arguments at_item {S} k body v st.
Arguments for_in {S} body v st.
Arguments for_tail {S} body v st.
Arguments for_items {S} body v st.
Arguments eval {S A} r v st k.

(** ** Name generators *)

Definition hexdigit (n : Z) : Z := if n <? 10 then 48 + n else 87 + n.

(** The two lower-case hexadecimal digits of a byte. *)
Definition hex_byte (b : Z) : pystr := [hexdigit (b / 16); hexdigit (b mod 16)].

Definition is_hexdigit (c : Z) : bool :=
  ((48 <=? c) && (c <=? 57)) || ((97 <=? c) && (c <=? 102)).

(** What [parse_rename_options] returns: one of its two closures, with the
    variables it captured, or the option value itself. *)
Inductive namegen : Type :=
| GenHex (var_name_len : Z)
| GenRange (range_start range_end var_name_len : Z)
| GenValue (v : value).

Section Obfuscratchor.

(** The random sources: [draw p] is the [p]-th number drawn in the run,
    by [os.urandom] or by [random.choice]. *)
Variable draw : nat -> Z.

(** The integers that fit the C types through which the interpreter hands
    a number to the system: [int] (32 bits) and [ssize_t] (64 bits).
    Running out of memory is left out. *)
Definition fits_int (i : Z) : bool := (- 2 ^ 31 <=? i) && (i <? 2 ^ 31).

Definition fits_ssize_t (i : Z) : bool := (- 2 ^ 63 <=? i) && (i <? 2 ^ 63).

(** [secrets.token_hex(nbytes)]: [nbytes] random bytes of [os.urandom],
    two hexadecimal digits each; a negative [nbytes] raises [ValueError],
    and one that does not fit [ssize_t] raises [OverflowError]. *)
Definition token_hex (nbytes : Z) (p : nat) : res pystr * nat :=
  if negb (fits_ssize_t nbytes) then (Raise OverflowError, p)
  else if nbytes <? 0 then (Raise ValueError, p)
  else (Ok (flat_map (fun i => hex_byte (draw (p + i) mod 256)) (seq 0 (Z.to_nat nbytes))),
        (p + Z.to_nat nbytes)%nat).

(** [chr(i)]: [ValueError] outside the code points, [OverflowError] when
    [i] does not fit [int]. *)
Definition chr (i : Z) : res Z :=
  if (0 <=? i) && (i <? 1114112) then Ok i
  else if fits_int i then Raise ValueError
  else Raise OverflowError.

(** [random.choice(list(range(a, b + 1)))]: [list] raises [OverflowError]
    when the length of the range does not fit [ssize_t], and [choice]
    raises [IndexError] on the empty list. *)
Definition random_choice_range (a b : Z) (p : nat) : res Z * nat :=
  if b <? a then (Raise IndexError, p)
  else if negb (fits_ssize_t (b - a + 1)) then (Raise OverflowError, p)
  else (Ok (a + draw p mod (b - a + 1)), S p).

(** [''.join(chr(random.choice(list(range(a, b + 1)))) for _ in range(n))] *)
Fixpoint random_chars (a b : Z) (n : nat) (p : nat) : res pystr * nat :=
  match n with
  | O => (Ok [], p)
  | S n' =>
      match random_choice_range a b p with
      | (Raise e, p') => (Raise e, p')
      | (Ok i, p') =>
          match chr i with
          | Raise e => (Raise e, p')
          | Ok c =>
              match random_chars a b n' p' with
              | (Ok r, p'') => (Ok (c :: r), p'')
              | (Raise e, p'') => (Raise e, p'')
              end
          end
      end
  end.

(** Calling what [parse_rename_options] returned: one of its closures,
    or the option value itself, which is called if it is a callable and
    raises [TypeError] if it is anything else. *)
Definition call (g : namegen) (p : nat) : res pystr * nat :=
  match g with
  | GenHex n => token_hex n p
  | GenRange a b n => random_chars a b (Z.to_nat n) p
  | GenValue (VCallable _ f) => f p
  | GenValue _ => (Raise TypeError, p)
  end.

(** ** Option resolution *)

Definition default (d : value) (o : option value) : value :=
  match o with
  | Some v => v
  | None => d
  end.

Definition rename_to_key (name_name : pystr) : key :=
  KStr (str "rename_" ++ name_name ++ str "_to").

Definition name_length_key (name_name : pystr) : key :=
  KStr (removelast name_name ++ str "_name_length").

(** The generator, or the exception raised, and the options record with
    the consumed keys removed.  [options.pop(k, ...)] is [None] here when
    [k] is missing. *)
Definition parse_rename_options (options : dict) (name_name : pystr)
  : res namegen * dict :=
  let (rename_vars_to, options) := pop (rename_to_key name_name) options in
  let (len, options) := pop (name_length_key name_name) options in
  let var_name_len := default (VInt 10) len in
  match as_int var_name_len with
  | None => (Raise OptionError, options)
  | Some n =>
      match rename_vars_to with
      | None => (Raise OptionError, options)
      | Some v =>
          if is_str v "random_hex" then (Ok (GenHex n), options)
          else if is_str v "random_unicode_char_range" then
            let (rs, options) := pop (KStr (str "range_start")) options in
            let (re, options) := pop (KStr (str "range_end")) options in
            let range_start := default VNone rs in
            let range_end := default VNone re in
            match py_gt range_start range_end with
            | Raise e => (Raise e, options)
            | Ok true => (Raise OptionError, options)
            | Ok false =>
                match as_int range_start, as_int range_end with
                | Some a, Some b => (Ok (GenRange a b n), options)
                | _, _ => (Raise OptionError, options)
                end
            end
          else (Ok (GenValue v), options)
      end
  end.

(** ** The renaming passes *)

(** [s1; s2] *)
Definition andthen {S} (s1 s2 : stmt S) : stmt S :=
  fun v st =>
    match s1 v st with
    | (v', st', None) => s2 v' st'
    | o => o
    end.

Definition skip {S} : stmt S := fun v st => (v, st, None).

(** [v[k] = x] as a statement *)
Definition assign {S} (k : key) (x : value) : stmt S :=
  fun v st => eval (setitem v k x) v st (fun v' => (v', st, None)).

(** [v[k] = rename_to()]: the call comes first. *)
Definition assign_name (rename_to : namegen) (k : key) : stmt nat :=
  fun v p =>
    match call rename_to p with
    | (Raise e, p') => (v, p', Some e)
    | (Ok name, p') => assign k (VStr name) v p'
    end.

(** [for target in targets: for key, val in target['blocks'].items(): body],
    the double loop of four of the passes; [val] is the object
    [target['blocks'][key]]. *)
Definition for_blocks {S} (body : stmt S) : stmt S :=
  for_in (at_item (KStr (str "blocks")) (for_items (fun _ => body))).

(** The body shared by [rename_variables] and [rename_lists], which differ
    in the category word only ([what] is ['variables'] or ['lists']). *)
Definition rename_named (what : string) (targets : value) (options : dict) (p : nat)
  : outcome value nat :=
  match parse_rename_options options (str what) with
  | (Raise e, _) => (targets, p, Some e)
  | (Ok rename_vars_to, options) =>
      let (public, options) := pop (KStr (str "rename_public_" ++ str what)) options in
      match (if truthy (default (VBool true) public)
             then at_item (KInt 0) (at_item (KStr (str what))
                    (for_items (fun _ => assign_name rename_vars_to (KInt 0))))
             else skip) targets p with
      | (targets, p, Some e) => (targets, p, Some e)
      | (targets, p, None) =>
          let (private, _) := pop (KStr (str "rename_private_" ++ str what)) options in
          (if truthy (default (VBool true) private)
           then for_tail (at_item (KStr (str what))
                  (for_items (fun _ => assign_name rename_vars_to (KInt 0))))
           else skip) targets p
      end
  end.

Definition rename_variables : value -> dict -> nat -> outcome value nat :=
  rename_named "variables".

Definition rename_lists : value -> dict -> nat -> outcome value nat :=
  rename_named "lists".

(** The local dict [names] of [rename_sprites]: any hashable value can be
    a key, and keys are compared with [==]. *)
Definition names_of_sprites := list (value * pystr).

Fixpoint names_get (k : value) (names : names_of_sprites) : option pystr :=
  match names with
  | [] => None
  | (k', n) :: r => if py_eq k k' then Some n else names_get k r
  end.

Fixpoint names_set (k : value) (n : pystr) (names : names_of_sprites)
  : names_of_sprites :=
  match names with
  | [] => [(k, n)]
  | (k', n') :: r => if py_eq k k' then (k', n) :: r else (k', n') :: names_set k n r
  end.

(** The body of the first loop of [rename_sprites]. *)
Definition rename_sprite (rename_sprites_to : namegen) : stmt (names_of_sprites * nat) :=
  fun sprite st =>
    let (names, p) := st in
    match call rename_sprites_to p with
    | (Raise e, p') => (sprite, (names, p'), Some e)
    | (Ok new_name, p') =>
        eval (getitem sprite (KStr (str "name"))) sprite (names, p') (fun old =>
        if hashable old
        then assign (KStr (str "name")) (VStr new_name) sprite
               (names_set old new_name names, p')
        else (sprite, (names, p'), Some TypeError))
    end.

Definition menus : list (pystr * pystr) :=
  [ (str "motion_goto_menu", str "TO");
    (str "motion_glideto_menu", str "TO");
    (str "motion_pointtowards_menu", str "TOWARDS");
    (str "control_create_clone_of_menu", str "CLONE_OPTION");
    (str "sensing_touchingobjectmenu", str "TOUCHINGOBJECTMENU");
    (str "sensing_of_object_menu", str "OBJECT") ].

(** [val['fields'][field_name][0]] *)
Definition field0 (val : value) (field_name : pystr) : res value :=
  fields <- getitem val (KStr (str "fields")) ;;
  field <- getitem fields (KStr field_name) ;;
  getitem field (KInt 0).

(** One turn of the loop over [menus], on the block [val]. *)
Definition rewrite_menu (names : names_of_sprites) (menu : pystr * pystr) : stmt nat :=
  fun val p =>
    let (menu_name, field_name) := menu in
    eval (getitem val (KStr (str "opcode"))) val p (fun opcode =>
    if py_eq opcode (VStr menu_name) then
      eval (field0 val field_name) val p (fun name =>
      if hashable name then
        match names_get name names with
        | Some new_name =>
            at_item (KStr (str "fields")) (at_item (KStr field_name)
              (assign (KInt 0) (VStr new_name))) val p
        | None => (val, p, None)
        end
      else (val, p, Some TypeError))
    else (val, p, None)).

Fixpoint rewrite_menus (names : names_of_sprites) (ms : list (pystr * pystr)) : stmt nat :=
  match ms with
  | [] => skip
  | m :: r => andthen (rewrite_menu names m) (rewrite_menus names r)
  end.

Definition rename_sprites (targets : value) (options : dict) (p : nat)
  : outcome value nat :=
  match parse_rename_options options (str "sprites") with
  | (Raise e, _) => (targets, p, Some e)
  | (Ok rename_sprites_to, _) =>
      match for_tail (rename_sprite rename_sprites_to) targets ([], p) with
      | (targets, (_, p), Some e) => (targets, p, Some e)
      | (targets, (names, p), None) =>
          for_blocks (rewrite_menus names menus) targets p
      end
  end.

Definition rename_costumes (targets : value) (options : dict) (p : nat)
  : outcome value nat :=
  match parse_rename_options options (str "costumes") with
  | (Raise e, _) => (targets, p, Some e)
  | (Ok rename_costumes_to, _) =>
      for_tail (at_item (KStr (str "costumes"))
        (for_in (assign_name rename_costumes_to (KStr (str "name"))))) targets p
  end.

Definition rename_sounds (targets : value) (options : dict) (p : nat)
  : outcome value nat :=
  match parse_rename_options options (str "sounds") with
  | (Raise e, _) => (targets, p, Some e)
  | (Ok rename_sounds_to, _) =>
      for_in (at_item (KStr (str "sounds"))
        (for_in (assign_name rename_sounds_to (KStr (str "name"))))) targets p
  end.

(** [rename_sounds] of the older [Obfuscratchor.py] (version 0.1.0); its
    [parse_rename_options] has the same text as the one above. *)
Definition rename_sounds_0_1_0 (targets : value) (options : dict) (p : nat)
  : outcome value nat :=
  match parse_rename_options options (str "sounds") with
  | (Raise e, _) => (targets, p, Some e)
  | (Ok rename_sounds_to, _) =>
      for_tail (at_item (KStr (str "sounds"))
        (for_in (assign_name rename_sounds_to (KStr (str "name"))))) targets p
  end.

Definition rename_backdrops (targets : value) (options : dict) (p : nat)
  : outcome value nat :=
  match parse_rename_options options (str "backdrops") with
  | (Raise e, _) => (targets, p, Some e)
  | (Ok rename_backdrops_to, _) =>
      at_item (KInt 0) (at_item (KStr (str "costumes"))
        (for_in (assign_name rename_backdrops_to (KStr (str "name"))))) targets p
  end.

(** *** Procedures *)

Definition is_placeholder_letter (c : Z) : bool :=
  (c =? 110) || (c =? 115) || (c =? 98).

(** [re.findall(r'%[nsb]', s)]: the matches from left to right, none
    overlapping another. *)
Fixpoint findall_placeholders (s : pystr) : list pystr :=
  match s with
  | [] => []
  | c :: t =>
      match t with
      | [] => []
      | d :: t' =>
          if (c =? 37) && is_placeholder_letter d
          then [c; d] :: findall_placeholders t'
          else findall_placeholders t
      end
  end.

(** [sep.join(l)] *)
Fixpoint join (sep : pystr) (l : list pystr) : pystr :=
  match l with
  | [] => []
  | [x] => x
  | x :: r => x ++ sep ++ join sep r
  end.

(** The local dict [names] of [rename_my_blocks]; its keys are strings,
    since [re.findall] accepted them. *)
Definition names_of_blocks := list (pystr * pystr).

Fixpoint proc_get (k : pystr) (names : names_of_blocks) : option pystr :=
  match names with
  | [] => None
  | (k', n) :: r => if str_eqb k k' then Some n else proc_get k r
  end.

Fixpoint proc_set (k n : pystr) (names : names_of_blocks) : names_of_blocks :=
  match names with
  | [] => [(k, n)]
  | (k', n') :: r => if str_eqb k k' then (k', n) :: r else (k', n') :: proc_set k n r
  end.

(** [val['mutation']['proccode']] *)
Definition proccode (val : value) : res value :=
  mutation <- getitem val (KStr (str "mutation")) ;;
  getitem mutation (KStr (str "proccode")).

(** [val['mutation']['proccode'] = new_proccode] *)
Definition set_proccode {S} (new_proccode : pystr) : stmt S :=
  at_item (KStr (str "mutation")) (assign (KStr (str "proccode")) (VStr new_proccode)).

(** ['%s %s' % (name, ' '.join(re.findall(r'%[nsb]', original)))] *)
Definition new_proccode_of (name original : pystr) : pystr :=
  name ++ str " " ++ join (str " ") (findall_placeholders original).

(** The body of the first loop of [rename_my_blocks], on the block [val].
    In the tuple of the format the call comes before [re.findall], which
    raises [TypeError] on anything but a string. *)
Definition rename_prototype (rename_my_blocks_to : namegen) : stmt (names_of_blocks * nat) :=
  fun val st =>
    let (names, p) := st in
    eval (getitem val (KStr (str "opcode"))) val st (fun opcode =>
    if is_str opcode "procedures_prototype" then
      eval (proccode val) val st (fun original_proccode =>
      match call rename_my_blocks_to p with
      | (Raise e, p') => (val, (names, p'), Some e)
      | (Ok name, p') =>
          match original_proccode with
          | VStr original =>
              let new_proccode := new_proccode_of name original in
              set_proccode new_proccode val (proc_set original new_proccode names, p')
          | _ => (val, (names, p'), Some TypeError)
          end
      end)
    else (val, st, None)).

(** [names[original_proccode]] *)
Definition names_getitem (names : names_of_blocks) (k : value) : res pystr :=
  if hashable k then
    match k with
    | VStr s =>
        match proc_get s names with
        | Some n => Ok n
        | None => Raise KeyError
        end
    | _ => Raise KeyError
    end
  else Raise TypeError.

(** The body of the second loop of [rename_my_blocks]. *)
Definition rewrite_call (names : names_of_blocks) : stmt nat :=
  fun val p =>
    eval (getitem val (KStr (str "opcode"))) val p (fun opcode =>
    if is_str opcode "procedures_call" then
      eval (proccode val) val p (fun original_proccode =>
      eval (names_getitem names original_proccode) val p (fun new_proccode =>
      set_proccode new_proccode val p))
    else (val, p, None)).

Definition rename_my_blocks (targets : value) (options : dict) (p : nat)
  : outcome value nat :=
  match parse_rename_options options (str "my_blocks") with
  | (Raise e, _) => (targets, p, Some e)
  | (Ok rename_my_blocks_to, _) =>
      match for_blocks (rename_prototype rename_my_blocks_to) targets ([], p) with
      | (targets, (_, p), Some e) => (targets, p, Some e)
      | (targets, (names, p), None) =>
          for_blocks (rewrite_call names) targets p
      end
  end.

(** *** Integer literals *)

(** The decimal digit a code point denotes, if any: the interpreter's
    Unicode table, by which both [\d] and [int] go. *)
Variable decimal : Z -> option Z.

Definition is_digit (c : Z) : bool :=
  match decimal c with
  | Some _ => true
  | None => false
  end.

(** [\d*$]: [$] matches at the end and just before a final newline. *)
Fixpoint digits_to_end (s : pystr) : bool :=
  match s with
  | [] => true
  | c :: t =>
      if is_digit c then digits_to_end t
      else (c =? 10) && match t with [] => true | _ => false end
  end.

(** [re.match(r'^\d+$', s)] *)
Definition match_decimal (s : pystr) : bool :=
  match s with
  | [] => false
  | c :: t => is_digit c && digits_to_end t
  end.

(** The integer that [int(s)] returns for a string that passes
    [match_decimal], when it returns one: [int] strips the final newline. *)
Definition int_of_decimal (s : pystr) : Z :=
  fold_left (fun n c => match decimal c with Some d => 10 * n + d | None => n end) s 0.

(** The number of digits [int] accepts in a string, by the default of the
    interpreter ([sys.get_int_max_str_digits()]). *)
Definition int_max_str_digits : Z := 4300.

(** [int(s)] for the strings that pass [match_decimal]: [ValueError] when
    [s] holds more digits than the limit, leading zeros counted. *)
Definition py_int (s : pystr) : res Z :=
  if int_max_str_digits <? Z.of_nat (List.length (filter is_digit s))
  then Raise ValueError
  else Ok (int_of_decimal s).

Fixpoint hex_digits (fuel : nat) (n : Z) (acc : pystr) : pystr :=
  match fuel with
  | O => acc
  | S fuel' =>
      let acc' := hexdigit (n mod 16) :: acc in
      if n / 16 =? 0 then acc' else hex_digits fuel' (n / 16) acc'
  end.

(** [hex(n)] *)
Definition hex (n : Z) : pystr :=
  (if n <? 0 then str "-0x" else str "0x")
    ++ hex_digits (S (Z.to_nat (Z.log2 (Z.abs n)))) (Z.abs n) [].

(** The body of the loop over [inputs.items()], on the input [v]. *)
Definition convert_input : stmt nat :=
  fun v p =>
    eval (getitem v (KInt 1)) v p (fun literal =>
    if truthy literal then
      eval (getitem literal (KInt 0)) v p (fun kind =>
      if py_eq kind (VInt 4) then
        eval (getitem literal (KInt 1)) v p (fun num =>
        match num with
        | VStr text =>
            if match_decimal text
            then match py_int text with
                 | Raise e => (v, p, Some e)
                 | Ok n => at_item (KInt 1) (assign (KInt 1) (VStr (hex n))) v p
                 end
            else (v, p, None)
        | _ => (v, p, Some TypeError)
        end)
      else (v, p, None))
    else (v, p, None)).

(** The body of the loop over the blocks, on the block [val]. *)
Definition convert_block : stmt nat :=
  fun val p =>
    eval (getitem val (KStr (str "inputs"))) val p (fun inputs =>
    if truthy inputs
    then at_item (KStr (str "inputs")) (for_items (fun _ => convert_input)) val p
    else (val, p, None)).

Definition convert_integers_to_hexadecimal (targets : value) (convert : bool) (p : nat)
  : outcome value nat :=
  if convert
  then for_blocks convert_block targets p
  else (targets, p, None).

(** ** The whole transform *)

(** What the file system answers: whether [infile] exists, the suffixes of
    the two paths, and the document [json.loads] returns for the archive's
    [project.json] (reading and decoding are external). *)
Record files : Type := {
  infile_exists : bool;
  infile_suffix : pystr;
  outfile_suffix : pystr;
  project_json : value
}.

Definition load_project (f : files) : res value :=
  if negb (infile_exists f) then Raise FileNotFoundError
  else if negb (str_eqb (infile_suffix f) (str ".sb3")) then Raise IsNotAScratchFileError
  else Ok (project_json f).

(** The document written to [outfile], if the checks pass. *)
Definition save_project (f : files) (project : value) : res value :=
  if negb (infile_exists f) then Raise FileNotFoundError
  else if negb (str_eqb (infile_suffix f) (str ".sb3")) then Raise IsNotAScratchFileError
  else if negb (str_eqb (outfile_suffix f) (str ".sb3")) then Raise IsNotAScratchFileError
  else Ok project.

(** An entry of [option_names]: the type the option must have and the
    function [globals()] binds to its name. *)
Inductive pass : Type :=
| OfDict (f : value -> dict -> nat -> outcome value nat)
| OfBool (f : value -> bool -> nat -> outcome value nat).

Definition option_names : list (pystr * pass) :=
  [ (str "rename_variables", OfDict rename_variables);
    (str "rename_lists", OfDict rename_lists);
    (str "rename_sprites", OfDict rename_sprites);
    (str "rename_costumes", OfDict rename_costumes);
    (str "rename_sounds", OfDict rename_sounds);
    (str "rename_backdrops", OfDict rename_backdrops);
    (str "rename_my_blocks", OfDict rename_my_blocks);
    (str "convert_integers_to_hexadecimal", OfBool convert_integers_to_hexadecimal) ].

(** [globals()[option_name](targets, option)] when [option] has the type
    asked for, nothing otherwise. *)
Definition dispatch (ps : pass) (option : value) : stmt nat :=
  match ps, option with
  | OfDict f, VDict d => fun targets => f targets d
  | OfBool f, VBool b => fun targets => f targets b
  | _, _ => skip
  end.

(** The loop over [option_names]: an option that is present is popped,
    whatever its type. *)
Fixpoint run_options (names : list (pystr * pass)) (targets : value)
  (options : dict) (p : nat) : outcome value (dict * nat) :=
  match names with
  | [] => (targets, (options, p), None)
  | (option_name, ps) :: names' =>
      match pop (KStr option_name) options with
      | (Some option, options') =>
          match dispatch ps option targets p with
          | (targets', p', Some e) => (targets', (options', p'), Some e)
          | (targets', p', None) => run_options names' targets' options' p'
          end
      | (None, _) => run_options names' targets options p
      end
  end.

(** What a run leaves behind: the document written to [outfile], the
    keys warned about, in order, and the exception that ended the run. *)
Record run : Type := {
  written : option value;
  warnings : list key;
  raised : option exn
}.

Definition abort (e : exn) : run :=
  {| written := None; warnings := []; raised := Some e |}.

Definition obfuscate (f : files) (options : value) (p : nat) : run :=
  match load_project f with
  | Raise e => abort e
  | Ok project =>
      match getitem project (KStr (str "targets")) with
      | Raise e => abort e
      | Ok targets =>
          match options with
          | VDict options =>
              match run_options option_names targets options p with
              | (_, _, Some e) => abort e
              | (targets, (options, _), None) =>
                  match save_project f (put project (KStr (str "targets")) targets) with
                  | Ok doc =>
                      {| written := Some doc; warnings := keys options; raised := None |}
                  | Raise e =>
                      {| written := None; warnings := keys options; raised := Some e |}
                  end
              end
          | _ => abort TypeError
          end
      end
  end.

(** ** Version 0.1.0

    The older [Obfuscratchor.py] has the text of version 2.5 for
    [load_project], [save_project], [parse_rename_options],
    [rename_variables], [rename_lists], [rename_costumes] and
    [rename_backdrops] (messages apart); its [rename_sprites] has no second
    loop, its [rename_sounds] is [rename_sounds_0_1_0] above, and its
    [obfuscate] knows six options. *)

Definition rename_sprites_0_1_0 (targets : value) (options : dict) (p : nat)
  : outcome value nat :=
  match parse_rename_options options (str "sprites") with
  | (Raise e, _) => (targets, p, Some e)
  | (Ok rename_sprites_to, _) =>
      for_tail (assign_name rename_sprites_to (KStr (str "name"))) targets p
  end.

Definition option_names_0_1_0 : list (pystr * pass) :=
  [ (str "rename_variables", OfDict rename_variables);
    (str "rename_lists", OfDict rename_lists);
    (str "rename_sprites", OfDict rename_sprites_0_1_0);
    (str "rename_costumes", OfDict rename_costumes);
    (str "rename_sounds", OfDict rename_sounds_0_1_0);
    (str "rename_backdrops", OfDict rename_backdrops) ].

Definition obfuscate_0_1_0 (f : files) (options : value) (p : nat) : run :=
  match load_project f with
  | Raise e => abort e
  | Ok project =>
      match getitem project (KStr (str "targets")) with
      | Raise e => abort e
      | Ok targets =>
          match options with
          | VDict options =>
              match run_options option_names_0_1_0 targets options p with
              | (_, _, Some e) => abort e
              | (targets, (options, _), None) =>
                  match save_project f (put project (KStr (str "targets")) targets) with
                  | Ok doc =>
                      {| written := Some doc; warnings := keys options; raised := None |}
                  | Raise e =>
                      {| written := None; warnings := keys options; raised := Some e |}
                  end
              end
          | _ => abort TypeError
          end
      end
  end.

(** ** Observations on a document *)

(** Every sound of the target [t] bears a name the generator returned. *)
Definition sounds_renamed (rename_sounds_to : namegen) (t : value) : Prop :=
  forall sounds sound,
    getitem t (KStr (str "sounds")) = Ok (VList sounds) ->
    In sound sounds ->
    exists name q q',
      call rename_sounds_to q = (Ok name, q') /\
      getitem sound (KStr (str "name")) = Ok (VStr name).

(** The dict of the blocks of a target. *)
Definition blocks_of (t : value) : option dict :=
  match getitem t (KStr (str "blocks")) with
  | Ok (VDict d) => Some d
  | _ => None
  end.

(** The [i]-th block of the [j]-th target, with its key. *)
Definition block_at (ts : list value) (j i : nat) : option (key * value) :=
  match nth_error ts j with
  | Some t =>
      match blocks_of t with
      | Some d => nth_error d i
      | None => None
      end
  | None => None
  end.

Definition has_opcode (val : value) (opcode : string) : Prop :=
  exists op, getitem val (KStr (str "opcode")) = Ok op /\ is_str op opcode = true.

(** The document has a block with this opcode and this proccode. *)
Definition has_procedure (ts : list value) (opcode : string) (code : value) : Prop :=
  exists j i k val,
    block_at ts j i = Some (k, val) /\ has_opcode val opcode /\ proccode val = Ok code.

(** One of the tokens [%n], [%s] and [%b]. *)
Definition is_placeholder (t : pystr) : Prop :=
  exists d, t = [37; d] /\ is_placeholder_letter d = true.

(** The target [t'] is the target [t], up to its name and the contents of
    its blocks: the same keys in the same order, bound to the same values
    elsewhere. *)
Definition same_target (t t' : value) : Prop :=
  t' = t \/
  exists d d',
    t = VDict d /\ t' = VDict d' /\ keys d' = keys d /\
    forall k, k <> KStr (str "name") -> k <> KStr (str "blocks") ->
              lookup k d' = lookup k d.

(** Two hashable values are the same key of a dict. *)
Definition same_key (a b : value) : Prop :=
  (a = VNone /\ b = VNone) \/
  (exists s, a = VStr s /\ b = VStr s) \/
  (exists i f g, a = VCallable i f /\ b = VCallable i g) \/
  (exists p q, num a = Some p /\ num b = Some q /\ p == q).

Definition names_ok (names : names_of_sprites) : Prop :=
  Forall (fun kv => hashable (fst kv) = true) names.

(** What the second loop of [rename_sprites] makes of a field value. *)
Definition renamed (names : names_of_sprites) (x : value) : value :=
  match names_get x names with
  | Some new_name => VStr new_name
  | None => x
  end.

(** The opcode and the proccode of every block of a target, in order. *)
Definition procs_of (t : value) : option (list (res value * res value)) :=
  match blocks_of t with
  | Some d => Some (map (fun kv => (getitem (snd kv) (KStr (str "opcode")),
                                    proccode (snd kv))) d)
  | None => None
  end.

(** The targets [ts'] have the procedures of the targets [ts]. *)
Definition same_procs (ts ts' : list value) : Prop :=
  Forall2 (fun t t' => procs_of t' = procs_of t) ts ts'.

(** A document with a call-site of the proccode [code] and no prototype of
    it. *)
Definition dangling (code : value) (targets : value) : Prop :=
  exists ts,
    targets = VList ts /\
    has_procedure ts "procedures_call" code /\
    ~ has_procedure ts "procedures_prototype" code.

(** A block as the editor writes it: it has an opcode, and a prototype or
    a call has a mutation with a string proccode. *)
Definition well_formed_block (val : value) : Prop :=
  exists op,
    getitem val (KStr (str "opcode")) = Ok op /\
    (is_str op "procedures_prototype" = true \/ is_str op "procedures_call" = true ->
     exists s, proccode val = Ok (VStr s)).

(** Every target has a dict of well-formed blocks. *)
Definition well_formed (ts : list value) : Prop :=
  forall t, In t ts ->
    exists d, blocks_of t = Some d /\ forall kv, In kv d -> well_formed_block (snd kv).

(** The generator returns a name whenever it is called. *)
Definition returns_names (g : namegen) : Prop :=
  forall p, exists name p', call g p = (Ok name, p').

(** The option names [obfuscate] knows: the keys of [option_names]. *)
Definition known_names : list pystr :=
  [ str "rename_variables"; str "rename_lists"; str "rename_sprites";
    str "rename_costumes"; str "rename_sounds"; str "rename_backdrops";
    str "rename_my_blocks"; str "convert_integers_to_hexadecimal" ].

Definition recognized (k : key) : bool :=
  existsb (fun n => key_eqb (KStr n) k) known_names.

(** A statement on the targets that keeps them a list with the same
    procedures, however it ends. *)
Definition keeps_procs {S} (s : stmt S) : Prop :=
  forall ts st, exists ts', fst (fst (s (VList ts) st)) = VList ts' /\ same_procs ts ts'.

(** The pass [ps] keeps the property [P] of the targets, however it ends
    and whatever its option. *)
Definition preserves (P : value -> Prop) (ps : pass) : Prop :=
  forall option targets p, P targets -> P (fst (fst (dispatch ps option targets p))).

Definition key_eq_dec (a b : key) : {a = b} + {a <> b}.
Proof.
  decide equality; [apply (list_eq_dec Z.eq_dec) | apply Z.eq_dec].
Defined.

(** The options the loop over [names] leaves: all but those named. *)
Definition leftover (names : list (pystr * pass)) (options : dict) : dict :=
  fold_left (fun d np => remove (KStr (fst np)) d) names options.

(** What a run of the loop over the option names does to the document. *)
Definition effect (r : outcome value (dict * nat)) : value * nat * option exn :=
  (fst (fst r), snd (snd (fst r)), snd r).

(** The number a string of lower-case hexadecimal digits denotes. *)
Definition hexdigit_value (c : Z) : Z := if c <? 97 then c - 48 else c - 87.

Definition hex_value (s : pystr) : Z :=
  fold_left (fun n c => 16 * n + hexdigit_value c) s 0.

(** [e'] is [e] with a name the generator returned stored at [k]. *)
Definition renamed_at (g : namegen) (k : key) (e e' : value) : Prop :=
  exists name q q', call g q = (Ok name, q') /\ setitem e k (VStr name) = Ok e'.

(** The target [t'] is the target [t] with every entry of its dict [what]
    renamed at index 0, under the same keys in the same order. *)
Definition entries_renamed (g : namegen) (what : pystr) (t t' : value) : Prop :=
  exists d d',
    getitem t (KStr what) = Ok (VDict d) /\
    t' = put t (KStr what) (VDict d') /\
    Forall2 (fun kv kv' => fst kv' = fst kv /\ renamed_at g (KInt 0) (snd kv) (snd kv'))
            d d'.

(** The target [t'] is the target [t] with every element of its list
    [what] renamed at ['name']; a value [what] that is no list is as it
    was. *)
Definition elements_renamed (g : namegen) (what : pystr) (t t' : value) : Prop :=
  exists x x',
    getitem t (KStr what) = Ok x /\
    t' = put t (KStr what) x' /\
    match x with
    | VList l =>
        exists l', x' = VList l' /\ Forall2 (renamed_at g (KStr (str "name"))) l l'
    | _ => x' = x
    end.

(** [options.pop(name, True)] as a condition: the flag is on unless it is
    bound to a false value. *)
Definition flag (name : string) (options : dict) : bool :=
  truthy (default (VBool true) (lookup (KStr (str name)) options)).

(** What a pass over the dicts [what] leaves when it ends normally: the
    entries of the stage renamed when [public] is on, those of the other
    targets when [private] is on. *)
Definition renames_entries (pass : value -> dict -> nat -> outcome value nat)
    (what public private : string) : Prop :=
  forall ts options p ts' p',
    pass (VList ts) options p = (VList ts', p', None) ->
    exists g,
      fst (parse_rename_options options (str what)) = Ok g /\
      match ts, ts' with
      | [], [] => flag public options = false
      | stage :: sprites, stage' :: sprites' =>
          (if flag public options
           then entries_renamed g (str what) stage stage'
           else stage' = stage) /\
          (if flag private options
           then Forall2 (entries_renamed g (str what)) sprites sprites'
           else sprites' = sprites)
      | _, _ => False
      end.

(** What [convert_integers_to_hexadecimal] makes of an input [v]: nothing,
    or the text of its literal of kind 4 replaced. *)
Definition input_converted (v v' : value) : Prop :=
  v' = v \/
  exists literal kind text literal',
    getitem v (KInt 1) = Ok literal /\
    getitem literal (KInt 0) = Ok kind /\ py_eq kind (VInt 4) = true /\
    getitem literal (KInt 1) = Ok (VStr text) /\ match_decimal text = true /\
    setitem literal (KInt 1) (VStr (hex (int_of_decimal text))) = Ok literal' /\
    v' = put v (KInt 1) literal'.

(** A statement that, run again on what it left, changes nothing more, and
    that never changes the local state. *)
Definition settles {A S} (body : A -> S -> outcome A S) : Prop :=
  forall x s x' s', body x s = (x', s', None) -> s' = s /\ body x' s = (x', s, None).

(** The two options version 0.1.0 does not know. *)
Definition later_option (k : key) : bool :=
  key_eqb (KStr (str "rename_my_blocks")) k ||
  key_eqb (KStr (str "convert_integers_to_hexadecimal")) k.

(** The files [f] with another suffix of the output path. *)
Definition with_outfile_suffix (suffix : pystr) (f : files) : files :=
  {| infile_exists := infile_exists f;
     infile_suffix := infile_suffix f;
     outfile_suffix := suffix;
     project_json := project_json f |}.

(** ** Sample inputs *)

(** The table of the ASCII digits. *)
Definition ascii_decimal (c : Z) : option Z :=
  if (48 <=? c) && (c <=? 57) then Some (c - 48) else None.

(** Two random sources: an arbitrary one, and one that makes the range
    [[37, 115]] yield ['%'] and then ['s']. *)
Definition sample_draw (p : nat) : Z := Z.of_nat (37 * p + 11).

Definition percent_draw (p : nat) : Z :=
  match p with
  | O => 0
  | _ => 78
  end.

Definition entry (k : string) (v : value) : key * value := (KStr (str k), v).

Definition text (s : string) : value := VStr (str s).

Definition sample_files (project : value) : files :=
  {| infile_exists := true;
     infile_suffix := str ".sb3";
     outfile_suffix := str ".sb3";
     project_json := project |}.

(** A target with one sound; a stage, and a sprite [Cat] whose two blocks
    go to the sprite [Cat] and to the mouse pointer. *)
Definition target (name sound : string) (blocks : dict) : value :=
  VDict [entry "name" (text name);
         entry "sounds" (VList [VDict [entry "name" (text sound)]]);
         entry "blocks" (VDict blocks)].

Definition goto_menu (name : string) : value :=
  VDict [entry "opcode" (text "motion_goto_menu");
         entry "fields" (VDict [entry "TO" (VList [text name; VNone])])].

Definition sample_stage : value := target "Stage" "pop" [].

Definition sample_sprite : value :=
  target "Cat" "meow" [entry "a" (goto_menu "Cat"); entry "b" (goto_menu "_mouse_")].

Definition sample_targets : list value := [sample_stage; sample_sprite].

(** A stage, and a sprite [Cat] with one block for each of the six menus
    that names the sprite, and one that names the mouse pointer. *)
Definition menu (opcode field name : string) : value :=
  VDict [entry "opcode" (text opcode);
         entry "fields" (VDict [entry field (VList [text name; VNone])])].

Definition six_menus (name : string) : dict :=
  [entry "a" (menu "motion_goto_menu" "TO" name);
   entry "b" (menu "motion_glideto_menu" "TO" name);
   entry "c" (menu "motion_pointtowards_menu" "TOWARDS" name);
   entry "d" (menu "control_create_clone_of_menu" "CLONE_OPTION" name);
   entry "e" (menu "sensing_touchingobjectmenu" "TOUCHINGOBJECTMENU" name);
   entry "f" (menu "sensing_of_object_menu" "OBJECT" name);
   entry "g" (menu "motion_goto_menu" "TO" "_mouse_")].

Definition menu_targets (name : string) : list value :=
  [sample_stage; target name "meow" (six_menus name)].

(** A target with a prototype and a call-site of [foo %n], and one with
    the call-site only. *)
Definition procedure_block (opcode code : string) : value :=
  VDict [entry "opcode" (text opcode);
         entry "mutation" (VDict [entry "proccode" (text code)])].

Definition procedure_target (prototype call : string) : value :=
  VDict [entry "blocks"
           (VDict [entry "a" (procedure_block "procedures_prototype" prototype);
                   entry "b" (procedure_block "procedures_call" call)])].

Definition procedures (code : string) : list value :=
  [VDict [entry "blocks"
            (VDict [entry "a" (procedure_block "procedures_prototype" code);
                    entry "b" (procedure_block "procedures_call" code)])]].

Definition defined_call : list value := procedures "foo %n".

Definition dangling_call : list value :=
  [VDict [entry "blocks"
            (VDict [entry "b" (procedure_block "procedures_call" "foo %n")])]].

Definition hex_options (category : string) (n : Z) : dict :=
  [(rename_to_key (str category), text "random_hex");
   (name_length_key (str category), VInt n)].

Definition range_options (category : string) (n a b : Z) : dict :=
  [(rename_to_key (str category), text "random_unicode_char_range");
   (name_length_key (str category), VInt n);
   entry "range_start" (VInt a);
   entry "range_end" (VInt b)].

(** A document with a variable, a list and a costume in each target, and
    in the sprite a block that moves by the literal [255]. *)
Definition variable (name : string) (v : value) : value := VList [text name; v].

Definition costume (name : string) : value :=
  VDict [entry "name" (text name); entry "assetId" (text "f0")].

Definition move_steps (literal : value) : value :=
  VDict [entry "opcode" (text "motion_movesteps");
         entry "inputs" (VDict [entry "STEPS" (VList [VInt 1; literal])])].

Definition document_target (name variable_name list_name costume_name : string)
    (blocks : dict) : value :=
  VDict [entry "name" (text name);
         entry "variables" (VDict [entry "v" (variable variable_name (VInt 0))]);
         entry "lists" (VDict [entry "l" (variable list_name (VList []))]);
         entry "costumes" (VList [costume costume_name]);
         entry "blocks" (VDict blocks)].

Definition sample_document (steps : string) : list value :=
  [document_target "Stage" "score" "log" "backdrop1" [];
   document_target "Cat" "lives" "path" "cat-a"
     [entry "a" (move_steps (VList [VInt 4; text steps]))]].


(** A target with a variable reporter that lies loose in the workspace,
    and one with a literal that is a number. *)
Definition loose_reporter : list value :=
  [VDict [entry "blocks"
            (VDict [entry "r" (VList [VInt 12; text "score"; text "v"])])]].

Definition number_literal : list value :=
  [VDict [entry "blocks"
            (VDict [entry "a" (move_steps (VList [VInt 4; VInt 10]))])]].

(** ** The example program

    The options record that [main] of [example.py] hands to [obfuscate],
    and the record it binds to an option name. *)
Definition example_options : dict :=
  [ entry "rename_variables"
      (VDict [entry "rename_variables_to" (text "random_hex");
              entry "variables_name_length" (VInt 8)]);
    entry "rename_lists"
      (VDict [entry "rename_lists_to" (text "random_unicode_char_range");
              entry "lists_name_length" (VInt 10);
              entry "range_start" (VInt 19968);
              entry "range_end" (VInt 40959)]);
    entry "rename_sprites"
      (VDict [entry "rename_sprites_to" (text "random_hex");
              entry "sprites_name_length" (VInt 6)]);
    entry "rename_costumes"
      (VDict [entry "rename_costumes_to" (text "random_hex");
              entry "costumes_name_length" (VInt 6)]);
    entry "rename_sounds"
      (VDict [entry "rename_sounds_to" (text "random_unicode_char_range");
              entry "sounds_name_length" (VInt 8);
              entry "range_start" (VInt 57344);
              entry "range_end" (VInt 63743)]);
    entry "rename_backdrops"
      (VDict [entry "rename_backdrops_to" (text "random_hex");
              entry "backdrops_name_length" (VInt 6)]) ].

Definition example_option (name : string) : dict :=
  match lookup (KStr (str name)) example_options with
  | Some (VDict d) => d
  | _ => []
  end.

(** * Properties *)

(** ** Strings, keys and dicts *)

Lemma str_eqb_eq (a b : pystr) : str_eqb a b = true <-> a = b.
Proof.
  revert b; induction a as [|x a IH]; intros [|y b]; simpl; split;
    try discriminate; try reflexivity.
  - intros H. apply andb_true_iff in H as [Hx Ha].
    apply Z.eqb_eq in Hx. apply IH in Ha. now subst.
  - intros H. injection H as -> ->.
    apply andb_true_iff. split; [apply Z.eqb_refl | now apply IH].
Qed.

Lemma str_eqb_refl (a : pystr) : str_eqb a a = true.
Proof. now apply str_eqb_eq. Qed.

Lemma key_eqb_eq (a b : key) : key_eqb a b = true <-> a = b.
Proof.
  destruct a as [x|x], b as [y|y]; simpl; split; try discriminate.
  - intros H. apply str_eqb_eq in H. now subst.
  - intros H. injection H as ->. apply str_eqb_refl.
  - intros H. apply Z.eqb_eq in H. now subst.
  - intros H. injection H as ->. apply Z.eqb_refl.
Qed.

Lemma key_eqb_refl (a : key) : key_eqb a a = true.
Proof. now apply key_eqb_eq. Qed.

Lemma key_eqb_neq (a b : key) : key_eqb a b = false <-> a <> b.
Proof.
  split.
  - intros H E. apply key_eqb_eq in E. congruence.
  - intros H. destruct (key_eqb a b) eqn:E; [|reflexivity].
    apply key_eqb_eq in E. contradiction.
Qed.

Lemma lookup_remove_other (k k' : key) (d : dict) :
  k <> k' -> lookup k (remove k' d) = lookup k d.
Proof.
  intros Hne. induction d as [|[k0 v] d IH]; simpl; [reflexivity|].
  destruct (key_eqb k' k0) eqn:E0; simpl.
  - apply key_eqb_eq in E0. subst k0.
    apply key_eqb_neq in Hne. now rewrite Hne.
  - destruct (key_eqb k k0); [reflexivity | exact IH].
Qed.

Lemma lookup_remove_same (k : key) (d : dict) : lookup k (remove k d) = None.
Proof.
  induction d as [|[k0 v] d IH]; simpl; [reflexivity|].
  destruct (key_eqb k k0) eqn:E0; simpl; [exact IH|].
  now rewrite E0.
Qed.

Lemma lookup_store_same (k : key) (x : value) (d : dict) :
  lookup k (store k x d) = Some x.
Proof.
  induction d as [|[k0 v] d IH]; simpl.
  - now rewrite key_eqb_refl.
  - destruct (key_eqb k k0) eqn:E0; simpl; now rewrite E0.
Qed.

Lemma lookup_store_other (k k' : key) (x : value) (d : dict) :
  k <> k' -> lookup k (store k' x d) = lookup k d.
Proof.
  intros Hne. apply key_eqb_neq in Hne.
  induction d as [|[k0 v] d IH]; simpl.
  - now rewrite Hne.
  - destruct (key_eqb k' k0) eqn:E0; simpl.
    + destruct (key_eqb k k0) eqn:E1; [|reflexivity].
      apply key_eqb_eq in E0, E1. subst. now rewrite key_eqb_refl in Hne.
    + destruct (key_eqb k k0); [reflexivity | exact IH].
Qed.

Lemma store_lookup (k : key) (x : value) (d : dict) :
  lookup k d = Some x -> store k x d = d.
Proof.
  induction d as [|[k0 v] d IH]; simpl; [discriminate|].
  destruct (key_eqb k k0) eqn:E0.
  - intros H. now injection H as ->.
  - intros H. now rewrite IH.
Qed.

Lemma keys_store (k : key) (x : value) (d : dict) :
  lookup k d <> None -> keys (store k x d) = keys d.
Proof.
  unfold keys. induction d as [|[k0 v] d IH]; simpl; [congruence|].
  destruct (key_eqb k k0) eqn:E0; simpl; [reflexivity|].
  intros H. now rewrite IH.
Qed.

(** The four keys [parse_rename_options] pops never coincide: their last
    characters differ. *)
Lemma last_char_neq (a b : pystr) (x y : Z) :
  x <> y -> KStr (a ++ [x]) <> KStr (b ++ [y]).
Proof.
  intros Hne E.
  apply (f_equal (fun k => match k with KStr s => last s 0 | KInt _ => 0 end)) in E.
  cbv beta iota in E. rewrite !last_last in E. contradiction.
Qed.

Lemma rename_to_key_last (c : pystr) :
  rename_to_key c = KStr ((str "rename_" ++ c ++ str "_t") ++ [111]).
Proof. unfold rename_to_key. now rewrite <- !app_assoc. Qed.

Lemma name_length_key_last (c : pystr) :
  name_length_key c = KStr ((removelast c ++ str "_name_lengt") ++ [104]).
Proof. unfold name_length_key. now rewrite <- !app_assoc. Qed.

Lemma length_key_neq_rename_key (c : pystr) : name_length_key c <> rename_to_key c.
Proof.
  rewrite rename_to_key_last, name_length_key_last. now apply last_char_neq.
Qed.

Lemma range_start_neq_rename_key (c : pystr) : KStr (str "range_start") <> rename_to_key c.
Proof.
  rewrite rename_to_key_last.
  change (str "range_start") with (str "range_star" ++ [116]).
  now apply last_char_neq.
Qed.

Lemma range_start_neq_length_key (c : pystr) : KStr (str "range_start") <> name_length_key c.
Proof.
  rewrite name_length_key_last.
  change (str "range_start") with (str "range_star" ++ [116]).
  now apply last_char_neq.
Qed.

Lemma range_end_neq_rename_key (c : pystr) : KStr (str "range_end") <> rename_to_key c.
Proof.
  rewrite rename_to_key_last.
  change (str "range_end") with (str "range_en" ++ [100]).
  now apply last_char_neq.
Qed.

Lemma range_end_neq_length_key (c : pystr) : KStr (str "range_end") <> name_length_key c.
Proof.
  rewrite name_length_key_last.
  change (str "range_end") with (str "range_en" ++ [100]).
  now apply last_char_neq.
Qed.

Lemma range_end_neq_range_start : KStr (str "range_end") <> KStr (str "range_start").
Proof. discriminate. Qed.

(** ** Option resolution *)

(** [parse_rename_options] in terms of the record it was given: each key is
    looked up in the original record, since the keys popped before it are
    different keys. *)
Lemma parse_rename_options_eq (options : dict) (c : pystr) :
  parse_rename_options options c =
  let o2 := remove (name_length_key c) (remove (rename_to_key c) options) in
  let o4 := remove (KStr (str "range_end")) (remove (KStr (str "range_start")) o2) in
  match as_int (default (VInt 10) (lookup (name_length_key c) options)) with
  | None => (Raise OptionError, o2)
  | Some n =>
      match lookup (rename_to_key c) options with
      | None => (Raise OptionError, o2)
      | Some v =>
          if is_str v "random_hex" then (Ok (GenHex n), o2)
          else if is_str v "random_unicode_char_range" then
            match py_gt (default VNone (lookup (KStr (str "range_start")) options))
                        (default VNone (lookup (KStr (str "range_end")) options)) with
            | Raise e => (Raise e, o4)
            | Ok true => (Raise OptionError, o4)
            | Ok false =>
                match as_int (default VNone (lookup (KStr (str "range_start")) options)),
                      as_int (default VNone (lookup (KStr (str "range_end")) options)) with
                | Some a, Some b => (Ok (GenRange a b n), o4)
                | _, _ => (Raise OptionError, o4)
                end
            end
          else (Ok (GenValue v), o2)
      end
  end.
Proof.
  unfold parse_rename_options, pop. cbv zeta.
  rewrite (lookup_remove_other _ _ options (length_key_neq_rename_key c)).
  rewrite (lookup_remove_other _ _ (remove (rename_to_key c) options) (range_start_neq_length_key c)).
  rewrite (lookup_remove_other _ _ options (range_start_neq_rename_key c)).
  rewrite (lookup_remove_other _ _
             (remove (name_length_key c) (remove (rename_to_key c) options))
             range_end_neq_range_start).
  rewrite (lookup_remove_other _ _ (remove (rename_to_key c) options) (range_end_neq_length_key c)).
  rewrite (lookup_remove_other _ _ options (range_end_neq_rename_key c)).
  reflexivity.
Qed.

Lemma as_int_num (v : value) (z : Z) : as_int v = Some z -> num v = Some (inject_Z z).
Proof.
  destruct v; simpl; try discriminate.
  - intros H. injection H as <-. now destruct b.
  - intros H. now injection H as <-.
Qed.

Lemma py_gt_int (x y : value) (a b : Z) :
  as_int x = Some a -> as_int y = Some b -> py_gt x y = Ok (b <? a).
Proof.
  intros Hx Hy.
  assert (E : py_gt x y = match num x, num y with
                          | Some p, Some q => Ok (negb (Qle_bool p q))
                          | _, _ => Raise TypeError
                          end).
  { destruct x; try discriminate; destruct y; try discriminate; reflexivity. }
  rewrite E, (as_int_num _ _ Hx), (as_int_num _ _ Hy).
  unfold Qle_bool, inject_Z. simpl Qnum. simpl Qden.
  rewrite !Z.mul_1_r. f_equal.
  rewrite Z.ltb_antisym. reflexivity.
Qed.

(** ** The generators *)

Lemma hexdigit_is_hexdigit (n : Z) : 0 <= n < 16 -> is_hexdigit (hexdigit n) = true.
Proof.
  intros H. unfold is_hexdigit, hexdigit.
  destruct (Z.ltb_spec n 10); apply orb_true_iff; [left | right];
    apply andb_true_iff; split; apply Z.leb_le; lia.
Qed.

Lemma hex_byte_is_hex (b : Z) : 0 <= b < 256 -> forallb is_hexdigit (hex_byte b) = true.
Proof.
  intros H. unfold hex_byte. simpl.
  rewrite !hexdigit_is_hexdigit; [reflexivity | |].
  - apply Z.mod_pos_bound. lia.
  - split; [apply Z.div_pos; lia | apply Z.div_lt_upper_bound; lia].
Qed.

Lemma flat_map_pairs {X} (f : X -> pystr) (l : list X) :
  (forall x, List.length (f x) = 2%nat) ->
  List.length (flat_map f l) = (2 * List.length l)%nat.
Proof.
  intros Hf. induction l as [|x l IH]; simpl; [reflexivity|].
  rewrite length_app, Hf, IH. lia.
Qed.

Lemma forallb_flat_map {X} (P : Z -> bool) (f : X -> pystr) (l : list X) :
  (forall x, forallb P (f x) = true) -> forallb P (flat_map f l) = true.
Proof.
  intros Hf. induction l as [|x l IH]; simpl; [reflexivity|].
  now rewrite forallb_app, Hf, IH.
Qed.

Lemma fits_ssize_t_spec (i : Z) :
  fits_ssize_t i = true <-> - 2 ^ 63 <= i < 2 ^ 63.
Proof.
  unfold fits_ssize_t. rewrite andb_true_iff, Z.leb_le, Z.ltb_lt. reflexivity.
Qed.

Lemma fits_int_spec (i : Z) : fits_int i = true <-> - 2 ^ 31 <= i < 2 ^ 31.
Proof.
  unfold fits_int. rewrite andb_true_iff, Z.leb_le, Z.ltb_lt. reflexivity.
Qed.

(** [secrets.token_hex(n)] returns [2 * n] hexadecimal digits, whatever the
    bytes drawn. *)
Lemma token_hex_names (n : Z) (p : nat) :
  0 <= n -> n < 2 ^ 63 ->
  exists name,
    token_hex n p = (Ok name, (p + Z.to_nat n)%nat) /\
    List.length name = (2 * Z.to_nat n)%nat /\
    forallb is_hexdigit name = true.
Proof.
  intros Hn Hmax. unfold token_hex.
  replace (fits_ssize_t n) with true
    by (symmetry; apply fits_ssize_t_spec; split; [|exact Hmax];
        apply Z.le_trans with 0; [discriminate | exact Hn]).
  simpl negb. cbv iota.
  destruct (Z.ltb_spec n 0); [lia|].
  eexists. split; [reflexivity|]. split.
  - rewrite flat_map_pairs by reflexivity. now rewrite length_seq.
  - apply forallb_flat_map. intros i. apply hex_byte_is_hex.
    apply Z.mod_pos_bound. lia.
Qed.

Lemma token_hex_negative (n : Z) (p : nat) :
  - 2 ^ 63 <= n -> n < 0 -> token_hex n p = (Raise ValueError, p).
Proof.
  intros Hmin Hn. unfold token_hex.
  replace (fits_ssize_t n) with true
    by (symmetry; apply fits_ssize_t_spec; split; [exact Hmin|];
        apply Z.lt_trans with 0; [exact Hn | reflexivity]).
  simpl negb. cbv iota.
  destruct (Z.ltb_spec n 0); [reflexivity | lia].
Qed.

Lemma token_hex_overflow (n : Z) (p : nat) :
  n < - 2 ^ 63 \/ 2 ^ 63 <= n -> token_hex n p = (Raise OverflowError, p).
Proof.
  intros Hn. unfold token_hex.
  destruct (fits_ssize_t n) eqn:E; [|reflexivity].
  apply fits_ssize_t_spec in E. destruct Hn as [Hn | Hn]; [|now apply Z.le_ngt in Hn].
  destruct E as [E _]. now apply Z.le_ngt in E.
Qed.

(** A name that [token_hex] returns is made of hexadecimal digits. *)
Lemma token_hex_digits (n : Z) (p : nat) (name : pystr) (p' : nat) :
  token_hex n p = (Ok name, p') -> forallb is_hexdigit name = true.
Proof.
  unfold token_hex. destruct (negb (fits_ssize_t n)); [discriminate|].
  destruct (n <? 0); [discriminate|].
  intros H. injection H as <- _.
  apply forallb_flat_map. intros i. apply hex_byte_is_hex.
  apply Z.mod_pos_bound. lia.
Qed.

Lemma random_chars_names (a b : Z) (n p : nat) (name : pystr) (p' : nat) :
  random_chars a b n p = (Ok name, p') ->
  List.length name = n /\ Forall (fun c => a <= c <= b) name.
Proof.
  revert p name p'. induction n as [|n IH]; intros p name p'; simpl.
  - intros H. injection H as <- <-. split; [reflexivity | constructor].
  - unfold random_choice_range. destruct (Z.ltb_spec b a); [discriminate|].
    destruct (negb (fits_ssize_t (b - a + 1))); [discriminate|].
    unfold chr.
    destruct ((0 <=? a + draw p mod (b - a + 1)) && (a + draw p mod (b - a + 1) <? 1114112));
      [|destruct (fits_int _); discriminate].
    destruct (random_chars a b n (S p)) as [[r|e] q] eqn:E; [|discriminate].
    intros H'. injection H' as <- <-.
    destruct (IH _ _ _ E) as [Hl Hf]. split; [simpl; now rewrite Hl|].
    constructor; [|exact Hf].
    pose proof (Z.mod_pos_bound (draw p) (b - a + 1)). lia.
Qed.

(** A range of numbers that fit [int] has a length that fits [ssize_t]. *)
Lemma code_points_fit (a b : Z) :
  - 2 ^ 31 <= a /\ a <= b /\ b < 2 ^ 31 -> fits_ssize_t (b - a + 1) = true.
Proof.
  intros (Ha & Hab & Hb). apply fits_ssize_t_spec.
  change (2 ^ 31) with 2147483648 in *. change (2 ^ 63) with 9223372036854775808.
  lia.
Qed.

Lemma random_chars_returns (a b : Z) (n p : nat) :
  0 <= a -> a <= b -> b < 1114112 ->
  exists name, random_chars a b n p = (Ok name, (p + n)%nat).
Proof.
  intros Ha Hab Hb. revert p. induction n as [|n IH]; intros p; simpl.
  - exists []. now rewrite Nat.add_0_r.
  - unfold random_choice_range. destruct (Z.ltb_spec b a); [lia|].
    rewrite (code_points_fit a b) by lia. simpl negb. cbv iota.
    pose proof (Z.mod_pos_bound (draw p) (b - a + 1)) as Hm.
    unfold chr.
    replace ((0 <=? a + draw p mod (b - a + 1)) && (a + draw p mod (b - a + 1) <? 1114112))
      with true
      by (symmetry; apply andb_true_iff; split; [apply Z.leb_le | apply Z.ltb_lt]; lia).
    destruct (IH (S p)) as [r Hr]. rewrite Hr.
    eexists. f_equal. lia.
Qed.

(** *** What option resolution rejects *)

Lemma parse_missing_strategy (options : dict) (c : pystr) :
  lookup (rename_to_key c) options = None ->
  fst (parse_rename_options options c) = Raise OptionError.
Proof.
  intros H. rewrite parse_rename_options_eq. cbv zeta. rewrite H.
  now destruct (as_int _).
Qed.

Lemma parse_length_not_integer (options : dict) (c : pystr) :
  as_int (default (VInt 10) (lookup (name_length_key c) options)) = None ->
  fst (parse_rename_options options c) = Raise OptionError.
Proof.
  intros H. rewrite parse_rename_options_eq. cbv zeta. now rewrite H.
Qed.

Lemma parse_inverted_range (options : dict) (c : pystr) (a b : Z) :
  lookup (rename_to_key c) options = Some (VStr (str "random_unicode_char_range")) ->
  lookup (KStr (str "range_start")) options = Some (VInt a) ->
  lookup (KStr (str "range_end")) options = Some (VInt b) ->
  b < a ->
  fst (parse_rename_options options c) = Raise OptionError.
Proof.
  intros Hs Ha Hb Hab. rewrite parse_rename_options_eq. cbv zeta.
  rewrite Hs, Ha, Hb. destruct (as_int _); [|reflexivity].
  change (is_str (VStr (str "random_unicode_char_range")) "random_hex") with false.
  change (is_str (VStr (str "random_unicode_char_range")) "random_unicode_char_range")
    with true.
  cbv iota. simpl default. rewrite (py_gt_int (VInt a) (VInt b) a b) by reflexivity.
  destruct (Z.ltb_spec b a); [reflexivity | lia].
Qed.

(** An exception of option resolution leaves the pass before anything is
    mutated. *)
Lemma parse_error_is_eager (options : dict) (e : exn) (targets : value) (p : nat) :
  (fst (parse_rename_options options (str "variables")) = Raise e ->
   rename_variables targets options p = (targets, p, Some e)) /\
  (fst (parse_rename_options options (str "lists")) = Raise e ->
   rename_lists targets options p = (targets, p, Some e)) /\
  (fst (parse_rename_options options (str "sprites")) = Raise e ->
   rename_sprites targets options p = (targets, p, Some e)) /\
  (fst (parse_rename_options options (str "costumes")) = Raise e ->
   rename_costumes targets options p = (targets, p, Some e)) /\
  (fst (parse_rename_options options (str "sounds")) = Raise e ->
   rename_sounds targets options p = (targets, p, Some e)) /\
  (fst (parse_rename_options options (str "backdrops")) = Raise e ->
   rename_backdrops targets options p = (targets, p, Some e)) /\
  (fst (parse_rename_options options (str "my_blocks")) = Raise e ->
   rename_my_blocks targets options p = (targets, p, Some e)).
Proof.
  unfold rename_variables, rename_lists, rename_named, rename_sprites, rename_costumes,
    rename_sounds, rename_backdrops, rename_my_blocks.
  repeat split; intros H;
    match goal with
    | |- context [parse_rename_options ?o ?c] =>
        destruct (parse_rename_options o c) as [[g|e'] o']; simpl in H;
        [discriminate | now injection H as ->]
    end.
Qed.

(** C1: a [null] strategy is returned as the generator, and a
    [random_unicode_char_range] record without its bounds, or with one bound
    only, ends in the [TypeError] of the comparison: neither raises
    [OptionError]. *)
Theorem null_strategy_and_missing_bounds_are_no_OptionError :
  parse_rename_options
    [(KStr (str "rename_variables_to"), VNone)] (str "variables")
    = (Ok (GenValue VNone), []) /\
  parse_rename_options
    [(KStr (str "rename_variables_to"), VStr (str "random_unicode_char_range"))]
    (str "variables")
    = (Raise TypeError, []) /\
  parse_rename_options
    [(KStr (str "rename_variables_to"), VStr (str "random_unicode_char_range"));
     (KStr (str "range_start"), VInt 1)]
    (str "variables")
    = (Raise TypeError, []).
Proof. repeat split; reflexivity. Qed.

(** *** The hexadecimal strategy *)

Lemma random_hex_names (options : dict) (c : pystr) (L : Z) :
  lookup (rename_to_key c) options = Some (VStr (str "random_hex")) ->
  default (VInt 10) (lookup (name_length_key c) options) = VInt L ->
  0 <= L -> L < 2 ^ 63 ->
  exists o,
    parse_rename_options options c = (Ok (GenHex L), o) /\
    forall p, exists name,
      call (GenHex L) p = (Ok name, (p + Z.to_nat L)%nat) /\
      List.length name = (2 * Z.to_nat L)%nat /\
      forallb is_hexdigit name = true.
Proof.
  intros Hs Hl HL Hmax. rewrite parse_rename_options_eq. cbv zeta.
  rewrite Hs, Hl. simpl as_int.
  change (is_str (VStr (str "random_hex")) "random_hex") with true. cbv iota.
  eexists. split; [reflexivity|].
  intros p. now apply token_hex_names.
Qed.

(** C2: with name length 4 every name of the [random_hex] generator has
    8 hexadecimal characters, two for each of the 4 random bytes. *)
Theorem random_hex_name_is_twice_as_long :
  parse_rename_options
    [(KStr (str "rename_variables_to"), VStr (str "random_hex"));
     (KStr (str "variable_name_length"), VInt 4)] (str "variables")
    = (Ok (GenHex 4), []) /\
  forall p, exists name,
    call (GenHex 4) p = (Ok name, (p + 4)%nat) /\
    List.length name = 8%nat /\
    forallb is_hexdigit name = true.
Proof.
  split; [reflexivity|].
  intros p. destruct (token_hex_names 4 p) as [name H]; [lia | reflexivity |].
  exists name. exact H.
Qed.

(** *** The code point range strategy *)

(** C9: for integer bounds [a <= b] and a name length [L], every name the
    generator returns has [L] characters, each with a code point in
    [[a, b]]; and the generator does return one when the interval holds
    code points only. *)
Theorem random_unicode_char_range_names (options : dict) (c : pystr) (a b L : Z) :
  lookup (rename_to_key c) options = Some (VStr (str "random_unicode_char_range")) ->
  default (VInt 10) (lookup (name_length_key c) options) = VInt L ->
  lookup (KStr (str "range_start")) options = Some (VInt a) ->
  lookup (KStr (str "range_end")) options = Some (VInt b) ->
  a <= b ->
  0 <= L ->
  exists g o,
    parse_rename_options options c = (Ok g, o) /\
    (forall p name p',
        call g p = (Ok name, p') ->
        Z.of_nat (List.length name) = L /\ Forall (fun x => a <= x <= b) name) /\
    (0 <= a -> b < 1114112 -> forall p, exists name p', call g p = (Ok name, p')).
Proof.
  intros Hs Hl Ha Hb Hab HL. rewrite parse_rename_options_eq. cbv zeta.
  rewrite Hs, Hl, Ha, Hb. simpl as_int.
  change (is_str (VStr (str "random_unicode_char_range")) "random_hex") with false.
  change (is_str (VStr (str "random_unicode_char_range")) "random_unicode_char_range")
    with true.
  cbv iota. simpl default. rewrite (py_gt_int (VInt a) (VInt b) a b) by reflexivity.
  destruct (Z.ltb_spec b a); [lia|]. simpl as_int.
  exists (GenRange a b L). eexists. split; [reflexivity|]. split.
  - intros p name p' Hc. simpl in Hc.
    apply random_chars_names in Hc as [Hlen Hall]. split; [lia | exact Hall].
  - intros Ha0 Hb1 p. simpl.
    destruct (random_chars_returns a b (Z.to_nat L) p Ha0 Hab Hb1) as [name Hn].
    now exists name, (p + Z.to_nat L)%nat.
Qed.

(** *** Any other strategy *)

(** The name length is tested before the strategy: with a length that is
    no integer, a strategy that is neither of the two strings ends in
    [OptionError]. *)
Lemma unknown_strategy_with_bad_length_raises :
  let options :=
    [(KStr (str "rename_variables_to"), VStr (str "foo"));
     (KStr (str "variable_name_length"), VStr (str "long"))] in
  lookup (rename_to_key (str "variables")) options = Some (VStr (str "foo")) /\
  is_str (VStr (str "foo")) "random_hex" = false /\
  is_str (VStr (str "foo")) "random_unicode_char_range" = false /\
  parse_rename_options options (str "variables") = (Raise OptionError, []).
Proof. repeat split; reflexivity. Qed.



(** ** Loops *)

(** A loop never changes the number of elements, and relates each element
    to what its body makes of it, whether it ends normally or not. *)
Lemma for_each_rel {A S} (R : A -> A -> Prop) (body : A -> S -> outcome A S) :
  (forall x, R x x) ->
  (forall x st, R x (fst (fst (body x st)))) ->
  forall l st, Forall2 R l (fst (fst (for_each body l st))).
Proof.
  intros Hrefl Hbody. induction l as [|x r IH]; intros st; simpl.
  - constructor.
  - pose proof (Hbody x st) as Hx.
    destruct (body x st) as [[x' s1] [e|]]; simpl in *.
    + constructor; [exact Hx|].
      clear -Hrefl. induction r; constructor; auto.
    + pose proof (IH s1) as Hr.
      destruct (for_each body r s1) as [[r' s2] e2]; simpl in *.
      now constructor.
Qed.

(** A loop that ends normally ran its body normally on every element, and
    keeps an invariant of the state. *)
Lemma for_each_inv {A S} (I : S -> Prop) (body : A -> S -> outcome A S) (l : list A) :
  (forall x s x' s', In x l -> I s -> body x s = (x', s', None) -> I s') ->
  forall st l' st',
    I st ->
    for_each body l st = (l', st', None) ->
    I st' /\ Forall2 (fun x x' => exists s s', I s /\ body x s = (x', s', None)) l l'.
Proof.
  induction l as [|x r IH]; intros Hstep st l' st' Hst; simpl.
  - intros H. injection H as <- <-. split; [assumption | constructor].
  - destruct (body x st) as [[x' s1] [e|]] eqn:Hb; [discriminate|].
    destruct (for_each body r s1) as [[r' s2] e2] eqn:Hr.
    intros H. injection H as <- <- ->.
    assert (Hs1 : I s1) by (eapply Hstep; eauto; now left).
    destruct (IH (fun y s y' s' Hy => Hstep y s y' s' (or_intror Hy)) s1 r' s2 Hs1 Hr)
      as [Hs2 Hall].
    split; [exact Hs2|]. constructor; [|exact Hall].
    now exists st, s1.
Qed.

(** Where the final state comes from: a fact [b] of the final state held
    at the start, or was brought about at some position. *)
Lemma for_each_prov {A S B} (I : S -> Prop) (Q : S -> B -> Prop) (W : A -> A -> B -> Prop)
  (body : A -> S -> outcome A S) (l : list A) :
  (forall x s x' s',
      I s -> body x s = (x', s', None) ->
      I s' /\ forall b, Q s' b -> Q s b \/ W x x' b) ->
  forall st l' st',
    I st ->
    for_each body l st = (l', st', None) ->
    I st' /\
    forall b, Q st' b ->
      Q st b \/
      exists i x x', nth_error l i = Some x /\ nth_error l' i = Some x' /\ W x x' b.
Proof.
  intros Hstep. induction l as [|x r IH]; intros st l' st' Hst; simpl.
  - intros H. injection H as <- <-. split; [assumption | now left].
  - destruct (body x st) as [[x' s1] [e|]] eqn:Hb; [discriminate|].
    destruct (for_each body r s1) as [[r' s2] e2] eqn:Hr.
    intros H. injection H as <- <- ->.
    destruct (Hstep _ _ _ _ Hst Hb) as [Hs1 Hq1].
    destruct (IH s1 r' s2 Hs1 Hr) as [Hs2 Hq2].
    split; [exact Hs2|]. intros b Hb2.
    destruct (Hq2 b Hb2) as [H1 | (i & y & y' & Hy & Hy' & Hw)].
    + destruct (Hq1 b H1) as [H0 | Hw]; [now left|].
      right. now exists 0%nat, x, x'.
    + right. now exists (Datatypes.S i), y, y'.
Qed.

(** What the final state covers: a fact established at an element, or
    holding at the start, still holds at the end. *)
Lemma for_each_cover {A S B} (I : S -> Prop) (C : S -> B -> Prop) (V : A -> B -> Prop)
  (body : A -> S -> outcome A S) (l : list A) :
  (forall x s x' s',
      I s -> body x s = (x', s', None) ->
      I s' /\ (forall b, C s b -> C s' b) /\ (forall b, V x b -> C s' b)) ->
  forall st l' st',
    I st ->
    for_each body l st = (l', st', None) ->
    forall b, (C st b \/ exists x, In x l /\ V x b) -> C st' b.
Proof.
  intros Hstep. induction l as [|x r IH]; intros st l' st' Hst; simpl.
  - intros H. injection H as <- <-. intros b [Hc | (x & [] & _)]. exact Hc.
  - destruct (body x st) as [[x' s1] [e|]] eqn:Hb; [discriminate|].
    destruct (for_each body r s1) as [[r' s2] e2] eqn:Hr.
    intros H. injection H as <- <- ->.
    destruct (Hstep _ _ _ _ Hst Hb) as (Hs1 & Hmono & Hnew).
    intros b Hcase. apply (IH s1 r' s2 Hs1 Hr).
    destruct Hcase as [Hc | (y & [<- | Hy] & Hv)].
    + left. now apply Hmono.
    + left. now apply Hnew.
    + right. now exists y.
Qed.

Lemma Forall2_nth {A B} (R : A -> B -> Prop) (l : list A) (l' : list B) :
  Forall2 R l l' ->
  forall i x, nth_error l i = Some x -> exists x', nth_error l' i = Some x' /\ R x x'.
Proof.
  induction 1 as [|y y' r r' Hy Hr IH]; intros [|i] x; simpl; try discriminate.
  - intros H. injection H as <-. now exists y'.
  - apply IH.
Qed.

Lemma Forall2_nth_rev {A B} (R : A -> B -> Prop) (l : list A) (l' : list B) :
  Forall2 R l l' ->
  forall i x', nth_error l' i = Some x' -> exists x, nth_error l i = Some x /\ R x x'.
Proof.
  induction 1 as [|y y' r r' Hy Hr IH]; intros [|i] x'; simpl; try discriminate.
  - intros H. injection H as <-. now exists y.
  - apply IH.
Qed.

(** ** Subscripts *)

Lemma getitem_KStr (v : value) (k : pystr) (x : value) :
  getitem v (KStr k) = Ok x -> exists d, v = VDict d /\ lookup (KStr k) d = Some x.
Proof.
  destruct v; simpl; try discriminate.
  intros H. exists d. split; [reflexivity|].
  destruct (lookup (KStr k) d); [now injection H as -> | discriminate].
Qed.

Lemma getitem_put_same (d : dict) (k : key) (x : value) :
  getitem (put (VDict d) k x) k = Ok x.
Proof. simpl. now rewrite lookup_store_same. Qed.

Lemma getitem_put_other (v : value) (k k' : pystr) (x : value) :
  k <> k' -> getitem (put v (KStr k') x) (KStr k) = getitem v (KStr k).
Proof.
  intros Hne. destruct v; try reflexivity. simpl.
  rewrite lookup_store_other; [reflexivity | congruence].
Qed.

Lemma put_getitem (v : value) (k : pystr) (x : value) :
  getitem v (KStr k) = Ok x -> put v (KStr k) x = v.
Proof.
  intros H. apply getitem_KStr in H as (d & -> & H).
  unfold put. simpl. now rewrite store_lookup.
Qed.

(** [at_item] ends normally exactly when the subscript and the body do. *)
Lemma at_item_done {S} (k : key) (body : stmt S) (v : value) (st : S)
  (v' : value) (st' : S) :
  at_item k body v st = (v', st', None) ->
  exists x x', getitem v k = Ok x /\ body x st = (x', st', None) /\ v' = put v k x'.
Proof.
  unfold at_item. destruct (getitem v k) as [x|e]; [|discriminate].
  destruct (body x st) as [[x' s1] e1] eqn:Hb.
  intros H. injection H as <- <- ->. now exists x, x'.
Qed.

Lemma for_items_done {S} (body : key -> stmt S) (v : value) (st : S)
  (v' : value) (st' : S) :
  for_items body v st = (v', st', None) ->
  exists d d',
    v = VDict d /\ v' = VDict d' /\
    for_each (fun kv st =>
                match body (fst kv) (snd kv) st with
                | (x', st', e) => ((fst kv, x'), st', e)
                end) d st = (d', st', None).
Proof.
  unfold for_items. destruct v; try discriminate.
  destruct (for_each _ d st) as [[d' s1] e1] eqn:Hd.
  intros H. injection H as <- <- ->. now exists d, d'.
Qed.

(** ** Sounds *)

Lemma assign_done {S} (k : key) (x v : value) (st : S) (v' : value) (st' : S) :
  assign k x v st = (v', st', None) -> setitem v k x = Ok v' /\ st' = st.
Proof.
  unfold assign, eval. destruct (setitem v k x) as [w|e]; [|discriminate].
  intros H. now injection H as <- <-.
Qed.

Lemma assign_name_done (g : namegen) (k : key) (v : value) (p : nat) (v' : value) (p' : nat) :
  assign_name g k v p = (v', p', None) ->
  exists name, call g p = (Ok name, p') /\ setitem v k (VStr name) = Ok v'.
Proof.
  unfold assign_name. destruct (call g p) as [[name|e] q]; [|discriminate].
  intros H. apply assign_done in H as [H ->]. now exists name.
Qed.

Lemma setitem_getitem (v : value) (k : pystr) (x v' : value) :
  setitem v (KStr k) x = Ok v' -> getitem v' (KStr k) = Ok x.
Proof.
  destruct v; simpl; try discriminate.
  intros H. injection H as <-. simpl. now rewrite lookup_store_same.
Qed.

Lemma Forall2_In_r {A B} (R : A -> B -> Prop) (l : list A) (l' : list B) (y : B) :
  Forall2 R l l' -> In y l' -> exists x, In x l /\ R x y.
Proof.
  induction 1 as [|a b r r' Hab Hr IH]; simpl; [contradiction|].
  intros [<- | Hy].
  - exists a. auto.
  - destruct (IH Hy) as (x & Hx & Hxy). exists x. auto.
Qed.

(** The body of the loop over the targets, in both versions. *)
Lemma sounds_of_target_renamed (g : namegen) (t : value) (p : nat) (t' : value) (p' : nat) :
  at_item (KStr (str "sounds")) (for_in (assign_name g (KStr (str "name")))) t p
    = (t', p', None) ->
  sounds_renamed g t'.
Proof.
  intros H. apply at_item_done in H as (x & x' & Hx & Hbody & ->).
  apply getitem_KStr in Hx as (d & -> & _).
  intros sounds sound Hs Hin. rewrite getitem_put_same in Hs. injection Hs as ->.
  unfold for_in in Hbody. destruct x as [| | | | |l| |];
    try (simpl in Hbody; discriminate);
    try (simpl in Hbody; destruct (for_each _ _ p) as [[? ?] ?]; discriminate).
  destruct (for_each (assign_name g (KStr (str "name"))) l p) as [[l' q] e] eqn:Hl.
  injection Hbody as <- <- ->.
  apply (for_each_inv (fun _ => True)) in Hl as [_ Hall]; [|auto|exact I].
  destruct (Forall2_In_r _ _ _ _ Hall Hin) as (s0 & _ & q1 & q2 & _ & Hs0).
  apply assign_name_done in Hs0 as (name & Hcall & Hset).
  exists name, q1, q2. split; [exact Hcall|].
  now apply setitem_getitem in Hset.
Qed.

(** C7: [rename_sounds] of version 2.5 renames every sound of every
    target, the stage included; [rename_sounds] of version 0.1.0 never
    touches the first target, the stage, and renames the sounds of the
    others. *)
Theorem rename_sounds_scopes (ts : list value) (options : dict) (p : nat) :
  (forall ts' p',
      rename_sounds (VList ts) options p = (VList ts', p', None) ->
      exists g,
        fst (parse_rename_options options (str "sounds")) = Ok g /\
        Forall (sounds_renamed g) ts') /\
  (forall v' p' e,
      rename_sounds_0_1_0 (VList ts) options p = (v', p', e) ->
      exists ts',
        v' = VList ts' /\
        firstn 1 ts' = firstn 1 ts /\
        (e = None ->
         exists g,
           fst (parse_rename_options options (str "sounds")) = Ok g /\
           Forall (sounds_renamed g) (skipn 1 ts'))).
Proof.
  split.
  - intros ts' p'. unfold rename_sounds.
    destruct (parse_rename_options options (str "sounds")) as [[g|e] o]; [|discriminate].
    unfold for_in.
    destruct (for_each _ ts p) as [[l' q] e] eqn:Hl.
    intros H. injection H as <- <- ->.
    exists g. split; [reflexivity|].
    apply (for_each_inv (fun _ => True)) in Hl as [_ Hall]; [|auto|exact I].
    apply Forall_forall. intros t' Hin.
    destruct (Forall2_In_r _ _ _ _ Hall Hin) as (t & _ & q1 & q2 & _ & Ht).
    now apply sounds_of_target_renamed in Ht.
  - intros v' p' e. unfold rename_sounds_0_1_0.
    destruct (parse_rename_options options (str "sounds")) as [[g|e0] o].
    + unfold for_tail. destruct ts as [|stage sprites].
      * intros H. injection H as <- <- <-. exists []. repeat split.
        intros _. exists g. split; [reflexivity | constructor].
      * destruct (for_each _ sprites p) as [[l' q] e1] eqn:Hl.
        intros H. injection H as <- <- <-.
        exists (stage :: l'). repeat split.
        intros ->. exists g. split; [reflexivity|]. simpl.
        apply (for_each_inv (fun _ => True)) in Hl as [_ Hall]; [|auto|exact I].
        apply Forall_forall. intros t' Hin.
        destruct (Forall2_In_r _ _ _ _ Hall Hin) as (t & _ & q1 & q2 & _ & Ht).
        now apply sounds_of_target_renamed in Ht.
    + intros H. injection H as <- <- <-. exists ts. repeat split. discriminate.
Qed.

(** ** The loop over the blocks of all targets *)

Lemma blocks_of_getitem (t : value) (d : dict) :
  getitem t (KStr (str "blocks")) = Ok (VDict d) -> blocks_of t = Some d.
Proof. unfold blocks_of. now intros ->. Qed.

Lemma blocks_of_put (t : value) (x : value) (d' : dict) :
  getitem t (KStr (str "blocks")) = Ok x ->
  blocks_of (put t (KStr (str "blocks")) (VDict d')) = Some d'.
Proof.
  intros H. apply getitem_KStr in H as (d & -> & _).
  unfold blocks_of. now rewrite getitem_put_same.
Qed.

(** The loop over the blocks of one target, when it ends normally. *)
Lemma target_blocks_done {S} (body : stmt S) (t : value) (st : S) (t' : value) (st' : S) :
  at_item (KStr (str "blocks")) (for_items (fun _ => body)) t st = (t', st', None) ->
  exists d d',
    blocks_of t = Some d /\ blocks_of t' = Some d' /\
    for_each (fun kv st =>
                match body (snd kv) st with
                | (x', st', e) => ((fst kv, x'), st', e)
                end) d st = (d', st', None).
Proof.
  intros H. apply at_item_done in H as (x & x' & Hx & Hbody & ->).
  apply for_items_done in Hbody as (d & d' & -> & -> & Hd).
  exists d, d'. split; [now apply blocks_of_getitem|].
  split; [now apply blocks_of_put with (x := VDict d) | exact Hd].
Qed.

Lemma entry_done {S} (body : stmt S) (kv : key * value) (st : S)
  (kv' : key * value) (st' : S) :
  match body (snd kv) st with
  | (x', st', e) => ((fst kv, x'), st', e)
  end = (kv', st', None) ->
  fst kv' = fst kv /\ body (snd kv) st = (snd kv', st', None).
Proof.
  destruct (body (snd kv) st) as [[x' s1] e].
  intros H. now injection H as <- <- ->.
Qed.

(** A run of [for_blocks] that ends normally ran [body] normally on every
    block, and left every block at its place, under its key. *)
Lemma for_blocks_done {S} (I : S -> Prop) (body : stmt S) (ts : list value) (st : S)
  (v' : value) (st' : S) :
  (forall x s x' s', I s -> body x s = (x', s', None) -> I s') ->
  I st ->
  for_blocks body (VList ts) st = (v', st', None) ->
  exists ts',
    v' = VList ts' /\ I st' /\
    (forall j i k val,
        block_at ts j i = Some (k, val) ->
        exists val' s s',
          block_at ts' j i = Some (k, val') /\ I s /\ body val s = (val', s', None)).
Proof.
  intros Hstep Hst. unfold for_blocks, for_in.
  destruct (for_each _ ts st) as [[ts' s1] e] eqn:Hts.
  intros H. injection H as <- <- ->.
  exists ts'.
  assert (Hentry : forall (kv : key * value) s kv' s',
             I s ->
             match body (snd kv) s with
             | (x', st', e) => ((fst kv, x'), st', e)
             end = (kv', s', None) -> I s').
  { intros kv s kv' s' Hs H. apply entry_done in H as [_ H]. eauto. }
  assert (Htarget : forall t s t' s',
             I s ->
             at_item (KStr (str "blocks")) (for_items (fun _ => body)) t s = (t', s', None) ->
             I s').
  { intros t s t' s' Hs H. apply target_blocks_done in H as (d & d' & _ & _ & Hd).
    apply (for_each_inv I) in Hd as [Hs' _]; eauto. }
  apply (for_each_inv I) in Hts as [Hs1 Hall]; [|now eauto|exact Hst].
  split; [reflexivity|]. split; [exact Hs1|].
  intros j i k val. unfold block_at.
  destruct (nth_error ts j) as [t|] eqn:Ht; [|discriminate].
  destruct (Forall2_nth _ _ _ Hall _ _ Ht) as (t' & Ht' & s & s' & Hs & Hbody).
  rewrite Ht'.
  apply target_blocks_done in Hbody as (d & d' & -> & -> & Hd).
  apply (for_each_inv I) in Hd as [_ Hd]; [|now eauto|exact Hs].
  intros Hi.
  destruct (Forall2_nth _ _ _ Hd _ _ Hi) as ([k' val'] & Hi' & s2 & s2' & Hs2 & Hkv).
  apply entry_done in Hkv as [Hk Hv]. simpl in Hk, Hv. subst k'.
  now exists val', s2, s2'.
Qed.

(** Where the final state of [for_blocks] comes from. *)
Lemma for_blocks_prov {S B} (I : S -> Prop) (Q : S -> B -> Prop)
  (W : value -> value -> B -> Prop) (body : stmt S) (ts : list value) (st : S)
  (ts' : list value) (st' : S) :
  (forall x s x' s',
      I s -> body x s = (x', s', None) ->
      I s' /\ forall b, Q s' b -> Q s b \/ W x x' b) ->
  I st ->
  for_blocks body (VList ts) st = (VList ts', st', None) ->
  forall b, Q st' b ->
    Q st b \/
    exists j i k val val',
      block_at ts j i = Some (k, val) /\ block_at ts' j i = Some (k, val') /\ W val val' b.
Proof.
  intros Hstep Hst.
  pose (Wkv := fun (kv kv' : key * value) (b : B) =>
                 fst kv' = fst kv /\ W (snd kv) (snd kv') b).
  pose (Wt := fun (t t' : value) (b : B) =>
                exists d d' i kv kv',
                  blocks_of t = Some d /\ blocks_of t' = Some d' /\
                  nth_error d i = Some kv /\ nth_error d' i = Some kv' /\ Wkv kv kv' b).
  unfold for_blocks, for_in.
  destruct (for_each _ ts st) as [[l' s1] e] eqn:Hts.
  intros H. injection H as <- <- ->.
  apply (for_each_prov I Q Wt) in Hts as [_ Hq]; [| |exact Hst].
  - intros b Hb. destruct (Hq b Hb) as [H0 | (j & t & t' & Ht & Ht' & Hw)]; [now left|].
    right. destruct Hw as (d & d' & i & [k val] & [k' val'] & Hd & Hd' & Hi & Hi' & Hk & Hw).
    simpl in Hk, Hw. subst k'.
    exists j, i, k, val, val'. unfold block_at. rewrite Ht, Ht', Hd, Hd'. auto.
  - intros t s t' s' Hs Hbody.
    apply target_blocks_done in Hbody as (d & d' & Hd & Hd' & Hloop).
    apply (for_each_prov I Q Wkv) in Hloop as [Hs' Hq']; [| |exact Hs].
    + split; [exact Hs'|]. intros b Hb.
      destruct (Hq' b Hb) as [H0 | (i & kv & kv' & Hi & Hi' & Hw)]; [now left|].
      right. now exists d, d', i, kv, kv'.
    + intros kv s0 kv' s0' Hs0 Hkv. apply entry_done in Hkv as [Hk Hv].
      destruct (Hstep _ _ _ _ Hs0 Hv) as [Hs0' Hq0]. split; [exact Hs0'|].
      intros b Hb. destruct (Hq0 b Hb) as [H0 | Hw]; [now left|].
      right. now split.
Qed.

(** ** Placeholders *)

Lemma findall_skip_space (b : pystr) :
  findall_placeholders (32 :: b) = findall_placeholders b.
Proof. destruct b; reflexivity. Qed.

(** Across a space the matches of the two sides add up: no match spans
    the space. *)
Lemma findall_app_space (a b : pystr) :
  findall_placeholders (a ++ 32 :: b) = findall_placeholders a ++ findall_placeholders b.
Proof.
  enough (H : (findall_placeholders (a ++ 32 :: b)
               = findall_placeholders a ++ findall_placeholders b) /\
              (forall c, findall_placeholders ((c :: a) ++ 32 :: b)
                         = findall_placeholders (c :: a) ++ findall_placeholders b))
    by apply H.
  induction a as [|x a [IH1 IH2]].
  - split; [apply findall_skip_space|].
    intros c. simpl app.
    change (findall_placeholders (c :: 32 :: b))
      with (if (c =? 37) && is_placeholder_letter 32
            then [c; 32] :: findall_placeholders b
            else findall_placeholders (32 :: b)).
    change (is_placeholder_letter 32) with false.
    rewrite andb_false_r. apply findall_skip_space.
  - split; [apply IH2|].
    intros c.
    change (findall_placeholders ((c :: x :: a) ++ 32 :: b))
      with (if (c =? 37) && is_placeholder_letter x
            then [c; x] :: findall_placeholders (a ++ 32 :: b)
            else findall_placeholders ((x :: a) ++ 32 :: b)).
    change (findall_placeholders (c :: x :: a))
      with (if (c =? 37) && is_placeholder_letter x
            then [c; x] :: findall_placeholders a
            else findall_placeholders (x :: a)).
    destruct ((c =? 37) && is_placeholder_letter x).
    + now rewrite IH1.
    + apply IH2.
Qed.

Lemma findall_are_placeholders (s : pystr) : Forall is_placeholder (findall_placeholders s).
Proof.
  enough (H : Forall is_placeholder (findall_placeholders s) /\
              forall c, Forall is_placeholder (findall_placeholders (c :: s)))
    by apply H.
  induction s as [|x s [IH1 IH2]].
  - split; [constructor | intros c; constructor].
  - split; [apply IH2|].
    intros c.
    change (findall_placeholders (c :: x :: s))
      with (if (c =? 37) && is_placeholder_letter x
            then [c; x] :: findall_placeholders s
            else findall_placeholders (x :: s)).
    destruct ((c =? 37) && is_placeholder_letter x) eqn:E; [|apply IH2].
    apply andb_true_iff in E as [Ec Ex]. apply Z.eqb_eq in Ec. subst c.
    constructor; [now exists x | exact IH1].
Qed.

(** Joined by spaces, placeholders are found again one by one. *)
Lemma findall_join (l : list pystr) :
  Forall is_placeholder l -> findall_placeholders (join (str " ") l) = l.
Proof.
  induction 1 as [|t r (d & -> & Hd) Hr IH]; [reflexivity|].
  destruct r as [|t2 r].
  - simpl join.
    change (findall_placeholders [37; d])
      with (if (37 =? 37) && is_placeholder_letter d
            then [[37; d]] else findall_placeholders [d]).
    now rewrite Hd.
  - change (join (str " ") ([37; d] :: t2 :: r))
      with (37 :: d :: 32 :: join (str " ") (t2 :: r)).
    change (findall_placeholders (37 :: d :: 32 :: join (str " ") (t2 :: r)))
      with (if (37 =? 37) && is_placeholder_letter d
            then [37; d] :: findall_placeholders (32 :: join (str " ") (t2 :: r))
            else findall_placeholders (d :: 32 :: join (str " ") (t2 :: r))).
    rewrite Hd. simpl andb. cbv iota.
    now rewrite findall_skip_space, IH.
Qed.

(** The placeholders of a new proccode: those of the generated name, then
    those of the original proccode. *)
Lemma findall_new_proccode (name original : pystr) :
  findall_placeholders (new_proccode_of name original)
  = findall_placeholders name ++ findall_placeholders original.
Proof.
  unfold new_proccode_of.
  change (str " " ++ join (str " ") (findall_placeholders original))
    with (32 :: join (str " ") (findall_placeholders original)).
  rewrite findall_app_space, findall_join; [reflexivity|].
  apply findall_are_placeholders.
Qed.

Lemma findall_without_percent (s : pystr) :
  Forall (fun c => c <> 37) s -> findall_placeholders s = [].
Proof.
  induction 1 as [|c t Hc Ht IH]; [reflexivity|].
  destruct t as [|d t']; [reflexivity|].
  change (findall_placeholders (c :: d :: t'))
    with (if (c =? 37) && is_placeholder_letter d
          then [c; d] :: findall_placeholders t'
          else findall_placeholders (d :: t')).
  apply Z.eqb_neq in Hc. now rewrite Hc.
Qed.

Lemma hexdigits_without_percent (s : pystr) :
  forallb is_hexdigit s = true -> Forall (fun c => c <> 37) s.
Proof.
  intros H. apply Forall_forall. intros c Hin ->.
  rewrite forallb_forall in H. specialize (H _ Hin). discriminate H.
Qed.

(** A name of the hexadecimal generator holds no placeholder. *)
Lemma hex_name_without_placeholder (n : Z) (q : nat) (name : pystr) (q' : nat) :
  call (GenHex n) q = (Ok name, q') -> findall_placeholders name = [].
Proof.
  simpl. intros H. apply token_hex_digits in H.
  now apply findall_without_percent, hexdigits_without_percent.
Qed.

(** ** Procedures *)

Lemma py_eq_VStr (v : value) (s : pystr) : py_eq v (VStr s) = true -> v = VStr s.
Proof.
  destruct v as [|b|z|q|x|l|d|i f]; simpl; try discriminate.
  intros H. apply str_eqb_eq in H. now subst.
Qed.

Lemma is_str_eq (v : value) (x : string) : is_str v x = true -> v = VStr (str x).
Proof. apply py_eq_VStr. Qed.

Lemma proc_get_set (s k n m : pystr) (names : names_of_blocks) :
  proc_get s (proc_set k n names) = Some m ->
  (s = k /\ m = n) \/ proc_get s names = Some m.
Proof.
  induction names as [|[k0 n0] r IH]; simpl.
  - destruct (str_eqb s k) eqn:E; [|discriminate].
    intros H. injection H as <-. apply str_eqb_eq in E. now left.
  - destruct (str_eqb k k0) eqn:Ek; simpl.
    + apply str_eqb_eq in Ek. subst k0.
      destruct (str_eqb s k) eqn:Es.
      * intros H. injection H as <-. apply str_eqb_eq in Es. now left.
      * now right.
    + destruct (str_eqb s k0); [now right | exact IH].
Qed.

(** [val['mutation']['proccode'] = new_proccode], when it ends normally. *)
Lemma set_proccode_done {S} (new_proccode : pystr) (val : value) (st : S)
  (val' : value) (st' : S) :
  set_proccode new_proccode val st = (val', st', None) ->
  st' = st /\
  proccode val' = Ok (VStr new_proccode) /\
  getitem val' (KStr (str "opcode")) = getitem val (KStr (str "opcode")).
Proof.
  unfold set_proccode. intros H.
  apply at_item_done in H as (m & m' & Hm & Hset & ->).
  apply assign_done in Hset as [Hset ->]. split; [reflexivity|].
  apply getitem_KStr in Hm as (d & -> & _). split.
  - unfold proccode. rewrite getitem_put_same. simpl bind.
    now apply setitem_getitem in Hset.
  - apply getitem_put_other. discriminate.
Qed.

(** The two ways the body of the first loop ends normally. *)
Lemma rename_prototype_done (g : namegen) (val : value) (names : names_of_blocks) (p : nat)
  (val' : value) (names' : names_of_blocks) (p' : nat) :
  rename_prototype g val (names, p) = (val', (names', p'), None) ->
  (~ has_opcode val "procedures_prototype" /\ val' = val /\ names' = names /\ p' = p) \/
  (exists original name,
      has_opcode val "procedures_prototype" /\
      proccode val = Ok (VStr original) /\
      call g p = (Ok name, p') /\
      names' = proc_set original (new_proccode_of name original) names /\
      proccode val' = Ok (VStr (new_proccode_of name original)) /\
      getitem val' (KStr (str "opcode")) = getitem val (KStr (str "opcode"))).
Proof.
  unfold rename_prototype, eval.
  destruct (getitem val (KStr (str "opcode"))) as [op|e] eqn:Hop; [|discriminate].
  destruct (is_str op "procedures_prototype") eqn:Hproto.
  - destruct (proccode val) as [code|e] eqn:Hcode; [|discriminate].
    destruct (call g p) as [[name|e] q] eqn:Hcall; [|discriminate].
    destruct code as [| | | |original| | |]; try discriminate.
    intros H. apply set_proccode_done in H as (Hst & Hnew & Hsame).
    injection Hst as -> ->.
    right. exists original, name. repeat split; try assumption.
    + now exists op.
    + now rewrite <- Hop.
  - intros H. injection H as <- <- <-. left. repeat split.
    intros (op' & Hop' & Hp). congruence.
Qed.

Lemma names_getitem_done (names : names_of_blocks) (code : value) (n : pystr) :
  names_getitem names code = Ok n ->
  exists s, code = VStr s /\ proc_get s names = Some n.
Proof.
  unfold names_getitem. destruct (hashable code); [|discriminate].
  destruct code as [| | | |s| | |]; try discriminate.
  destruct (proc_get s names) as [m|] eqn:E; [|discriminate].
  intros H. injection H as <-. now exists s.
Qed.

(** The two ways the body of the second loop ends normally. *)
Lemma rewrite_call_done (names : names_of_blocks) (val : value) (p : nat)
  (val' : value) (p' : nat) :
  rewrite_call names val p = (val', p', None) ->
  (~ has_opcode val "procedures_call" /\ val' = val) \/
  (exists original n,
      has_opcode val "procedures_call" /\
      proccode val = Ok (VStr original) /\
      proc_get original names = Some n /\
      proccode val' = Ok (VStr n) /\
      getitem val' (KStr (str "opcode")) = getitem val (KStr (str "opcode"))).
Proof.
  unfold rewrite_call, eval.
  destruct (getitem val (KStr (str "opcode"))) as [op|e] eqn:Hop; [|discriminate].
  destruct (is_str op "procedures_call") eqn:Hcall.
  - destruct (proccode val) as [code|e] eqn:Hcode; [|discriminate].
    destruct (names_getitem names code) as [n|e] eqn:Hn; [|discriminate].
    apply names_getitem_done in Hn as (s & -> & Hs).
    intros H. apply set_proccode_done in H as (_ & Hnew & Hsame).
    right. exists s, n. repeat split; try assumption.
    + now exists op.
    + now rewrite <- Hop.
  - intros H. injection H as <- <-. left. split; [|reflexivity].
    intros (op' & Hop' & Hc). congruence.
Qed.

Lemma call_is_no_prototype (val : value) :
  has_opcode val "procedures_call" -> ~ has_opcode val "procedures_prototype".
Proof.
  intros (op & Hop & Hc) (op' & Hop' & Hp).
  rewrite Hop in Hop'. injection Hop' as <-.
  apply is_str_eq in Hc. subst op. discriminate Hp.
Qed.

(** What the first loop of [rename_my_blocks] leaves when it ends normally:
    the calls are untouched, and each binding of [names] comes from a
    prototype that now bears the bound proccode. *)
Lemma my_blocks_first_loop (g : namegen) (ts : list value) (p : nat)
  (v1 : value) (names : names_of_blocks) (p1 : nat) :
  for_blocks (rename_prototype g) (VList ts) ([], p) = (v1, (names, p1), None) ->
  exists ts1,
    v1 = VList ts1 /\
    (forall j i k val,
        block_at ts j i = Some (k, val) ->
        has_opcode val "procedures_call" ->
        block_at ts1 j i = Some (k, val)) /\
    (forall original n,
        proc_get original names = Some n ->
        exists j i k def def' name q q',
          block_at ts j i = Some (k, def) /\
          block_at ts1 j i = Some (k, def') /\
          has_opcode def "procedures_prototype" /\
          has_opcode def' "procedures_prototype" /\
          proccode def = Ok (VStr original) /\
          proccode def' = Ok (VStr n) /\
          call g q = (Ok name, q') /\
          n = new_proccode_of name original).
Proof.
  intros H.
  destruct (for_blocks_done (fun _ => True) (rename_prototype g) ts ([], p) v1 (names, p1))
    as (ts1 & -> & _ & Hfwd); [auto | exact I | exact H |].
  exists ts1. split; [reflexivity|]. split.
  - intros j i k val Hb Hcall.
    destruct (Hfwd _ _ _ _ Hb) as (val' & [nm q] & [nm' q'] & Hb' & _ & Hbody).
    apply rename_prototype_done in Hbody
      as [(_ & -> & _) | (original & name & Hproto & _)]; [exact Hb'|].
    now apply call_is_no_prototype in Hcall.
  - intros original n Hget.
    pose (Q := fun (st : names_of_blocks * nat) (b : pystr * pystr) =>
                 proc_get (fst b) (fst st) = Some (snd b)).
    pose (W := fun (def def' : value) (b : pystr * pystr) =>
                 exists name q q',
                   has_opcode def "procedures_prototype" /\
                   has_opcode def' "procedures_prototype" /\
                   proccode def = Ok (VStr (fst b)) /\
                   proccode def' = Ok (VStr (snd b)) /\
                   call g q = (Ok name, q') /\
                   snd b = new_proccode_of name (fst b)).
    destruct (for_blocks_prov (fun _ => True) Q W (rename_prototype g) ts ([], p) ts1
                (names, p1)) with (b := (original, n))
      as [H0 | (j & i & k & def & def' & Hb & Hb' & name & q & q' & Hw)];
      [ | exact I | exact H | exact Hget | discriminate H0 | ].
    + intros x [nm q] x' [nm' q'] _ Hbody. split; [exact I|].
      intros [s m] Hq. unfold Q in *. simpl in *.
      apply rename_prototype_done in Hbody
        as [(_ & -> & -> & ->) | (s0 & name & Hproto & Hcode & Hcall & -> & Hnew & Hop)];
        [now left|].
      apply proc_get_set in Hq as [[-> ->] | Hq]; [|now left].
      right. exists name, q, q'. simpl. repeat split; try assumption.
      destruct Hproto as (op & Hop1 & Hop2). exists op. split; [congruence | exact Hop2].
    + simpl in Hw. destruct Hw as (H1 & H2 & H3 & H4 & H5 & H6).
      now exists j, i, k, def, def', name, q, q'.
Qed.

(** When [rename_my_blocks] ends normally, every call-site bears the
    new proccode of a prototype whose proccode it bore before; its
    placeholders are those of the generated name followed by its own, in
    their order, hence its own when the generated name holds no
    placeholder, as every name of the hexadecimal generator does. *)
Theorem rename_my_blocks_rewrites_calls (ts : list value) (options : dict) (p : nat)
  (ts' : list value) (p' : nat) :
  rename_my_blocks (VList ts) options p = (VList ts', p', None) ->
  exists g,
    fst (parse_rename_options options (str "my_blocks")) = Ok g /\
    forall j i k val,
      block_at ts j i = Some (k, val) ->
      has_opcode val "procedures_call" ->
      exists original name q q' val',
        proccode val = Ok (VStr original) /\
        call g q = (Ok name, q') /\
        block_at ts' j i = Some (k, val') /\
        has_opcode val' "procedures_call" /\
        proccode val' = Ok (VStr (new_proccode_of name original)) /\
        findall_placeholders (new_proccode_of name original)
          = findall_placeholders name ++ findall_placeholders original /\
        (findall_placeholders name = [] ->
         findall_placeholders (new_proccode_of name original)
           = findall_placeholders original) /\
        ((exists n, g = GenHex n) -> findall_placeholders name = []) /\
        (exists j2 i2 k2 def def',
            block_at ts j2 i2 = Some (k2, def) /\
            block_at ts' j2 i2 = Some (k2, def') /\
            has_opcode def "procedures_prototype" /\
            proccode def = Ok (VStr original) /\
            proccode def' = Ok (VStr (new_proccode_of name original))).
Proof.
  unfold rename_my_blocks.
  destruct (parse_rename_options options (str "my_blocks")) as [[g|e] o]; [|discriminate].
  destruct (for_blocks (rename_prototype g) (VList ts) ([], p))
    as [[v1 [names p1]] [e1|]] eqn:H1; [discriminate|].
  apply my_blocks_first_loop in H1 as (ts1 & -> & Hcalls & Hprov).
  intros H2.
  destruct (for_blocks_done (fun _ => True) (rewrite_call names) ts1 p1 (VList ts') p')
    as (ts2 & E & _ & Hfwd); [auto | exact I | exact H2 |].
  injection E as <-.
  exists g. split; [reflexivity|].
  intros j i k val Hb Hcall.
  apply Hcalls in Hb; [|exact Hcall].
  destruct (Hfwd _ _ _ _ Hb) as (val' & s & s' & Hb' & _ & Hbody).
  apply rewrite_call_done in Hbody
    as [(Hno & _) | (original & n & _ & Hcode & Hget & Hnew & Hop)]; [contradiction|].
  destruct (Hprov _ _ Hget)
    as (j2 & i2 & k2 & def & def1 & name & q & q' & Hd & Hd1 & Hp & Hp1 & Hc & Hc1 & Hg & ->).
  exists original, name, q, q', val'. repeat split; try assumption.
  - destruct Hcall as (op & Hop1 & Hop2). exists op. split; [congruence | exact Hop2].
  - apply findall_new_proccode.
  - intros Hname. now rewrite findall_new_proccode, Hname.
  - intros [n ->]. now apply hex_name_without_placeholder in Hg.
  - destruct (Hfwd _ _ _ _ Hd1) as (def' & s2 & s2' & Hd' & _ & Hbody).
    apply rewrite_call_done in Hbody as [(_ & ->) | (o2 & n2 & Hcall2 & _)].
    + now exists j2, i2, k2, def, def1.
    + now apply call_is_no_prototype in Hcall2.
Qed.

(** A call-site whose proccode no prototype bears makes [rename_my_blocks]
    raise. *)
Lemma rename_my_blocks_dangling_call (ts : list value) (options : dict) (p : nat)
  (code : value) :
  has_procedure ts "procedures_call" code ->
  ~ has_procedure ts "procedures_prototype" code ->
  snd (rename_my_blocks (VList ts) options p) <> None.
Proof.
  intros (j & i & k & val & Hb & Hcall & Hcode) Hnone.
  destruct (rename_my_blocks (VList ts) options p) as [[v' p'] [e|]] eqn:H;
    [discriminate|]. exfalso.
  unfold rename_my_blocks in H.
  destruct (parse_rename_options options (str "my_blocks")) as [[g|e] o]; [|discriminate].
  destruct (for_blocks (rename_prototype g) (VList ts) ([], p))
    as [[v1 [names p1]] [e1|]] eqn:H1; [discriminate|].
  apply my_blocks_first_loop in H1 as (ts1 & -> & Hcalls & Hprov).
  destruct (for_blocks_done (fun _ => True) (rewrite_call names) ts1 p1 v' p')
    as (ts2 & _ & _ & Hfwd); [auto | exact I | exact H |].
  apply Hcalls in Hb; [|exact Hcall].
  destruct (Hfwd _ _ _ _ Hb) as (val' & s & s' & _ & _ & Hbody).
  apply rewrite_call_done in Hbody
    as [(Hno & _) | (original & n & _ & Hcode' & Hget & _)]; [contradiction|].
  destruct (Hprov _ _ Hget)
    as (j2 & i2 & k2 & def & def1 & name & q & q' & Hd & _ & Hp & _ & Hc & _).
  apply Hnone. exists j2, i2, k2, def. repeat split; [exact Hd | exact Hp | congruence].
Qed.

(** *** Completion *)

(** A loop whose body ends normally on every element ends normally. *)
Lemma for_each_total {A S} (I : S -> Prop) (P : A -> Prop)
  (body : A -> S -> outcome A S) (l : list A) :
  (forall x s, P x -> I s -> exists x' s', body x s = (x', s', None) /\ I s') ->
  Forall P l ->
  forall st, I st -> exists l' st', for_each body l st = (l', st', None) /\ I st'.
Proof.
  intros Hstep. induction 1 as [|x r Hx Hr IH]; intros st Hst; simpl.
  - now exists [], st.
  - destruct (Hstep x st Hx Hst) as (x' & s1 & -> & Hs1).
    destruct (IH s1 Hs1) as (r' & s2 & -> & Hs2).
    now exists (x' :: r'), s2.
Qed.

Lemma for_blocks_total {S} (I : S -> Prop) (P : value -> Prop) (body : stmt S)
  (ts : list value) (st : S) :
  (forall x s, P x -> I s -> exists x' s', body x s = (x', s', None) /\ I s') ->
  (forall t, In t ts ->
     exists d, blocks_of t = Some d /\ forall kv, In kv d -> P (snd kv)) ->
  I st ->
  exists ts' st', for_blocks body (VList ts) st = (VList ts', st', None) /\ I st'.
Proof.
  intros Hstep Hts Hst. unfold for_blocks, for_in.
  destruct (for_each_total I
              (fun t => exists d, blocks_of t = Some d /\ forall kv, In kv d -> P (snd kv))
              (at_item (KStr (str "blocks")) (for_items (fun _ => body))) ts)
    with (st := st) as (ts' & st' & -> & Hst'); [| |exact Hst|now exists ts', st'].
  - intros t s (d & Hd & Hall) Hs. unfold at_item, blocks_of in *.
    destruct (getitem t (KStr (str "blocks"))) as [[| | | | | |d0|]|e]; try discriminate.
    injection Hd as ->. unfold for_items.
    destruct (for_each_total I (fun kv => P (snd kv))
                (fun kv st => match body (snd kv) st with
                              | (x', st', e) => ((fst kv, x'), st', e)
                              end) d)
      with (st := s) as (d' & s' & -> & Hs'); [| |exact Hs|eauto].
    + intros kv s0 Hkv Hs0. destruct (Hstep _ _ Hkv Hs0) as (x' & s1 & -> & Hs1). eauto.
    + now apply Forall_forall.
  - now apply Forall_forall.
Qed.

(** The converse of [for_blocks_done]: every block of the result is what
    [body] made of the block at its place. *)
Lemma for_blocks_back {S} (body : stmt S) (ts : list value) (st : S)
  (ts' : list value) (st' : S) :
  for_blocks body (VList ts) st = (VList ts', st', None) ->
  forall t', In t' ts' ->
    exists d',
      blocks_of t' = Some d' /\
      forall kv', In kv' d' ->
        exists j i val s s',
          block_at ts j i = Some (fst kv', val) /\ body val s = (snd kv', s', None).
Proof.
  unfold for_blocks, for_in.
  destruct (for_each _ ts st) as [[l' s1] e] eqn:Hts.
  intros H. injection H as <- <- ->.
  apply (for_each_inv (fun _ => True)) in Hts as [_ Hall]; [|auto|exact I].
  intros t' Hin. apply In_nth_error in Hin as [j Hj].
  destruct (Forall2_nth_rev _ _ _ Hall _ _ Hj) as (t & Ht & s & s' & _ & Hbody).
  apply target_blocks_done in Hbody as (d & d' & Hd & Hd' & Hloop).
  exists d'. split; [exact Hd'|].
  apply (for_each_inv (fun _ => True)) in Hloop as [_ Hall2]; [|auto|exact I].
  intros kv' Hin'. apply In_nth_error in Hin' as [i Hi].
  destruct (Forall2_nth_rev _ _ _ Hall2 _ _ Hi) as ([k val] & Hkv & s2 & s2' & _ & Hb).
  apply entry_done in Hb as [Hk Hb]. simpl in Hk, Hb.
  exists j, i, val, s2, s2'. split; [|exact Hb].
  unfold block_at. now rewrite Ht, Hd, Hkv, Hk.
Qed.

(** What the final state of [for_blocks] covers. *)
Lemma for_blocks_cover {S B} (C : S -> B -> Prop) (V : value -> B -> Prop)
  (body : stmt S) (ts : list value) (st : S) (v' : value) (st' : S) :
  (forall x s x' s',
      body x s = (x', s', None) ->
      (forall b, C s b -> C s' b) /\ (forall b, V x b -> C s' b)) ->
  for_blocks body (VList ts) st = (v', st', None) ->
  forall b j i k val, block_at ts j i = Some (k, val) -> V val b -> C st' b.
Proof.
  intros Hstep. unfold for_blocks, for_in.
  destruct (for_each _ ts st) as [[l' s1] e] eqn:Hts.
  intros H. injection H as <- <- ->.
  intros b j i k val Hb Hv. unfold block_at in Hb.
  destruct (nth_error ts j) as [t|] eqn:Ht; [|discriminate].
  destruct (blocks_of t) as [d|] eqn:Hd; [|discriminate].
  apply (for_each_cover (fun _ => True) C
           (fun t b => exists d kv, blocks_of t = Some d /\ In kv d /\ V (snd kv) b)
           _ ts) with (b := b) in Hts; [exact Hts| |exact I|].
  - intros x s x' s' _ Hx.
    apply target_blocks_done in Hx as (d0 & d0' & Hd0 & _ & Hloop).
    split; [exact I|].
    assert (Hentry : forall (kv : key * value) s kv' s',
               True ->
               match body (snd kv) s with
               | (x', st', e) => ((fst kv, x'), st', e)
               end = (kv', s', None) ->
               True /\ (forall b, C s b -> C s' b) /\
               (forall b, V (snd kv) b -> C s' b)).
    { intros kv s0 kv' s0' _ H. apply entry_done in H as [_ H].
      split; [exact I|]. exact (Hstep _ _ _ _ H). }
    split.
    + intros b0 Hc.
      apply (for_each_cover (fun _ => True) C (fun kv b => V (snd kv) b) _ d0 Hentry
               s d0' s' I Hloop). now left.
    + intros b0 (d1 & kv & Hd1 & Hin & Hv1).
      rewrite Hd0 in Hd1. injection Hd1 as <-.
      apply (for_each_cover (fun _ => True) C (fun kv b => V (snd kv) b) _ d0 Hentry
               s d0' s' I Hloop). right. now exists kv.
  - right. exists t. split; [now apply nth_error_In in Ht|].
    exists d, (k, val). split; [exact Hd|]. split; [now apply nth_error_In in Hb | exact Hv].
Qed.

Lemma proc_get_set_same (k n : pystr) (names : names_of_blocks) :
  proc_get k (proc_set k n names) = Some n.
Proof.
  induction names as [|[k0 n0] r IH]; simpl.
  - now rewrite str_eqb_refl.
  - destruct (str_eqb k k0) eqn:E; simpl; now rewrite E.
Qed.

Lemma proc_get_set_bound (s k n : pystr) (names : names_of_blocks) :
  proc_get s names <> None -> proc_get s (proc_set k n names) <> None.
Proof.
  induction names as [|[k0 n0] r IH]; simpl; [congruence|].
  destruct (str_eqb k k0) eqn:Ek; simpl.
  - destruct (str_eqb s k0); [discriminate | auto].
  - destruct (str_eqb s k0); [discriminate | exact IH].
Qed.

(** [val['mutation']['proccode'] = new_proccode] ends normally on a block
    with a proccode. *)
Lemma set_proccode_total {S} (new_proccode : pystr) (val : value) (st : S) (code : value) :
  proccode val = Ok code ->
  exists val', set_proccode new_proccode val st = (val', st, None).
Proof.
  unfold proccode, set_proccode, at_item. simpl bind.
  destruct (getitem val (KStr (str "mutation"))) as [m|e]; [|discriminate].
  intros Hm. apply getitem_KStr in Hm as (d & -> & _).
  eexists. reflexivity.
Qed.

Lemma rename_prototype_total (g : namegen) (val : value) (st : names_of_blocks * nat) :
  returns_names g ->
  well_formed_block val ->
  exists val' st', rename_prototype g val st = (val', st', None).
Proof.
  intros Hg (op & Hop & Hcode). destruct st as [names p].
  unfold rename_prototype, eval. rewrite Hop.
  destruct (is_str op "procedures_prototype") eqn:Hp; [|eauto].
  destruct Hcode as [s Hs]; [now left|]. rewrite Hs.
  destruct (Hg p) as (name & p' & ->).
  destruct (set_proccode_total (new_proccode_of name s) val
              (proc_set s (new_proccode_of name s) names, p') _ Hs) as [val' ->].
  eauto.
Qed.

Lemma rewrite_call_total (names : names_of_blocks) (val : value) (p : nat) :
  (exists op,
      getitem val (KStr (str "opcode")) = Ok op /\
      (is_str op "procedures_call" = true ->
       exists s, proccode val = Ok (VStr s) /\ proc_get s names <> None)) ->
  exists val', rewrite_call names val p = (val', p, None).
Proof.
  intros (op & Hop & Hcode). unfold rewrite_call, eval. rewrite Hop.
  destruct (is_str op "procedures_call") eqn:Hc; [|eauto].
  destruct Hcode as (s & Hs & Hget); [reflexivity|]. rewrite Hs.
  unfold names_getitem. cbn [hashable].
  destruct (proc_get s names) as [n|]; [|congruence].
  exact (set_proccode_total n val p _ Hs).
Qed.

Lemma random_hex_returns_names (n : Z) :
  0 <= n -> n < 2 ^ 63 -> returns_names (GenHex n).
Proof.
  intros Hn Hmax p. destruct (token_hex_names n p Hn Hmax) as (name & H & _).
  exists name, (p + Z.to_nat n)%nat. exact H.
Qed.

(** X22: on a well-formed document in which every call has a prototype
    of its proccode, and with a generator that returns names,
    [rename_my_blocks] ends normally. *)
Theorem rename_my_blocks_completes (ts : list value) (options : dict) (p : nat) (g : namegen) :
  fst (parse_rename_options options (str "my_blocks")) = Ok g ->
  returns_names g ->
  well_formed ts ->
  (forall code, has_procedure ts "procedures_call" code ->
                has_procedure ts "procedures_prototype" code) ->
  exists ts' p', rename_my_blocks (VList ts) options p = (VList ts', p', None).
Proof.
  intros Hparse Hg Hwf Hdef. unfold rename_my_blocks.
  destruct (parse_rename_options options (str "my_blocks")) as [r o].
  simpl in Hparse. subst r.
  destruct (for_blocks_total (fun _ => True) well_formed_block (rename_prototype g)
              ts ([], p)) as (ts1 & [names p1] & H1 & _); [|exact Hwf|exact I|].
  { intros x s Hx _. destruct (rename_prototype_total g x s Hg Hx) as (x' & s' & ->).
    now exists x', s'. }
  rewrite H1.
  destruct (for_blocks_total (fun _ => True)
              (fun val => exists op,
                   getitem val (KStr (str "opcode")) = Ok op /\
                   (is_str op "procedures_call" = true ->
                    exists s, proccode val = Ok (VStr s) /\ proc_get s names <> None))
              (rewrite_call names) ts1 p1) as (ts2 & p2 & H2 & _);
    [| |exact I|now exists ts2, p2].
  { intros x s Hx _. destruct (rewrite_call_total names x s Hx) as [x' ->].
    now exists x', s. }
  intros t1 Ht1.
  destruct (for_blocks_back _ _ _ _ _ H1 t1 Ht1) as (d1 & Hd1 & Hblocks).
  exists d1. split; [exact Hd1|].
  intros [k val1] Hkv.
  destruct (Hblocks _ Hkv) as (j & i & val & [nm q] & [nm' q'] & Hb & Hbody).
  simpl in Hb, Hbody.
  assert (Hval : well_formed_block val).
  { unfold block_at in Hb.
    destruct (nth_error ts j) as [t|] eqn:Ht; [|discriminate].
    destruct (Hwf t (nth_error_In _ _ Ht)) as (d & Hd & Hall).
    rewrite Hd in Hb. exact (Hall _ (nth_error_In _ _ Hb)). }
  destruct Hval as (op & Hop & Hcode).
  apply rename_prototype_done in Hbody
    as [(_ & -> & _) | (original & name & Hproto & _ & _ & _ & _ & Hsame)].
  - simpl. exists op. split; [exact Hop|]. intros Hc.
    destruct Hcode as [s Hs]; [now right|].
    exists s. split; [exact Hs|].
    assert (Hcall : has_procedure ts "procedures_call" (VStr s)).
    { exists j, i, k, val. split; [exact Hb|]. split; [now exists op | exact Hs]. }
    destruct (Hdef _ Hcall) as (j2 & i2 & k2 & def & Hb2 & Hp2 & Hs2).
    apply (for_blocks_cover
             (fun (st : names_of_blocks * nat) (s : pystr) => proc_get s (fst st) <> None)
             (fun val s => has_opcode val "procedures_prototype" /\
                           proccode val = Ok (VStr s))
             (rename_prototype g) ts ([], p) (VList ts1) (names, p1))
      with (b := s) (j := j2) (i := i2) (k := k2) (val := def);
      [|exact H1|exact Hb2|now split].
    intros x [n0 q0] x' [n1 q1] Hx. simpl.
    apply rename_prototype_done in Hx
      as [(Hno & _ & -> & _) | (o1 & nm1 & Hp1 & Ho1 & _ & -> & _)].
    + split; [auto|]. intros b [Hpb _]. contradiction.
    + split.
      * intros b. apply proc_get_set_bound.
      * intros b [_ Hbcode]. rewrite Ho1 in Hbcode. injection Hbcode as <-.
        now rewrite proc_get_set_same.
  - simpl. exists op. split; [congruence|]. intros Hc. exfalso.
    destruct Hproto as (op' & Hop' & Hp').
    rewrite Hop in Hop'. injection Hop' as <-.
    apply is_str_eq in Hp'. subst op. discriminate Hc.
Qed.

(** ** Sprites *)

(** *** Keys of [names] *)

Lemma same_key_sym (a b : value) : same_key a b -> same_key b a.
Proof.
  intros [[-> ->] | [(s & -> & ->) | [(i & f & g & -> & ->) | (p & q & Ha & Hb & E)]]].
  - now left.
  - right. left. now exists s.
  - right. right. left. now exists i, g, f.
  - right. right. right. exists q, p. repeat split; try assumption. now symmetry.
Qed.

Lemma same_key_trans (a b c : value) : same_key a b -> same_key b c -> same_key a c.
Proof.
  intros [[-> ->] | [(s & -> & ->) | [(i & f & g & -> & ->) | (p & q & Ha & Hb & E)]]]
         [[E1 ->] | [(s' & E1 & ->) | [(i' & f' & g' & E1 & ->) | (p' & q' & Hb' & Hc & E')]]];
    try discriminate; try (subst b; discriminate).
  - now left.
  - right. left. now exists s.
  - injection E1 as <- <-. right. right. left. now exists i, f, g'.
  - right. right. right. exists p, q'. repeat split; try assumption.
    rewrite Hb in Hb'. injection Hb' as <-. now rewrite E.
Qed.

Lemma same_key_hashable (a b : value) : same_key a b -> hashable a = true.
Proof.
  intros [[-> _] | [(s & -> & _) | [(i & f & g & -> & _) | (p & q & Ha & _)]]];
    try reflexivity.
  destruct a; try reflexivity; discriminate.
Qed.

Lemma py_eq_same_key (a b : value) :
  hashable b = true -> (py_eq a b = true <-> same_key a b).
Proof.
  intros Hb. split.
  - destruct b as [|b|z|q|s|l|d|j g]; try discriminate; intros H.
    + destruct a; try discriminate. now left.
    + destruct a as [|b0|z0|q0|s0|l0|d0|i0 f0]; try discriminate; simpl in H;
        apply Qeq_bool_iff in H; right; right; right; eexists _, _; repeat split;
        eassumption.
    + destruct a as [|b0|z0|q0|s0|l0|d0|i0 f0]; try discriminate; simpl in H;
        apply Qeq_bool_iff in H; right; right; right; eexists _, _; repeat split;
        eassumption.
    + destruct a as [|b0|z0|q0|s0|l0|d0|i0 f0]; try discriminate; simpl in H;
        apply Qeq_bool_iff in H; right; right; right; eexists _, _; repeat split;
        eassumption.
    + apply py_eq_VStr in H. subst a. right. left. now exists s.
    + destruct a as [|b0|z0|q0|s0|l0|d0|i0 f0]; try discriminate; simpl in H.
      apply Z.eqb_eq in H. subst i0. right. right. left. now exists j, f0, g.
  - intros [[-> ->] | [(s & -> & ->) | [(i & f & g & -> & ->) | (p & q & Ha & Hq & E)]]].
    + reflexivity.
    + apply str_eqb_refl.
    + apply Z.eqb_refl.
    + apply Qeq_bool_iff in E.
      destruct a; try discriminate; destruct b; try discriminate;
        simpl in Ha, Hq |- *; injection Ha as <-; injection Hq as <-; exact E.
Qed.

Lemma py_eq_hashable_refl (a : value) : hashable a = true -> py_eq a a = true.
Proof.
  intros H. destruct a; try discriminate; simpl;
    try reflexivity; try apply Qeq_bool_refl; try apply Z.eqb_refl.
  apply str_eqb_refl.
Qed.

(** [x == a] and [a == k], for a key [k], give [x == k]. *)
Lemma py_eq_chain (x a k : value) :
  hashable a = true -> hashable k = true ->
  py_eq x a = true -> py_eq a k = true -> py_eq x k = true.
Proof.
  intros Ha Hk H1 H2.
  apply (py_eq_same_key x a Ha) in H1. apply (py_eq_same_key a k Hk) in H2.
  apply (py_eq_same_key x k Hk). now apply same_key_trans with a.
Qed.

(** [x == k] and [a == k], for a key [k], give [x == a]. *)
Lemma py_eq_meet (x a k : value) :
  hashable a = true -> hashable k = true ->
  py_eq x k = true -> py_eq a k = true -> py_eq x a = true.
Proof.
  intros Ha Hk H1 H2.
  apply (py_eq_same_key x k Hk) in H1. apply (py_eq_same_key a k Hk) in H2.
  apply (py_eq_same_key x a Ha).
  apply same_key_trans with k; [exact H1 | now apply same_key_sym].
Qed.

Lemma names_ok_set (old : value) (new : pystr) (names : names_of_sprites) :
  hashable old = true -> names_ok names -> names_ok (names_set old new names).
Proof.
  intros Hold. unfold names_ok. induction 1 as [|[k0 n0] r Hk Hr IH]; simpl.
  - now repeat constructor.
  - destruct (py_eq old k0); constructor; assumption.
Qed.

(** A binding found after [names[old] = new] is the new one, for a value
    equal to [old], or was there before. *)
Lemma names_get_set (x old : value) (new n : pystr) (names : names_of_sprites) :
  hashable old = true -> names_ok names ->
  names_get x (names_set old new names) = Some n ->
  (py_eq x old = true /\ n = new) \/ names_get x names = Some n.
Proof.
  intros Hold. unfold names_ok. induction 1 as [|[k0 n0] r Hk Hr IH]; simpl.
  - destruct (py_eq x old); [|discriminate]. intros H. injection H as <-. now left.
  - simpl in Hk. destruct (py_eq old k0) eqn:Ek; simpl.
    + destruct (py_eq x k0) eqn:Ex; [|now right].
      intros H. injection H as <-. left. split; [|reflexivity].
      now apply py_eq_meet with k0.
    + destruct (py_eq x k0); [now right | exact IH].
Qed.

Lemma names_get_set_mono (x old : value) (new : pystr) (names : names_of_sprites) :
  names_get x names <> None -> names_get x (names_set old new names) <> None.
Proof.
  induction names as [|[k0 n0] r IH]; simpl; [congruence|].
  destruct (py_eq old k0); simpl; destruct (py_eq x k0); try discriminate; auto.
Qed.

Lemma names_get_set_new (x old : value) (new : pystr) (names : names_of_sprites) :
  hashable old = true -> names_ok names ->
  py_eq x old = true -> names_get x (names_set old new names) <> None.
Proof.
  intros Hold Hok Hx. induction Hok as [|[k0 n0] r Hk Hr IH]; simpl.
  - now rewrite Hx.
  - simpl in Hk. destruct (py_eq old k0) eqn:Ek; simpl.
    + now rewrite (py_eq_chain x old k0 Hold Hk Hx Ek).
    + destruct (py_eq x k0); [discriminate | exact IH].
Qed.

(** *** The first loop *)

Lemma rename_sprite_done (g : namegen) (sprite : value) (names : names_of_sprites)
  (p : nat) (sprite' : value) (names' : names_of_sprites) (p' : nat) :
  rename_sprite g sprite (names, p) = (sprite', (names', p'), None) ->
  exists old new d,
    call g p = (Ok new, p') /\
    sprite = VDict d /\
    lookup (KStr (str "name")) d = Some old /\
    hashable old = true /\
    names' = names_set old new names /\
    sprite' = VDict (store (KStr (str "name")) (VStr new) d).
Proof.
  unfold rename_sprite, eval.
  destruct (call g p) as [[new|e] q] eqn:Hcall; [|discriminate].
  destruct (getitem sprite (KStr (str "name"))) as [old|e] eqn:Hold; [|discriminate].
  destruct (hashable old) eqn:Hhash; [|discriminate].
  intros H. apply assign_done in H as [Hset E]. injection E as -> ->.
  apply getitem_KStr in Hold as (d & -> & Hd).
  simpl in Hset. injection Hset as <-.
  now exists old, new, d.
Qed.

Lemma blocks_of_store_name (d : dict) (x : value) :
  blocks_of (VDict (store (KStr (str "name")) x d)) = blocks_of (VDict d).
Proof.
  unfold blocks_of. simpl. rewrite lookup_store_other; [reflexivity | discriminate].
Qed.

(** What the first loop of [rename_sprites] leaves when it ends normally. *)
Lemma sprites_first_loop (g : namegen) (sprites : list value) (p : nat)
  (sprites' : list value) (names : names_of_sprites) (p1 : nat) :
  for_each (rename_sprite g) sprites ([], p) = (sprites', (names, p1), None) ->
  Forall2 (fun s s' => blocks_of s' = blocks_of s) sprites sprites' /\
  (forall x n,
      names_get x names = Some n ->
      exists i s s' old,
        nth_error sprites i = Some s /\ nth_error sprites' i = Some s' /\
        getitem s (KStr (str "name")) = Ok old /\ py_eq x old = true /\
        getitem s' (KStr (str "name")) = Ok (VStr n)) /\
  (forall x s old,
      In s sprites ->
      getitem s (KStr (str "name")) = Ok old -> py_eq x old = true ->
      names_get x names <> None).
Proof.
  intros H. repeat split.
  - apply (for_each_inv (fun _ => True)) in H as [_ Hall]; [|auto|exact I].
    eapply Forall2_impl; [|exact Hall].
    intros s s' ([nm q] & [nm' q'] & _ & Hbody).
    apply rename_sprite_done in Hbody as (old & new & d & _ & -> & _ & _ & _ & ->).
    apply blocks_of_store_name.
  - intros x n Hget.
    pose (Q := fun (st : names_of_sprites * nat) (b : value * pystr) =>
                 names_get (fst b) (fst st) = Some (snd b)).
    pose (W := fun (s s' : value) (b : value * pystr) =>
                 exists old,
                   getitem s (KStr (str "name")) = Ok old /\ py_eq (fst b) old = true /\
                   getitem s' (KStr (str "name")) = Ok (VStr (snd b))).
    assert (Hstep : forall s st s' st',
               names_ok (fst st) -> rename_sprite g s st = (s', st', None) ->
               names_ok (fst st') /\ forall b, Q st' b -> Q st b \/ W s s' b).
    { intros s [nm q] s' [nm' q'] Hok Hbody.
      apply rename_sprite_done in Hbody as (old & new & d & _ & -> & Hd & Hh & -> & ->).
      simpl in *. split; [now apply names_ok_set|].
      intros [y m] Hq. unfold Q in *. simpl in *.
      apply names_get_set in Hq as [[Hy ->] | Hq]; try assumption; [|now left].
      right. exists old. simpl. rewrite Hd, lookup_store_same. auto. }
    destruct (for_each_prov (fun st => names_ok (fst st)) Q W (rename_sprite g) sprites
                Hstep ([], p) sprites' (names, p1) (Forall_nil _) H) as [_ Hq].
    destruct (Hq (x, n) Hget) as [H0 | (i & s & s' & Hs & Hs' & old & Hw)];
      [discriminate H0|].
    now exists i, s, s', old.
  - intros x s old Hin Hname Hx.
    pose (C := fun (st : names_of_sprites * nat) (y : value) =>
                 names_get y (fst st) <> None).
    pose (V := fun (s : value) (y : value) =>
                 exists old, getitem s (KStr (str "name")) = Ok old /\ py_eq y old = true).
    assert (Hstep : forall s st s' st',
               names_ok (fst st) -> rename_sprite g s st = (s', st', None) ->
               names_ok (fst st') /\ (forall b, C st b -> C st' b) /\
               (forall b, V s b -> C st' b)).
    { intros s0 [nm q] s0' [nm' q'] Hok Hbody.
      apply rename_sprite_done in Hbody as (old0 & new & d & _ & -> & Hd & Hh & -> & ->).
      simpl in *. split; [now apply names_ok_set|]. split.
      - intros y Hy. now apply names_get_set_mono.
      - intros y (old1 & Hold1 & Hy). simpl in Hold1. rewrite Hd in Hold1.
        injection Hold1 as <-. now apply names_get_set_new. }
    apply (for_each_cover (fun st => names_ok (fst st)) C V (rename_sprite g) sprites
             Hstep ([], p) sprites' (names, p1) (Forall_nil _) H x).
    right. exists s. split; [exact Hin|]. now exists old.
Qed.

(** *** The second loop *)

Lemma at_item_assign_done {S} (k1 k2 : pystr) (x val : value) (st : S)
  (val' : value) (st' : S) :
  at_item (KStr k1) (at_item (KStr k2) (assign (KInt 0) x)) val st = (val', st', None) ->
  st' = st /\
  (forall k, k <> k1 -> getitem val' (KStr k) = getitem val (KStr k)) /\
  exists d fields field field',
    val = VDict d /\
    lookup (KStr k1) d = Some (VDict fields) /\
    lookup (KStr k2) fields = Some field /\
    setitem field (KInt 0) x = Ok field' /\
    val' = VDict (store (KStr k1) (VDict (store (KStr k2) field' fields)) d).
Proof.
  intros H. apply at_item_done in H as (f & f' & Hf & Hbody & ->).
  apply at_item_done in Hbody as (y & y' & Hy & Hset & ->).
  apply assign_done in Hset as [Hset ->].
  apply getitem_KStr in Hf as (d & -> & Hd).
  apply getitem_KStr in Hy as (fields & -> & Hfields).
  split; [reflexivity|]. split.
  - intros k Hk. now apply getitem_put_other.
  - now exists d, fields, y, y'.
Qed.

Lemma setitem_0_getitem (v x v' : value) :
  setitem v (KInt 0) x = Ok v' -> getitem v' (KInt 0) = Ok x.
Proof.
  destruct v as [| | | | |l|d|]; simpl; try discriminate.
  - unfold index. simpl.
    destruct l as [|y l]; [discriminate|].
    simpl. intros H. injection H as <-. simpl.
    unfold index. simpl.
    replace (Z.pos (Pos.of_succ_nat (List.length l)) >? 0) with true by reflexivity.
    reflexivity.
  - intros H. injection H as <-. simpl. now rewrite lookup_store_same.
Qed.

Lemma rewrite_menu_other (names : names_of_sprites) (m f : pystr) (b op : value) (p : nat) :
  getitem b (KStr (str "opcode")) = Ok op ->
  py_eq op (VStr m) = false ->
  rewrite_menu names (m, f) b p = (b, p, None).
Proof. intros Hop Hm. unfold rewrite_menu, eval. now rewrite Hop, Hm. Qed.

Lemma rewrite_menu_same (names : names_of_sprites) (m f : pystr) (b op : value) (p : nat)
  (b' : value) (p' : nat) :
  getitem b (KStr (str "opcode")) = Ok op ->
  py_eq op (VStr m) = true ->
  rewrite_menu names (m, f) b p = (b', p', None) ->
  p' = p /\
  getitem b' (KStr (str "opcode")) = Ok op /\
  exists x, field0 b f = Ok x /\ field0 b' f = Ok (renamed names x).
Proof.
  intros Hop Hm. unfold rewrite_menu, eval. rewrite Hop, Hm.
  destruct (field0 b f) as [x|e] eqn:Hx; [|discriminate].
  destruct (hashable x); [|discriminate].
  unfold renamed. destruct (names_get x names) as [new|] eqn:Hn.
  - intros H. apply at_item_assign_done in H
      as (-> & Hsame & d & fields & field & field' & -> & Hd & Hf & Hset & ->).
    split; [reflexivity|]. split.
    + rewrite <- Hop. simpl. rewrite lookup_store_other; [reflexivity | discriminate].
    + exists x. split; [reflexivity|]. rewrite Hn.
      unfold field0. simpl. rewrite lookup_store_same. simpl.
      rewrite lookup_store_same. simpl. now apply setitem_0_getitem in Hset.
  - intros H. injection H as <- <-. repeat split; [exact Hop|].
    exists x. now rewrite Hn.
Qed.

Lemma rewrite_menus_other (names : names_of_sprites) (ms : list (pystr * pystr))
  (b op : value) (p : nat) :
  getitem b (KStr (str "opcode")) = Ok op ->
  (forall mf, In mf ms -> py_eq op (VStr (fst mf)) = false) ->
  rewrite_menus names ms b p = (b, p, None).
Proof.
  intros Hop. induction ms as [|[m f] r IH]; intros Hall; [reflexivity|].
  simpl. unfold andthen.
  rewrite (rewrite_menu_other names m f b op p Hop (Hall (m, f) (or_introl eq_refl))).
  apply IH. intros mf Hin. apply Hall. now right.
Qed.

Lemma py_eq_VStr_neq (a b : pystr) : a <> b -> py_eq (VStr a) (VStr b) = false.
Proof.
  intros H. simpl. destruct (str_eqb a b) eqn:E; [|reflexivity].
  apply str_eqb_eq in E. contradiction.
Qed.

(** The loop over [menus], on a block with the opcode of one of them: the
    field of that menu is looked up in [names] once. *)
Lemma rewrite_menus_done (names : names_of_sprites) (ms : list (pystr * pystr)) :
  NoDup (map fst ms) ->
  forall b p b' p' m f,
    rewrite_menus names ms b p = (b', p', None) ->
    getitem b (KStr (str "opcode")) = Ok (VStr m) ->
    In (m, f) ms ->
    exists x, field0 b f = Ok x /\ field0 b' f = Ok (renamed names x).
Proof.
  induction ms as [|[m0 f0] r IH]; intros Hnd b p b' p' m f Hrun Hop Hin;
    [contradiction|].
  simpl in Hnd. inversion Hnd as [|? ? Hnotin Hnd']. subst.
  simpl in Hrun. unfold andthen in Hrun.
  destruct (rewrite_menu names (m0, f0) b p) as [[b1 p1] [e|]] eqn:H1; [discriminate|].
  destruct Hin as [E | Hin].
  - injection E as -> ->.
    apply (rewrite_menu_same names m f b (VStr m) p b1 p1 Hop) in H1
      as (-> & Hop1 & x & Hx & Hx1); [|apply str_eqb_refl].
    rewrite (rewrite_menus_other names r b1 (VStr m) p Hop1) in Hrun.
    + injection Hrun as <- <-. now exists x.
    + intros [m1 f1] Hin1. apply py_eq_VStr_neq. simpl. intros E. subst m1.
      apply Hnotin. apply (in_map fst) in Hin1. exact Hin1.
  - assert (Hne : m <> m0).
    { intros E. subst m0. apply Hnotin. apply (in_map fst) in Hin. exact Hin. }
    rewrite (rewrite_menu_other names m0 f0 b (VStr m) p Hop (py_eq_VStr_neq _ _ Hne)) in H1.
    injection H1 as <- <-.
    now apply (IH Hnd' b p b' p' m f).
Qed.

Lemma menus_NoDup : NoDup (map fst menus).
Proof.
  unfold menus. simpl map.
  repeat (apply NoDup_cons; [vm_compute; intuition discriminate|]).
  apply NoDup_nil.
Qed.

(** *** Targets stay in place *)

Lemma same_target_refl (t : value) : same_target t t.
Proof. now left. Qed.

Lemma same_target_trans (a b c : value) :
  same_target a b -> same_target b c -> same_target a c.
Proof.
  intros [-> | (d & d' & -> & -> & Hk & Hl)] [-> | (e & e' & E & -> & Hk' & Hl')].
  - now left.
  - right. now exists e, e'.
  - right. now exists d, d'.
  - injection E as <-. right. exists d, e'. repeat split; [congruence|].
    intros k H1 H2. now rewrite Hl', Hl.
Qed.

Lemma same_target_put (t : value) (k : pystr) (x x' : value) :
  getitem t (KStr k) = Ok x ->
  k = str "name" \/ k = str "blocks" ->
  same_target t (put t (KStr k) x').
Proof.
  intros H Hk. apply getitem_KStr in H as (d & -> & Hd).
  right. exists d, (store (KStr k) x' d). repeat split.
  - apply keys_store. congruence.
  - intros k0 H1 H2. apply lookup_store_other.
    destruct Hk as [-> | ->]; assumption.
Qed.

(** What [at_item] can make of an object, however it ends. *)
Lemma at_item_rel {S} (k : key) (body : stmt S) (v : value) (st : S) :
  fst (fst (at_item k body v st)) = v \/
  exists x,
    getitem v k = Ok x /\
    fst (fst (at_item k body v st)) = put v k (fst (fst (body x st))).
Proof.
  unfold at_item. destruct (getitem v k) as [x|e]; [|now left].
  right. exists x. split; [reflexivity|].
  now destruct (body x st) as [[x' s1] e1].
Qed.

Lemma rename_sprite_rel (g : namegen) (s : value) (st : names_of_sprites * nat) :
  same_target s (fst (fst (rename_sprite g s st))).
Proof.
  unfold rename_sprite, eval, assign, eval. destruct st as [names p].
  destruct (call g p) as [[new|e] q]; [|apply same_target_refl].
  destruct (getitem s (KStr (str "name"))) as [old|e] eqn:Hold; [|apply same_target_refl].
  destruct (hashable old); [|apply same_target_refl].
  pose proof (same_target_put s (str "name") old (VStr new) Hold (or_introl eq_refl)) as H.
  unfold put in H.
  destruct (setitem s (KStr (str "name")) (VStr new)); [exact H | apply same_target_refl].
Qed.

Lemma target_blocks_rel {S} (body : stmt S) (t : value) (st : S) :
  let t' := fst (fst (at_item (KStr (str "blocks")) (for_items (fun _ => body)) t st)) in
  same_target t t' /\
  getitem t' (KStr (str "name")) = getitem t (KStr (str "name")).
Proof.
  cbv zeta.
  destruct (at_item_rel (KStr (str "blocks")) (for_items (fun _ => body)) t st)
    as [-> | (x & Hx & ->)].
  - split; [apply same_target_refl | reflexivity].
  - split; [apply (same_target_put _ _ _ _ Hx); now right|].
    apply getitem_put_other. discriminate.
Qed.

Lemma Forall2_trans {A} (R : A -> A -> Prop) (l1 l2 l3 : list A) :
  (forall a b c, R a b -> R b c -> R a c) ->
  Forall2 R l1 l2 -> Forall2 R l2 l3 -> Forall2 R l1 l3.
Proof.
  intros Htrans H. revert l3. induction H as [|a b r1 r2 Hab Hr IH]; intros l3 H3.
  - inversion H3. constructor.
  - inversion H3 as [|? c ? r3 Hbc Hr3]; subst. constructor; eauto.
Qed.

Lemma block_at_same (ts ts1 : list value) (j i : nat) :
  Forall2 (fun s s' => blocks_of s' = blocks_of s) ts ts1 ->
  block_at ts1 j i = block_at ts j i.
Proof.
  intros H. unfold block_at. revert j.
  induction H as [|t t1 r r1 Ht Hr IH]; intros [|j]; simpl; try reflexivity.
  - now rewrite Ht.
  - apply IH.
Qed.

(** C6: [rename_sprites] keeps the targets, as many and in their order;
    and when it ends normally, in every block of every target with one of
    the six menu opcodes, listed with their fields, a field value that was
    the name of a sprite is now the new name of a sprite that bore it, and
    a field value that was the name of no sprite is as it was. *)
Theorem rename_sprites_rewrites_menus (ts : list value) (options : dict) (p : nat)
  (v' : value) (p' : nat) (e : option exn) :
  rename_sprites (VList ts) options p = (v', p', e) ->
  exists ts',
    v' = VList ts' /\
    List.length ts' = List.length ts /\
    Forall2 same_target ts ts' /\
    (e = None ->
     forall j i k b menu_name field_name x,
       block_at ts j i = Some (k, b) ->
       In (menu_name, field_name)
         [ (str "motion_goto_menu", str "TO");
           (str "motion_glideto_menu", str "TO");
           (str "motion_pointtowards_menu", str "TOWARDS");
           (str "control_create_clone_of_menu", str "CLONE_OPTION");
           (str "sensing_touchingobjectmenu", str "TOUCHINGOBJECTMENU");
           (str "sensing_of_object_menu", str "OBJECT") ] ->
       getitem b (KStr (str "opcode")) = Ok (VStr menu_name) ->
       field0 b field_name = Ok x ->
       exists b',
         block_at ts' j i = Some (k, b') /\
         ((exists n s old,
              nth_error ts (S n) = Some s /\
              getitem s (KStr (str "name")) = Ok old /\ py_eq x old = true) ->
          exists n s s' old new,
            nth_error ts (S n) = Some s /\ nth_error ts' (S n) = Some s' /\
            getitem s (KStr (str "name")) = Ok old /\ py_eq x old = true /\
            getitem s' (KStr (str "name")) = Ok (VStr new) /\
            field0 b' field_name = Ok (VStr new)) /\
         ((forall n s old,
              nth_error ts (S n) = Some s ->
              getitem s (KStr (str "name")) = Ok old -> py_eq x old = false) ->
          field0 b' field_name = Ok x)).
Proof.
  intros Hrun.
  change [ (str "motion_goto_menu", str "TO");
           (str "motion_glideto_menu", str "TO");
           (str "motion_pointtowards_menu", str "TOWARDS");
           (str "control_create_clone_of_menu", str "CLONE_OPTION");
           (str "sensing_touchingobjectmenu", str "TOUCHINGOBJECTMENU");
           (str "sensing_of_object_menu", str "OBJECT") ]
    with menus.
  enough (H : exists ts',
             v' = VList ts' /\ Forall2 same_target ts ts' /\
             (e = None ->
              forall j i k b menu_name field_name x,
                block_at ts j i = Some (k, b) ->
                In (menu_name, field_name) menus ->
                getitem b (KStr (str "opcode")) = Ok (VStr menu_name) ->
                field0 b field_name = Ok x ->
                exists b',
                  block_at ts' j i = Some (k, b') /\
                  ((exists n s old,
                       nth_error ts (S n) = Some s /\
                       getitem s (KStr (str "name")) = Ok old /\ py_eq x old = true) ->
                   exists n s s' old new,
                     nth_error ts (S n) = Some s /\ nth_error ts' (S n) = Some s' /\
                     getitem s (KStr (str "name")) = Ok old /\ py_eq x old = true /\
                     getitem s' (KStr (str "name")) = Ok (VStr new) /\
                     field0 b' field_name = Ok (VStr new)) /\
                  ((forall n s old,
                       nth_error ts (S n) = Some s ->
                       getitem s (KStr (str "name")) = Ok old -> py_eq x old = false) ->
                   field0 b' field_name = Ok x))).
  { destruct H as (ts' & -> & Hall & Hrest). exists ts'.
    repeat split; try assumption. symmetry. now apply Forall2_length in Hall. }
  unfold rename_sprites in Hrun.
  destruct (parse_rename_options options (str "sprites")) as [[g|e0] o].
  2:{ injection Hrun as <- <- <-. exists ts. repeat split.
      - apply Forall2_flip, Forall2_flip. clear. induction ts; constructor; auto.
        apply same_target_refl.
      - discriminate. }
  unfold for_tail in Hrun. destruct ts as [|stage sprites].
  { simpl in Hrun. injection Hrun as <- <- <-. exists []. repeat split; [constructor|].
    intros _ j i k b m f x Hb. destruct j; discriminate Hb. }
  pose proof (for_each_rel same_target (rename_sprite g) same_target_refl
                (rename_sprite_rel g) sprites ([], p)) as Hrel1.
  destruct (for_each (rename_sprite g) sprites ([], p))
    as [[sprites' [names p1]] e1] eqn:H1. simpl in Hrel1.
  destruct e1 as [e1|].
  { injection Hrun as <- <- <-. exists (stage :: sprites'). repeat split.
    - constructor; [apply same_target_refl | exact Hrel1].
    - discriminate. }
  unfold for_blocks, for_in in Hrun.
  pose proof (for_each_rel
                (fun t t' => same_target t t' /\
                             getitem t' (KStr (str "name")) = getitem t (KStr (str "name")))
                (at_item (KStr (str "blocks"))
                   (for_items (fun _ => rewrite_menus names menus)))
                (fun t => conj (same_target_refl t) eq_refl)
                (target_blocks_rel (rewrite_menus names menus))
                (stage :: sprites') p1) as Hrel2.
  destruct (for_each _ (stage :: sprites') p1) as [[ts' p2] e2] eqn:H2.
  simpl in Hrel2. injection Hrun as <- <- <-.
  exists ts'. split; [reflexivity|]. split.
  { apply Forall2_trans with (stage :: sprites'); [apply same_target_trans | |].
    - constructor; [apply same_target_refl | exact Hrel1].
    - eapply Forall2_impl; [|exact Hrel2]. now intros a b [H _]. }
  intros ->.
  destruct (sprites_first_loop g sprites p sprites' names p1 H1) as (Hblocks & Hprov & Hcover).
  assert (Hloop2 : for_blocks (rewrite_menus names menus) (VList (stage :: sprites')) p1
                   = (VList ts', p2, None)).
  { unfold for_blocks, for_in. now rewrite H2. }
  destruct (for_blocks_done (fun _ => True) (rewrite_menus names menus)
              (stage :: sprites') p1 (VList ts') p2)
    as (ts2 & E & _ & Hfwd); [auto | exact I | exact Hloop2 |].
  injection E as <-.
  intros j i k b m f x Hb Hin Hop Hx.
  rewrite <- (block_at_same (stage :: sprites) (stage :: sprites') j i) in Hb
    by (constructor; [reflexivity | exact Hblocks]).
  destruct (Hfwd _ _ _ _ Hb) as (b' & s1 & s2 & Hb' & _ & Hbody).
  destruct (rewrite_menus_done names menus menus_NoDup b s1 b' s2 m f Hbody Hop Hin)
    as (x0 & Hx0 & Hx').
  rewrite Hx in Hx0. injection Hx0 as <-.
  exists b'. split; [exact Hb'|]. unfold renamed in Hx'. split.
  - intros (n & s & old & Hs & Hold & Heq).
    destruct (names_get x names) as [new|] eqn:Hget.
    + destruct (Hprov _ _ Hget) as (i0 & s0 & s0' & old0 & Hs0 & Hs0' & Hold0 & Heq0 & Hnew).
      destruct (Forall2_nth _ _ _ Hrel2 (S i0) s0' Hs0') as (s0'' & Hs0'' & _ & Hname).
      exists i0, s0, s0'', old0, new. repeat split; try assumption.
      now rewrite Hname.
    + exfalso. apply (Hcover x s old); try assumption.
      simpl in Hs. now apply nth_error_In in Hs.
  - intros Hnone. destruct (names_get x names) as [new|] eqn:Hget; [|exact Hx'].
    destruct (Hprov _ _ Hget) as (i0 & s0 & s0' & old0 & Hs0 & _ & Hold0 & Heq0 & _).
    rewrite (Hnone i0 s0 old0 Hs0 Hold0) in Heq0. discriminate.
Qed.

(** ** The passes before [rename_my_blocks] keep the procedures *)

Lemma same_procs_refl (ts : list value) : same_procs ts ts.
Proof. unfold same_procs. induction ts; constructor; auto. Qed.

Lemma same_procs_trans (a b c : list value) :
  same_procs a b -> same_procs b c -> same_procs a c.
Proof.
  unfold same_procs. intros H1 H2.
  apply Forall2_trans with b; [|exact H1|exact H2].
  intros x y z Hxy Hyz. now rewrite Hyz.
Qed.

Lemma procs_of_put_other (t : value) (k : pystr) (x : value) :
  k <> str "blocks" -> procs_of (put t (KStr k) x) = procs_of t.
Proof.
  intros Hk. unfold procs_of, blocks_of.
  rewrite getitem_put_other; [reflexivity | congruence].
Qed.

Lemma at_key_procs {S} (k : pystr) (body : stmt S) (t : value) (st : S) :
  k <> str "blocks" ->
  procs_of (fst (fst (at_item (KStr k) body t st))) = procs_of t.
Proof.
  intros Hk. destruct (at_item_rel (KStr k) body t st) as [-> | (x & _ & ->)];
    [reflexivity | now apply procs_of_put_other].
Qed.

Lemma keeps_procs_skip {S} : keeps_procs (@skip S).
Proof. intros ts st. exists ts. split; [reflexivity | apply same_procs_refl]. Qed.

Lemma keeps_procs_for_in {S} (body : stmt S) :
  (forall t st, procs_of (fst (fst (body t st))) = procs_of t) ->
  keeps_procs (for_in body).
Proof.
  intros Hbody ts st. unfold for_in.
  pose proof (for_each_rel (fun t t' => procs_of t' = procs_of t) body
                (fun t => eq_refl) Hbody ts st) as H.
  destruct (for_each body ts st) as [[ts' s1] e]. now exists ts'.
Qed.

Lemma keeps_procs_for_tail {S} (body : stmt S) :
  (forall t st, procs_of (fst (fst (body t st))) = procs_of t) ->
  keeps_procs (for_tail body).
Proof.
  intros Hbody [|stage sprites] st; unfold for_tail.
  - exists []. split; [reflexivity | constructor].
  - pose proof (for_each_rel (fun t t' => procs_of t' = procs_of t) body
                  (fun t => eq_refl) Hbody sprites st) as H.
    destruct (for_each body sprites st) as [[ts' s1] e].
    exists (stage :: ts'). split; [reflexivity|]. now constructor.
Qed.

Lemma keeps_procs_at_0 {S} (body : stmt S) :
  (forall t st, procs_of (fst (fst (body t st))) = procs_of t) ->
  keeps_procs (at_item (KInt 0) body).
Proof.
  intros Hbody [|stage sprites] st.
  - exists []. split; [reflexivity | constructor].
  - destruct (at_item_rel (KInt 0) body (VList (stage :: sprites)) st)
      as [-> | (x & Hx & ->)].
    + exists (stage :: sprites). split; [reflexivity | apply same_procs_refl].
    + assert (E : x = stage).
      { unfold getitem, index in Hx. simpl in Hx.
        replace (0 <? Z.pos (Pos.of_succ_nat (List.length sprites))) with true in Hx
          by reflexivity.
        simpl in Hx. now injection Hx as <-. }
      subst x. exists (fst (fst (body stage st)) :: sprites). split.
      * unfold put, setitem, index. simpl.
        now replace (0 <? Z.pos (Pos.of_succ_nat (List.length sprites))) with true
          by reflexivity.
      * constructor; [apply Hbody | apply same_procs_refl].
Qed.

Lemma keeps_procs_andthen {S} (s1 s2 : stmt S) :
  keeps_procs s1 -> keeps_procs s2 -> keeps_procs (andthen s1 s2).
Proof.
  intros H1 H2 ts st. unfold andthen.
  destruct (H1 ts st) as (ts1 & E1 & Hp1).
  destruct (s1 (VList ts) st) as [[v1 st1] [e|]]; simpl in E1; subst v1.
  - now exists ts1.
  - destruct (H2 ts1 st1) as (ts2 & E2 & Hp2). exists ts2.
    split; [exact E2 | now apply same_procs_trans with ts1].
Qed.

Lemma rename_named_procs (what : string) (options : dict) :
  str what <> str "blocks" ->
  keeps_procs (fun targets => rename_named what targets options).
Proof.
  intros Hwhat ts p. unfold rename_named.
  destruct (parse_rename_options options (str what)) as [[g|e] o].
  2:{ exists ts. split; [reflexivity | apply same_procs_refl]. }
  destruct (pop (KStr (str "rename_public_" ++ str what)) o) as [public o1].
  destruct (pop (KStr (str "rename_private_" ++ str what)) o1) as [private o2].
  set (body := at_item (KStr (str what))
                 (for_items (fun _ => assign_name g (KInt 0)))).
  assert (Hbody : forall t st, procs_of (fst (fst (body t st))) = procs_of t)
    by (intros t st; now apply at_key_procs).
  set (s1 := if truthy (default (VBool true) public)
             then at_item (KInt 0) body else skip).
  set (s2 := if truthy (default (VBool true) private)
             then for_tail body else skip).
  assert (H1 : keeps_procs s1).
  { unfold s1. destruct (truthy (default (VBool true) public));
      [now apply keeps_procs_at_0 | apply keeps_procs_skip]. }
  assert (H2 : keeps_procs s2).
  { unfold s2. destruct (truthy (default (VBool true) private));
      [now apply keeps_procs_for_tail | apply keeps_procs_skip]. }
  destruct (keeps_procs_andthen s1 s2 H1 H2 ts p) as (ts' & E & Hp).
  exists ts'. split; [|exact Hp]. rewrite <- E. unfold andthen.
  destruct (s1 (VList ts) p) as [[v1 p1] [e|]]; reflexivity.
Qed.

Lemma rename_costumes_procs (options : dict) :
  keeps_procs (fun targets => rename_costumes targets options).
Proof.
  intros ts p. unfold rename_costumes.
  destruct (parse_rename_options options (str "costumes")) as [[g|e] o].
  - apply keeps_procs_for_tail. intros t st. now apply at_key_procs.
  - exists ts. split; [reflexivity | apply same_procs_refl].
Qed.

Lemma rename_sounds_procs (options : dict) :
  keeps_procs (fun targets => rename_sounds targets options).
Proof.
  intros ts p. unfold rename_sounds.
  destruct (parse_rename_options options (str "sounds")) as [[g|e] o].
  - apply keeps_procs_for_in. intros t st. now apply at_key_procs.
  - exists ts. split; [reflexivity | apply same_procs_refl].
Qed.

Lemma rename_backdrops_procs (options : dict) :
  keeps_procs (fun targets => rename_backdrops targets options).
Proof.
  intros ts p. unfold rename_backdrops.
  destruct (parse_rename_options options (str "backdrops")) as [[g|e] o].
  - apply keeps_procs_at_0. intros t st. now apply at_key_procs.
  - exists ts. split; [reflexivity | apply same_procs_refl].
Qed.

Lemma rename_sprite_procs (g : namegen) (s : value) (st : names_of_sprites * nat) :
  procs_of (fst (fst (rename_sprite g s st))) = procs_of s.
Proof.
  unfold rename_sprite, eval, assign, eval. destruct st as [names p].
  destruct (call g p) as [[new|e] q]; [|reflexivity].
  destruct (getitem s (KStr (str "name"))) as [old|e]; [|reflexivity].
  destruct (hashable old); [|reflexivity].
  pose proof (procs_of_put_other s (str "name") (VStr new)) as H. unfold put in H.
  destruct (setitem s (KStr (str "name")) (VStr new)); [|reflexivity].
  apply H. discriminate.
Qed.

(** A block body that keeps the opcode and the mutation of the block keeps
    the procedures of the target. *)
Lemma target_blocks_procs {S} (body : stmt S) :
  (forall b st,
      getitem (fst (fst (body b st))) (KStr (str "opcode"))
        = getitem b (KStr (str "opcode")) /\
      getitem (fst (fst (body b st))) (KStr (str "mutation"))
        = getitem b (KStr (str "mutation"))) ->
  forall t st,
    procs_of (fst (fst (at_item (KStr (str "blocks")) (for_items (fun _ => body)) t st)))
    = procs_of t.
Proof.
  intros Hbody t st.
  destruct (at_item_rel (KStr (str "blocks")) (for_items (fun _ => body)) t st)
    as [-> | (x & Hx & ->)]; [reflexivity|].
  unfold for_items. destruct x as [| | | | | |d|];
    try (simpl fst; now rewrite (put_getitem _ _ _ Hx)).
  assert (Hentry : forall (kv : key * value) (st0 : S),
             (fun kv kv' : key * value =>
                (getitem (snd kv') (KStr (str "opcode")), proccode (snd kv'))
                = (getitem (snd kv) (KStr (str "opcode")), proccode (snd kv)))
               kv
               (fst (fst (match body (snd kv) st0 with
                          | (x', st', e) => ((fst kv, x'), st', e)
                          end)))).
  { intros kv st0. destruct (Hbody (snd kv) st0) as [H1 H2].
    destruct (body (snd kv) st0) as [[x' st'] e]. simpl in *.
    unfold proccode. now rewrite H1, H2. }
  pose proof (for_each_rel _ _ (fun kv => eq_refl) Hentry d st) as Hrel.
  destruct (for_each _ d st) as [[d' s1] e]. simpl in Hrel. simpl fst.
  apply getitem_KStr in Hx as (dt & -> & Hdt).
  unfold procs_of, blocks_of. rewrite getitem_put_same. simpl getitem. rewrite Hdt.
  f_equal. clear -Hrel. induction Hrel as [|kv kv' r r' H Hr IH]; simpl; [reflexivity|].
  now rewrite H, IH.
Qed.

Lemma rewrite_menus_keeps (names : names_of_sprites) (ms : list (pystr * pystr))
  (b : value) (p : nat) :
  getitem (fst (fst (rewrite_menus names ms b p))) (KStr (str "opcode"))
    = getitem b (KStr (str "opcode")) /\
  getitem (fst (fst (rewrite_menus names ms b p))) (KStr (str "mutation"))
    = getitem b (KStr (str "mutation")).
Proof.
  revert b p. induction ms as [|[m f] r IH]; intros b p; [now split|].
  simpl. unfold andthen.
  assert (H1 : getitem (fst (fst (rewrite_menu names (m, f) b p))) (KStr (str "opcode"))
               = getitem b (KStr (str "opcode")) /\
               getitem (fst (fst (rewrite_menu names (m, f) b p))) (KStr (str "mutation"))
               = getitem b (KStr (str "mutation"))).
  { unfold rewrite_menu, eval.
    destruct (getitem b (KStr (str "opcode"))) as [op|e] eqn:Hop; [|now split].
    destruct (py_eq op (VStr m)); [|now split].
    destruct (field0 b f) as [x|e]; [|now split].
    destruct (hashable x); [|now split].
    destruct (names_get x names) as [new|]; [|now split].
    destruct (at_item_rel (KStr (str "fields"))
                (at_item (KStr f) (assign (KInt 0) (VStr new))) b p)
      as [-> | (y & _ & ->)]; [now split|].
    rewrite !getitem_put_other by discriminate. now split. }
  destruct (rewrite_menu names (m, f) b p) as [[b1 p1] [e|]]; [exact H1|].
  simpl in H1. destruct H1 as [H1 H2]. destruct (IH b1 p1) as [H3 H4].
  split; congruence.
Qed.

Lemma rename_sprites_procs (options : dict) :
  keeps_procs (fun targets => rename_sprites targets options).
Proof.
  intros ts p. unfold rename_sprites.
  destruct (parse_rename_options options (str "sprites")) as [[g|e] o].
  2:{ exists ts. split; [reflexivity | apply same_procs_refl]. }
  destruct (keeps_procs_for_tail (rename_sprite g) (rename_sprite_procs g) ts ([], p))
    as (ts1 & E1 & Hp1).
  destruct (for_tail (rename_sprite g) (VList ts) ([], p)) as [[v1 [names p1]] [e|]];
    simpl in E1; subst v1; [now exists ts1|].
  destruct (keeps_procs_for_in
              (at_item (KStr (str "blocks"))
                 (for_items (fun _ => rewrite_menus names menus)))
              (target_blocks_procs _ (rewrite_menus_keeps names menus)) ts1 p1)
    as (ts2 & E2 & Hp2).
  exists ts2. split; [exact E2 | now apply same_procs_trans with ts1].
Qed.

(** *** Procedures of targets with the same procedures *)

Lemma same_procs_block (ts ts' : list value) (j i : nat) (k : key) (val : value) :
  same_procs ts ts' ->
  block_at ts j i = Some (k, val) ->
  exists k' val',
    block_at ts' j i = Some (k', val') /\
    getitem val' (KStr (str "opcode")) = getitem val (KStr (str "opcode")) /\
    proccode val' = proccode val.
Proof.
  unfold same_procs, block_at. intros H. revert j.
  induction H as [|t t' r r' Ht Hr IH]; intros [|j]; simpl; try discriminate; [|apply IH].
  unfold procs_of in Ht.
  destruct (blocks_of t) as [d|]; [|discriminate].
  destruct (blocks_of t') as [d'|]; [|discriminate].
  injection Ht as Ht. clear IH Hr. revert d' Ht i.
  induction d as [|kv d IHd]; intros [|kv' d'] Ht [|i]; simpl; try discriminate.
  - intros H. injection H as ->. simpl in Ht. injection Ht as H1 H2 _.
    destruct kv' as [k' val']. now exists k', val'.
  - simpl in Ht. injection Ht as _ _ Ht. now apply IHd.
Qed.

Lemma same_procs_sym (ts ts' : list value) : same_procs ts ts' -> same_procs ts' ts.
Proof.
  unfold same_procs. induction 1; constructor; auto.
Qed.

Lemma has_procedure_same (ts ts' : list value) (opcode : string) (code : value) :
  same_procs ts ts' -> has_procedure ts opcode code -> has_procedure ts' opcode code.
Proof.
  intros H (j & i & k & val & Hb & (op & Hop & Hs) & Hcode).
  destruct (same_procs_block ts ts' j i k val H Hb) as (k' & val' & Hb' & Hop' & Hcode').
  exists j, i, k', val'. repeat split; [exact Hb' | | congruence].
  exists op. split; [congruence | exact Hs].
Qed.

Lemma dangling_same (code : value) (ts ts' : list value) :
  same_procs ts ts' -> dangling code (VList ts) -> dangling code (VList ts').
Proof.
  intros H (ts0 & E & Hcall & Hnone). injection E as <-.
  exists ts'. split; [reflexivity|]. split.
  - now apply has_procedure_same with ts.
  - intros Hp. apply Hnone. apply has_procedure_same with ts'; [|exact Hp].
    now apply same_procs_sym.
Qed.

(** ** The loop over the option names *)

(** If the passes before [name] keep [P], and the pass of [name] raises on
    targets with [P], the loop raises on such targets when [name] is among
    the options. *)
Lemma run_options_raises (P : value -> Prop) (name : pystr) (ps : pass) (option : value)
  (pre post : list (pystr * pass)) :
  Forall (fun np => fst np <> name /\ preserves P (snd np)) pre ->
  (forall targets p, P targets -> snd (dispatch ps option targets p) <> None) ->
  forall targets options p,
    P targets ->
    lookup (KStr name) options = Some option ->
    snd (run_options (pre ++ (name, ps) :: post) targets options p) <> None.
Proof.
  intros Hpre Hraise. induction Hpre as [|[n0 ps0] pre [Hn0 Hps0] Hpre IH];
    intros targets options p HP Hopt; simpl; unfold pop.
  - rewrite Hopt. specialize (Hraise targets p HP).
    destruct (dispatch ps option targets p) as [[t' p'] [e|]]; [discriminate|].
    now simpl in Hraise.
  - simpl in Hn0.
    destruct (lookup (KStr n0) options) as [o0|]; [|now apply IH].
    specialize (Hps0 o0 targets p HP). simpl in Hps0.
    destruct (dispatch ps0 o0 targets p) as [[t' p'] [e|]]; [discriminate|].
    apply IH; [exact Hps0|].
    rewrite lookup_remove_other; [exact Hopt | congruence].
Qed.

Lemma preserves_dangling (code : value)
  (f : value -> dict -> nat -> outcome value nat) :
  (forall d, keeps_procs (fun targets => f targets d)) ->
  preserves (dangling code) (OfDict f).
Proof.
  intros Hf option targets p HP.
  destruct option as [| | | | | |d|]; try exact HP.
  simpl. destruct HP as (ts & -> & Hdangling).
  destruct (Hf d ts p) as (ts' & -> & Hsame).
  apply dangling_same with ts; [exact Hsame|]. now exists ts.
Qed.

(** C4: a call-site whose proccode no prototype bears makes
    [rename_my_blocks] raise, whatever its options; and [obfuscate], asked
    for that pass, ends with an exception and writes no document. *)
Theorem dangling_call_is_fatal (ts : list value) (code : value) :
  has_procedure ts "procedures_call" code ->
  ~ has_procedure ts "procedures_prototype" code ->
  (forall options p, snd (rename_my_blocks (VList ts) options p) <> None) /\
  (forall f options sub p,
      getitem (project_json f) (KStr (str "targets")) = Ok (VList ts) ->
      lookup (KStr (str "rename_my_blocks")) options = Some (VDict sub) ->
      written (obfuscate f (VDict options) p) = None /\
      raised (obfuscate f (VDict options) p) <> None).
Proof.
  intros Hcall Hnone. split.
  - intros options p. now apply rename_my_blocks_dangling_call with code.
  - intros f options sub p Htargets Hopt. unfold obfuscate, load_project.
    destruct (negb (infile_exists f)); [now split|].
    destruct (negb (str_eqb (infile_suffix f) (str ".sb3"))); [now split|].
    rewrite Htargets.
    assert (H : snd (run_options option_names (VList ts) options p) <> None).
    { change option_names with
        ([ (str "rename_variables", OfDict rename_variables);
           (str "rename_lists", OfDict rename_lists);
           (str "rename_sprites", OfDict rename_sprites);
           (str "rename_costumes", OfDict rename_costumes);
           (str "rename_sounds", OfDict rename_sounds);
           (str "rename_backdrops", OfDict rename_backdrops) ]
           ++ (str "rename_my_blocks", OfDict rename_my_blocks)
           :: [ (str "convert_integers_to_hexadecimal",
                 OfBool convert_integers_to_hexadecimal) ]).
      apply run_options_raises with (P := dangling code) (option := VDict sub).
      - repeat (apply Forall_cons; [split; [discriminate | apply preserves_dangling]|]);
          try apply Forall_nil; intros d.
        + apply rename_named_procs. discriminate.
        + apply rename_named_procs. discriminate.
        + apply rename_sprites_procs.
        + apply rename_costumes_procs.
        + apply rename_sounds_procs.
        + apply rename_backdrops_procs.
      - intros targets q (ts0 & -> & Hc & Hn). simpl.
        now apply rename_my_blocks_dangling_call with code.
      - now exists ts.
      - exact Hopt. }
    destruct (run_options option_names (VList ts) options p) as [[t [o q]] [e|]].
    + split; [reflexivity | discriminate].
    + now simpl in H.
Qed.

(** ** Options that are not recognized *)

Lemma remove_absent (k : key) (d : dict) : lookup k d = None -> remove k d = d.
Proof.
  induction d as [|[k0 v] d IH]; simpl; [reflexivity|].
  destruct (key_eqb k k0); [discriminate|]. simpl. intros H. now rewrite IH.
Qed.

Lemma lookup_remove_agree (k k' : key) (d1 d2 : dict) :
  lookup k' d1 = lookup k' d2 -> lookup k' (remove k d1) = lookup k' (remove k d2).
Proof.
  intros H. destruct (key_eq_dec k' k) as [-> | Hne].
  - now rewrite !lookup_remove_same.
  - now rewrite !lookup_remove_other.
Qed.

(** The loop looks at the options it names only. *)
Lemma run_options_agree (names : list (pystr * pass)) :
  forall targets o1 o2 p,
    (forall np, In np names -> lookup (KStr (fst np)) o1 = lookup (KStr (fst np)) o2) ->
    effect (run_options names targets o1 p) = effect (run_options names targets o2 p).
Proof.
  induction names as [|[n ps] names IH]; intros targets o1 o2 p Hagree; [reflexivity|].
  simpl. unfold pop.
  pose proof (Hagree (n, ps) (or_introl eq_refl)) as Hn. simpl in Hn. rewrite <- Hn.
  destruct (lookup (KStr n) o1) as [option|].
  - destruct (dispatch ps option targets p) as [[t' p'] [e|]]; [reflexivity|].
    apply IH. intros np Hin. apply lookup_remove_agree. apply Hagree. now right.
  - apply IH. intros np Hin. apply Hagree. now right.
Qed.

(** When the loop ends normally it has removed the options it names. *)
Lemma run_options_leftover (names : list (pystr * pass)) :
  forall targets options p targets' options' p',
    run_options names targets options p = (targets', (options', p'), None) ->
    options' = leftover names options.
Proof.
  induction names as [|[n ps] names IH]; intros targets options p targets' options' p';
    simpl; unfold pop.
  - intros H. now injection H as _ <- _.
  - destruct (lookup (KStr n) options) as [option|] eqn:Hn.
    + destruct (dispatch ps option targets p) as [[t1 p1] [e|]]; [discriminate|].
      apply IH.
    + rewrite (remove_absent _ _ Hn). apply IH.
Qed.

Lemma keys_remove (k : key) (d : dict) :
  keys (remove k d) = filter (fun k' => negb (key_eqb k k')) (keys d).
Proof.
  unfold keys, remove. now rewrite filter_map_swap.
Qed.

Lemma filter_twice {A} (f g : A -> bool) (l : list A) :
  filter g (filter f l) = filter (fun x => f x && g x) l.
Proof.
  induction l as [|x l IH]; simpl; [reflexivity|].
  destruct (f x); simpl; [destruct (g x)|]; now rewrite IH.
Qed.

Lemma keys_leftover (names : list (pystr * pass)) (options : dict) :
  keys (leftover names options)
  = filter (fun k => negb (existsb (fun np => key_eqb (KStr (fst np)) k) names))
      (keys options).
Proof.
  unfold leftover. revert options.
  induction names as [|[n ps] names IH]; intros options; simpl.
  - symmetry. apply filter_true.
  - rewrite IH, keys_remove, filter_twice. apply filter_ext.
    intros k. simpl. now rewrite negb_orb.
Qed.

Lemma known_names_are_keys : map fst option_names = known_names.
Proof. reflexivity. Qed.

Lemma recognized_name (np : pystr * pass) :
  In np option_names -> recognized (KStr (fst np)) = true.
Proof.
  intros H. unfold recognized. apply existsb_exists. exists (fst np).
  split; [|apply key_eqb_refl].
  rewrite <- known_names_are_keys. now apply in_map.
Qed.

Lemma lookup_recognized (k : key) (options : dict) :
  recognized k = true ->
  lookup k (filter (fun kv => recognized (fst kv)) options) = lookup k options.
Proof.
  intros Hk. induction options as [|[k0 v] d IH]; simpl; [reflexivity|].
  destruct (recognized k0) eqn:H0; simpl.
  - now rewrite IH.
  - destruct (key_eqb k k0) eqn:E; [|exact IH].
    apply key_eqb_eq in E. congruence.
Qed.

(** An option of the wrong type runs no pass. *)
Lemma dispatch_mistyped (ps : pass) (option : value) :
  match ps with
  | OfDict _ => isinstance_dict option
  | OfBool _ => isinstance_bool option
  end = false ->
  dispatch ps option = skip.
Proof. destruct ps, option; simpl; try reflexivity; discriminate. Qed.

Lemma remove_comm (k k' : key) (d : dict) :
  remove k (remove k' d) = remove k' (remove k d).
Proof.
  unfold remove. rewrite !filter_twice. apply filter_ext.
  intros kv. apply andb_comm.
Qed.

Lemma remove_twice (k : key) (d : dict) : remove k (remove k d) = remove k d.
Proof. apply remove_absent, lookup_remove_same. Qed.

Lemma leftover_remove (names : list (pystr * pass)) (k : key) (options : dict) :
  leftover names (remove k options) = remove k (leftover names options).
Proof.
  unfold leftover. revert options.
  induction names as [|[n ps] names IH]; intros options; simpl; [reflexivity|].
  now rewrite remove_comm, IH.
Qed.

(** The options left over hold none of the names of the loop. *)
Lemma leftover_without (names : list (pystr * pass)) (name : pystr) (ps : pass)
  (options : dict) :
  In (name, ps) names ->
  leftover names (remove (KStr name) options) = leftover names options.
Proof.
  revert options. induction names as [|[n ps0] names IH]; intros options; [intros []|].
  intros [E | Hin].
  - injection E as -> ->. change (leftover ((name, ps) :: names) ?d)
      with (leftover names (remove (KStr name) d)).
    now rewrite remove_twice.
  - change (leftover ((n, ps0) :: names) ?d) with (leftover names (remove (KStr n) d)).
    rewrite remove_comm. now apply IH.
Qed.

(** An option of the wrong type is popped at its turn and nothing is
    called: the loop does to the document what it does without the
    option. *)
Lemma run_options_mistyped (name : pystr) (option : value)
  (names : list (pystr * pass)) :
  (forall ps, In (name, ps) names -> dispatch ps option = skip) ->
  forall targets options p,
    lookup (KStr name) options = Some option ->
    effect (run_options names targets options p)
    = effect (run_options names targets (remove (KStr name) options) p).
Proof.
  induction names as [|[n ps0] names IH]; intros Hskip targets options p Hname;
    [reflexivity|].
  simpl. unfold pop. destruct (key_eq_dec (KStr n) (KStr name)) as [E | Hne].
  - injection E as ->. rewrite Hname, lookup_remove_same.
    rewrite (Hskip ps0 (or_introl eq_refl)). unfold skip.
    destruct (lookup (KStr name) (remove (KStr name) options)) eqn:Hl;
      [now rewrite lookup_remove_same in Hl|].
    apply run_options_agree. intros np _. reflexivity.
  - rewrite (lookup_remove_other (KStr n) (KStr name)) by exact Hne.
    assert (Hrest : forall ps, In (name, ps) names -> dispatch ps option = skip)
      by (intros ps Hin; apply Hskip; now right).
    destruct (lookup (KStr n) options) as [o|].
    + destruct (dispatch ps0 o targets p) as [[t1 p1] [e|]]; [reflexivity|].
      rewrite (remove_comm (KStr n) (KStr name)). apply IH; [exact Hrest|].
      rewrite lookup_remove_other by congruence. exact Hname.
    + now apply IH.
Qed.

(** An option name has one entry in [option_names]. *)
Lemma option_names_once (name : pystr) (ps ps' : pass) :
  In (name, ps) option_names -> In (name, ps') option_names -> ps' = ps.
Proof.
  assert (Hnd : NoDup (map fst option_names)).
  { rewrite known_names_are_keys.
    repeat (apply NoDup_cons; [vm_compute; intuition discriminate|]).
    apply NoDup_nil. }
  revert Hnd. generalize option_names as l.
  induction l as [|[n q] l IH]; [intros _ []|].
  simpl. intros Hnd [E | Hin] [E' | Hin'].
  - congruence.
  - injection E as -> ->. apply NoDup_cons_iff in Hnd as [Hnd _].
    exfalso. apply Hnd. change name with (fst (name, ps')). now apply in_map.
  - injection E' as -> ->. apply NoDup_cons_iff in Hnd as [Hnd _].
    exfalso. apply Hnd. change name with (fst (name, ps)). now apply in_map.
  - apply NoDup_cons_iff in Hnd as [_ Hnd]. now apply IH.
Qed.

Lemma warnings_are_keys (f : files) (options : dict) (p : nat) (k : key) :
  In k (warnings (obfuscate f (VDict options) p)) -> In k (keys options).
Proof.
  unfold obfuscate.
  destruct (load_project f) as [project|e]; [|intros []].
  destruct (getitem project (KStr (str "targets"))) as [targets|e]; [|intros []].
  pose proof (run_options_leftover option_names targets options p) as Hleft.
  destruct (run_options option_names targets options p) as [[t1 [o1 q1]] [e1|]];
    [intros []|].
  specialize (Hleft t1 o1 q1 eq_refl). subst o1.
  assert (Hk : In k (keys (leftover option_names options)) -> In k (keys options)).
  { rewrite keys_leftover. intros H. now apply filter_In in H as [H _]. }
  destruct (save_project f _); exact Hk.
Qed.

(** C3: a recognized option bound to a value of the wrong type is popped
    inside the condition, before its type is tested, and is not left over
    for the warning loop: the run is the run without the option, with the
    same document written and the same exception, if any, and no warning
    names the option. *)
Theorem mistyped_option_is_dropped_in_silence (f : files) (options : dict) (p : nat)
  (name : pystr) (ps : pass) (option : value) :
  In (name, ps) option_names ->
  lookup (KStr name) options = Some option ->
  match ps with
  | OfDict _ => isinstance_dict option
  | OfBool _ => isinstance_bool option
  end = false ->
  obfuscate f (VDict options) p = obfuscate f (VDict (remove (KStr name) options)) p /\
  ~ In (KStr name) (warnings (obfuscate f (VDict options) p)).
Proof.
  intros Hin Hname Htype.
  assert (E : obfuscate f (VDict options) p
              = obfuscate f (VDict (remove (KStr name) options)) p).
  { unfold obfuscate.
    destruct (load_project f) as [project|e]; [|reflexivity].
    destruct (getitem project (KStr (str "targets"))) as [targets|e]; [|reflexivity].
    pose proof (run_options_mistyped name option option_names) as Hrun.
    specialize (Hrun (fun ps' H' => eq_ind_r (fun x => dispatch x option = skip)
                                      (dispatch_mistyped ps option Htype)
                                      (option_names_once name ps ps' Hin H'))
                  targets options p Hname).
    pose proof (run_options_leftover option_names targets options p) as Hleft.
    pose proof (run_options_leftover option_names targets
                  (remove (KStr name) options) p) as Hleft'.
    destruct (run_options option_names targets options p) as [[t1 [o1 q1]] e1].
    destruct (run_options option_names targets (remove (KStr name) options) p)
      as [[t2 [o2 q2]] e2].
    unfold effect in Hrun. simpl in Hrun. injection Hrun as <- <- <-.
    destruct e1 as [e1|]; [reflexivity|].
    rewrite (Hleft t1 o1 q1 eq_refl), (Hleft' t1 o2 q1 eq_refl).
    now rewrite (leftover_without option_names name ps options Hin). }
  split; [exact E|].
  rewrite E. intros Hw. apply warnings_are_keys in Hw.
  rewrite keys_remove in Hw. apply filter_In in Hw as [_ Hw].
  now rewrite key_eqb_refl in Hw.
Qed.

(** The options [obfuscate] does not recognize change neither the
    document it writes nor the exception it raises; when the run ends
    normally the keys warned about are those it does not recognize, in
    their order, each once. *)
Theorem unknown_options_warn_once (f : files) (options : dict) (p : nat) :
  let known := filter (fun kv => recognized (fst kv)) options in
  written (obfuscate f (VDict options) p) = written (obfuscate f (VDict known) p) /\
  raised (obfuscate f (VDict options) p) = raised (obfuscate f (VDict known) p) /\
  (raised (obfuscate f (VDict options) p) = None ->
   warnings (obfuscate f (VDict options) p)
     = filter (fun k => negb (recognized k)) (keys options) /\
   (NoDup (keys options) ->
    forall k, In k (keys options) -> recognized k = false ->
              count_occ key_eq_dec (warnings (obfuscate f (VDict options) p)) k = 1%nat)).
Proof.
  cbv zeta. unfold obfuscate.
  destruct (load_project f) as [project|e]; [|repeat split; discriminate].
  destruct (getitem project (KStr (str "targets"))) as [targets|e];
    [|repeat split; discriminate].
  pose proof (run_options_agree option_names targets options
                (filter (fun kv => recognized (fst kv)) options) p) as Hagree.
  pose proof (run_options_leftover option_names targets options p) as Hleft.
  destruct (run_options option_names targets options p) as [[t1 [o1 q1]] e1].
  destruct (run_options option_names targets
              (filter (fun kv => recognized (fst kv)) options) p) as [[t2 [o2 q2]] e2].
  unfold effect in Hagree. simpl in Hagree.
  assert (E : (t1, q1, e1) = (t2, q2, e2)).
  { apply Hagree. intros np Hin. symmetry. apply lookup_recognized.
    now apply recognized_name. }
  injection E as <- <- <-.
  destruct e1 as [e1|]; [repeat split; discriminate|].
  specialize (Hleft t1 o1 q1 eq_refl). subst o1.
  destruct (save_project f (put project (KStr (str "targets")) t1)) as [doc|e];
    cbn [written warnings raised]; [|repeat split; discriminate].
  repeat split.
  - exact (keys_leftover option_names options).
  - intros Hnd k Hin Hk. rewrite (keys_leftover option_names options).
    apply NoDup_count_occ'; [now apply NoDup_filter|].
    apply filter_In. split; [exact Hin|].
    change (negb (recognized k) = true). now rewrite Hk.
Qed.

(** ** Integer literals *)

(** The Unicode table agrees with ASCII on the ASCII characters: the digits
    [0] to [9] and nothing else. *)
Hypothesis decimal_ascii :
  forall c, 0 <= c < 128 ->
            decimal c = if (48 <=? c) && (c <=? 57) then Some (c - 48) else None.

(** [^\d+$] accepts a run of digits, and a run of digits before one final
    newline. *)
Lemma digits_to_end_spec (s : pystr) :
  digits_to_end s = true <->
  forallb is_digit s = true \/
  exists ds, forallb is_digit ds = true /\ s = ds ++ [10].
Proof.
  induction s as [|c t IH]; simpl.
  - split; [now left | reflexivity].
  - destruct (is_digit c) eqn:Hc; simpl.
    + rewrite IH. split.
      * intros [H | (ds & Hds & ->)]; [now left|].
        right. exists (c :: ds). simpl. now rewrite Hc, Hds.
      * intros [H | (ds & Hds & E)]; [now left|].
        destruct ds as [|d ds]; simpl in E.
        -- injection E as -> ->. now left.
        -- injection E as <- ->. simpl in Hds. rewrite Hc in Hds.
           right. now exists ds.
    + split.
      * intros H. apply andb_true_iff in H as [Hc10 Ht].
        apply Z.eqb_eq in Hc10. subst c. destruct t; [|discriminate].
        right. now exists [].
      * intros [H | (ds & Hds & E)]; [discriminate|].
        destruct ds as [|d ds]; simpl in E.
        -- now injection E as -> ->.
        -- injection E as <- ->. simpl in Hds. now rewrite Hc in Hds.
Qed.

Lemma match_decimal_spec (s : pystr) :
  match_decimal s = true <->
  exists ds,
    ds <> [] /\ forallb is_digit ds = true /\ (s = ds \/ s = ds ++ [10]).
Proof.
  destruct s as [|c t]; simpl.
  - split; [discriminate|]. intros (ds & Hne & _ & [E | E]).
    + now subst ds.
    + destruct ds; discriminate E.
  - rewrite andb_true_iff, digits_to_end_spec. split.
    + intros [Hc [Ht | (ds & Hds & ->)]].
      * exists (c :: t). simpl. rewrite Hc, Ht. repeat split; [discriminate | now left].
      * exists (c :: ds). simpl. rewrite Hc, Hds.
        repeat split; [discriminate | now right].
    + intros (ds & Hne & Hds & [E | E]).
      * subst ds. simpl in Hds. apply andb_true_iff in Hds as [Hc Ht]. auto.
      * destruct ds as [|d ds]; [contradiction|].
        simpl in E. injection E as <- ->. simpl in Hds.
        apply andb_true_iff in Hds as [Hc Ht]. split; [exact Hc|].
        right. now exists ds.
Qed.

Lemma is_digit_ascii (c : Z) :
  0 <= c < 128 -> is_digit c = (48 <=? c) && (c <=? 57).
Proof.
  intros H. unfold is_digit. rewrite decimal_ascii by exact H.
  now destruct ((48 <=? c) && (c <=? 57)).
Qed.

(** What [hex] returns is not matched: its second or its first character
    is no digit. *)
Lemma hex_is_not_decimal (n : Z) : match_decimal (hex n) = false.
Proof.
  unfold hex. destruct (n <? 0).
  - change (str "-0x" ++ ?r) with (45 :: 48 :: 120 :: r). simpl.
    now rewrite is_digit_ascii by lia.
  - change (str "0x" ++ ?r) with (48 :: 120 :: r). simpl.
    rewrite (is_digit_ascii 120) by lia. simpl. apply andb_false_r.
Qed.

(** [int] returns the number the digits denote, unless there are more
    digits than the limit of the conversion. *)
Lemma py_int_done (s : pystr) (n : Z) : py_int s = Ok n -> n = int_of_decimal s.
Proof.
  unfold py_int. destruct (_ <? _); [discriminate|]. intros H. now injection H.
Qed.

Lemma py_int_within_the_limit (s : pystr) :
  Z.of_nat (List.length (filter is_digit s)) <= int_max_str_digits ->
  py_int s = Ok (int_of_decimal s).
Proof.
  intros H. unfold py_int.
  destruct (Z.ltb_spec int_max_str_digits (Z.of_nat (List.length (filter is_digit s))));
    [lia | reflexivity].
Qed.

Lemma py_int_beyond_the_limit (s : pystr) :
  int_max_str_digits < Z.of_nat (List.length (filter is_digit s)) ->
  py_int s = Raise ValueError.
Proof.
  intros H. unfold py_int.
  destruct (Z.ltb_spec int_max_str_digits (Z.of_nat (List.length (filter is_digit s))));
    [reflexivity | lia].
Qed.

(** An input that [convert_input] leaves normally is as it was, unless its
    literal has kind 4 and a text that [^\d+$] matches. *)
Lemma convert_input_done (v : value) (p : nat) (v' : value) (p' : nat) :
  convert_input v p = (v', p', None) ->
  p' = p /\
  (v' = v \/
   exists literal kind text literal',
     getitem v (KInt 1) = Ok literal /\
     getitem literal (KInt 0) = Ok kind /\ py_eq kind (VInt 4) = true /\
     getitem literal (KInt 1) = Ok (VStr text) /\ match_decimal text = true /\
     setitem literal (KInt 1) (VStr (hex (int_of_decimal text))) = Ok literal' /\
     v' = put v (KInt 1) literal').
Proof.
  unfold convert_input, eval.
  destruct (getitem v (KInt 1)) as [literal|e] eqn:Hl; [|discriminate].
  destruct (truthy literal); [|intros H; injection H as <- <-; auto].
  destruct (getitem literal (KInt 0)) as [kind|e] eqn:Hk; [|discriminate].
  destruct (py_eq kind (VInt 4)) eqn:H4; [|intros H; injection H as <- <-; auto].
  destruct (getitem literal (KInt 1)) as [num|e] eqn:Hn; [|discriminate].
  destruct num as [| | | |text| | |]; try discriminate.
  destruct (match_decimal text) eqn:Hm; [|intros H; injection H as <- <-; auto].
  destruct (py_int text) as [n|e] eqn:Hp; [|discriminate].
  apply py_int_done in Hp as ->.
  intros H. apply at_item_done in H as (x & x' & Hx & Hset & ->).
  rewrite Hl in Hx. injection Hx as <-.
  apply assign_done in Hset as [Hset ->]. split; [reflexivity|].
  right. now exists literal, kind, text, x'.
Qed.

(** C8: an input whose literal has kind 4 and the text ["255\n"], which is
    not made of decimal digits only, is converted: [$] matches before the
    final newline and [int] strips it. *)
Theorem literal_with_final_newline_is_converted (p : nat) :
  match_decimal (str "255" ++ [10]) = true /\
  convert_input (VList [VInt 1; VList [VInt 4; VStr (str "255" ++ [10])]]) p
  = (VList [VInt 1; VList [VInt 4; VStr (str "0xff")]], p, None) /\
  convert_integers_to_hexadecimal
    (VList [VDict [(KStr (str "blocks"),
                    VDict [(KStr (str "a"),
                            VDict [(KStr (str "inputs"),
                                    VDict [(KStr (str "NUM"),
                                            VList [VInt 1;
                                                   VList [VInt 4;
                                                          VStr (str "255" ++ [10])]])])])])]])
    true p
  = (VList [VDict [(KStr (str "blocks"),
                    VDict [(KStr (str "a"),
                            VDict [(KStr (str "inputs"),
                                    VDict [(KStr (str "NUM"),
                                            VList [VInt 1;
                                                   VList [VInt 4;
                                                          VStr (str "0xff")]])])])])]],
     p, None).
Proof.
  assert (Hm : match_decimal (str "255" ++ [10]) = true).
  { simpl. now rewrite !is_digit_ascii by lia. }
  assert (Hi : int_of_decimal (str "255" ++ [10]) = 255).
  { unfold int_of_decimal. simpl. now rewrite !decimal_ascii by lia. }
  assert (Hc : convert_input (VList [VInt 1; VList [VInt 4; VStr (str "255" ++ [10])]]) p
               = (VList [VInt 1; VList [VInt 4; VStr (str "0xff")]], p, None)).
  { unfold convert_input, eval.
    change (getitem (VList [VInt 1; VList [VInt 4; VStr (str "255" ++ [10])]]) (KInt 1))
      with (Ok (VList [VInt 4; VStr (str "255" ++ [10])])).
    cbv iota beta.
    change (truthy (VList [VInt 4; VStr (str "255" ++ [10])])) with true. cbv iota.
    change (getitem (VList [VInt 4; VStr (str "255" ++ [10])]) (KInt 0))
      with (Ok (VInt 4)).
    cbv iota beta. change (py_eq (VInt 4) (VInt 4)) with true. cbv iota.
    change (getitem (VList [VInt 4; VStr (str "255" ++ [10])]) (KInt 1))
      with (Ok (VStr (str "255" ++ [10]))).
    cbv iota beta. rewrite Hm.
    rewrite py_int_within_the_limit
      by (simpl filter; rewrite !is_digit_ascii by lia; vm_compute; discriminate).
    rewrite Hi. reflexivity. }
  split; [exact Hm|]. split; [exact Hc|].
  change (str "255" ++ [10]) with [50; 53; 53; 10] in *.
  unfold convert_integers_to_hexadecimal, for_blocks, for_in, for_each, at_item.
  change (getitem (VDict [(KStr (str "blocks"), ?b)]) (KStr (str "blocks"))) with (Ok b).
  cbv iota beta. unfold for_items, for_each. simpl fst. simpl snd.
  unfold convert_block at 1, eval.
  change (getitem (VDict [(KStr (str "inputs"), ?b)]) (KStr (str "inputs"))) with (Ok b).
  cbv iota beta. simpl truthy. cbv iota. unfold at_item.
  change (getitem (VDict [(KStr (str "inputs"), ?b)]) (KStr (str "inputs"))) with (Ok b).
  cbv iota beta. unfold for_items, for_each. simpl fst. simpl snd.
  rewrite Hc. reflexivity.
Qed.

(** *** [hex] *)

Lemma hexdigit_value_hexdigit (d : Z) : 0 <= d < 16 -> hexdigit_value (hexdigit d) = d.
Proof.
  intros H. unfold hexdigit_value, hexdigit.
  destruct (Z.ltb_spec d 10).
  - destruct (Z.ltb_spec (48 + d) 97); lia.
  - destruct (Z.ltb_spec (87 + d) 97); lia.
Qed.

Lemma hex_value_from (s : pystr) (n : Z) :
  fold_left (fun n c => 16 * n + hexdigit_value c) s n
  = n * 16 ^ Z.of_nat (List.length s) + hex_value s.
Proof.
  unfold hex_value. revert n. induction s as [|c s IH]; intros n.
  - simpl. lia.
  - cbn [fold_left List.length]. rewrite IH, (IH (16 * 0 + hexdigit_value c)).
    rewrite Nat2Z.inj_succ, Z.pow_succ_r by lia. ring.
Qed.

Lemma hex_value_cons (c : Z) (s : pystr) :
  hex_value (c :: s) = hexdigit_value c * 16 ^ Z.of_nat (List.length s) + hex_value s.
Proof.
  unfold hex_value at 1. cbn [fold_left]. rewrite hex_value_from. ring.
Qed.

(** With enough fuel [hex_digits] puts the digits of [n] before [acc]. *)
Lemma hex_digits_spec (fuel : nat) :
  forall n acc,
    0 <= n < 16 ^ Z.of_nat (S fuel) ->
    forallb is_hexdigit acc = true ->
    forallb is_hexdigit (hex_digits (S fuel) n acc) = true /\
    hex_value (hex_digits (S fuel) n acc)
    = n * 16 ^ Z.of_nat (List.length acc) + hex_value acc.
Proof.
  induction fuel as [|fuel IH]; intros n acc Hn Hacc.
  - change (16 ^ Z.of_nat 1) with 16 in Hn.
    cbn [hex_digits]. rewrite Z.div_small, Z.mod_small by lia. simpl Z.eqb. cbv iota.
    split.
    + cbn [forallb]. rewrite hexdigit_is_hexdigit by lia. exact Hacc.
    + rewrite hex_value_cons, hexdigit_value_hexdigit by lia. reflexivity.
  - change (hex_digits (S (S fuel)) n acc)
      with (if n / 16 =? 0 then hexdigit (n mod 16) :: acc
            else hex_digits (S fuel) (n / 16) (hexdigit (n mod 16) :: acc)).
    assert (Hm : 0 <= n mod 16 < 16) by (apply Z.mod_pos_bound; lia).
    assert (Hacc' : forallb is_hexdigit (hexdigit (n mod 16) :: acc) = true).
    { cbn [forallb]. now rewrite hexdigit_is_hexdigit. }
    destruct (Z.eqb_spec (n / 16) 0) as [Hq|Hq].
    + split; [exact Hacc'|].
      rewrite hex_value_cons, hexdigit_value_hexdigit by exact Hm.
      rewrite (Z.div_mod n 16) at 2 by lia. rewrite Hq. ring.
    + assert (Hdiv : 0 <= n / 16 < 16 ^ Z.of_nat (S fuel)).
      { split; [apply Z.div_pos; lia|].
        apply Z.div_lt_upper_bound; [lia|].
        rewrite (Nat2Z.inj_succ (S fuel)), Z.pow_succ_r in Hn by lia. lia. }
      destruct (IH (n / 16) (hexdigit (n mod 16) :: acc) Hdiv Hacc') as [H1 H2].
      split; [exact H1|]. rewrite H2.
      rewrite hex_value_cons, hexdigit_value_hexdigit by exact Hm.
      cbn [List.length]. rewrite Nat2Z.inj_succ, Z.pow_succ_r by lia.
      rewrite (Z.div_mod n 16) at 3 by lia. ring.
Qed.

(** [hex(n)], for [n >= 0], is [0x] followed by hexadecimal digits that
    denote [n]. *)
Lemma hex_spec (n : Z) :
  0 <= n ->
  exists ds,
    hex n = str "0x" ++ ds /\ forallb is_hexdigit ds = true /\ hex_value ds = n.
Proof.
  intros Hn. unfold hex. destruct (Z.ltb_spec n 0); [lia|].
  rewrite Z.abs_eq by exact Hn.
  destruct (hex_digits_spec (Z.to_nat (Z.log2 n)) n []) as [H1 H2]; [|reflexivity|].
  - split; [exact Hn|].
    destruct (Z.eq_dec n 0) as [->|Hne]; [reflexivity|].
    assert (Hlog : n < 2 ^ Z.succ (Z.log2 n)) by (apply Z.log2_spec; lia).
    pose proof (Z.log2_nonneg n) as Hl.
    rewrite Nat2Z.inj_succ, Z2Nat.id by exact Hl.
    apply Z.lt_le_trans with (2 ^ Z.succ (Z.log2 n)); [exact Hlog|].
    apply Z.pow_le_mono_l. lia.
  - eexists. split; [reflexivity|]. split; [exact H1|].
    rewrite H2. change (hex_value []) with 0.
    change (Z.of_nat (List.length (@nil Z))) with 0. rewrite Z.pow_0_r. lia.
Qed.

(** The digits of the Unicode table are the ten decimal digits. *)
Hypothesis decimal_range : forall c d, decimal c = Some d -> 0 <= d <= 9.

Lemma int_of_decimal_nonneg (s : pystr) : 0 <= int_of_decimal s.
Proof.
  unfold int_of_decimal.
  assert (H : forall n, 0 <= n ->
            0 <= fold_left (fun n c => match decimal c with
                                       | Some d => 10 * n + d
                                       | None => n
                                       end) s n).
  { induction s as [|c s IH]; intros n Hn; [exact Hn|].
    cbn [fold_left]. apply IH.
    destruct (decimal c) as [d|] eqn:Hd; [|exact Hn].
    apply decimal_range in Hd. lia. }
  apply H. lia.
Qed.

Lemma getitem_first (x : value) (l : list value) : getitem (VList (x :: l)) (KInt 0) = Ok x.
Proof.
  unfold getitem, index. simpl.
  now replace (0 <? Z.pos (Pos.of_succ_nat (List.length l))) with true by reflexivity.
Qed.

Lemma index_second (n : nat) : index 1 (Datatypes.S (Datatypes.S n)) = Some 1%nat.
Proof.
  unfold index. change (1 <? 0) with false. cbv iota.
  destruct (Z.ltb_spec 1 (Z.of_nat (Datatypes.S (Datatypes.S n)))); [reflexivity | lia].
Qed.

Lemma getitem_second (x y : value) (l : list value) :
  getitem (VList (x :: y :: l)) (KInt 1) = Ok y.
Proof. unfold getitem. cbn [List.length]. now rewrite index_second. Qed.

Lemma put_second (x y z : value) (l : list value) :
  put (VList (x :: y :: l)) (KInt 1) z = VList (x :: z :: l).
Proof. unfold put, setitem. cbn [List.length]. now rewrite index_second. Qed.

(** X11: an input [[shadow, [4, text, ...], ...]] whose text [^\d+$]
    matches, with at most 4300 digits (the limit that [int] puts on a
    string by default), gets the text [hex(int(text))]: [0x] and lower-case
    hexadecimal digits that denote the number [int(text)]; nothing else of
    the input changes.  With more than 4300 digits the [ValueError] of
    [int] leaves the input as it was. *)
Theorem convert_input_converts
    (shadow kind : value) (text : pystr) (rest more : list value) (p : nat) :
  py_eq kind (VInt 4) = true ->
  match_decimal text = true ->
  (Z.of_nat (List.length (filter is_digit text)) <= 4300 ->
   exists ds,
     convert_input (VList (shadow :: VList (kind :: VStr text :: rest) :: more)) p
     = (VList (shadow :: VList (kind :: VStr (str "0x" ++ ds) :: rest) :: more), p, None) /\
     forallb is_hexdigit ds = true /\
     hex_value ds = int_of_decimal text) /\
  (4300 < Z.of_nat (List.length (filter is_digit text)) ->
   convert_input (VList (shadow :: VList (kind :: VStr text :: rest) :: more)) p
   = (VList (shadow :: VList (kind :: VStr text :: rest) :: more), p, Some ValueError)).
Proof.
  intros H4 Hm.
  assert (Hc : convert_input (VList (shadow :: VList (kind :: VStr text :: rest) :: more)) p
               = match py_int text with
                 | Raise e =>
                     (VList (shadow :: VList (kind :: VStr text :: rest) :: more), p, Some e)
                 | Ok n =>
                     at_item (KInt 1) (assign (KInt 1) (VStr (hex n)))
                       (VList (shadow :: VList (kind :: VStr text :: rest) :: more)) p
                 end).
  { unfold convert_input, eval.
    rewrite getitem_second. cbn [truthy].
    now rewrite getitem_first, H4, getitem_second, Hm. }
  split; intros Hlen.
  - destruct (hex_spec (int_of_decimal text) (int_of_decimal_nonneg text))
      as (ds & Hhex & Hds & Hval).
    exists ds. split; [|now split].
    rewrite <- Hhex, Hc, py_int_within_the_limit by exact Hlen.
    unfold at_item. rewrite getitem_second.
    unfold assign, eval, setitem. cbn [List.length]. rewrite index_second.
    cbn [replace]. now rewrite put_second.
  - now rewrite Hc, py_int_beyond_the_limit by exact Hlen.
Qed.

(** ** A strategy value that is no strategy, in [rename_variables] *)

Lemma put_first (x y : value) (l : list value) :
  put (VList (x :: l)) (KInt 0) y = VList (y :: l).
Proof.
  unfold put, setitem, index. simpl.
  now replace (0 <? Z.pos (Pos.of_succ_nat (List.length l))) with true by reflexivity.
Qed.



(** * Further properties *)

(** ** Option resolution: the keys read and the bounds accepted *)

Lemma length_app_neq (a b s : pystr) :
  List.length a <> List.length b -> KStr (a ++ s) <> KStr (b ++ s).
Proof.
  intros Hne E. injection E as E. apply (f_equal (@List.length Z)) in E.
  rewrite !length_app in E. lia.
Qed.

Lemma plural_key_neq_length_key (c : pystr) :
  c <> [] -> name_length_key c <> KStr (c ++ str "_name_length").
Proof.
  intros Hc. unfold name_length_key. apply length_app_neq.
  rewrite (app_removelast_last 0 Hc) at 2.
  rewrite length_app. simpl. lia.
Qed.

Lemma plural_key_last (c : pystr) :
  KStr (c ++ str "_name_length") = KStr ((c ++ str "_name_lengt") ++ [104]).
Proof. now rewrite <- app_assoc. Qed.

(** X1: the name length is read under the category word without its last
    character ([variable_name_length]); a binding of the key with the whole
    word ([variables_name_length], as the module's example writes it)
    changes neither the generator returned nor the exception raised. *)
Theorem plural_name_length_is_ignored (options : dict) (c : pystr) (v : value) :
  c <> [] ->
  fst (parse_rename_options (store (KStr (c ++ str "_name_length")) v options) c)
  = fst (parse_rename_options options c).
Proof.
  intros Hc. rewrite !parse_rename_options_eq. cbv zeta.
  rewrite (lookup_store_other (name_length_key c) _ v options)
    by now apply plural_key_neq_length_key.
  rewrite (lookup_store_other (rename_to_key c) _ v options)
    by (rewrite rename_to_key_last, plural_key_last; now apply last_char_neq).
  rewrite (lookup_store_other (KStr (str "range_start")) _ v options)
    by (rewrite plural_key_last;
        change (str "range_start") with (str "range_star" ++ [116]);
        now apply last_char_neq).
  rewrite (lookup_store_other (KStr (str "range_end")) _ v options)
    by (rewrite plural_key_last;
        change (str "range_end") with (str "range_en" ++ [100]);
        now apply last_char_neq).
  destruct (as_int _); [|reflexivity].
  destruct (lookup (rename_to_key c) options) as [s|]; [|reflexivity].
  destruct (is_str s "random_hex"); [reflexivity|].
  destruct (is_str s "random_unicode_char_range"); [|reflexivity].
  destruct (py_gt _ _) as [[|]|e]; try reflexivity.
  destruct (as_int _); [|reflexivity]. now destruct (as_int _).
Qed.

(** What option resolution returns for integer bounds in order. *)
Lemma parse_range_strategy (options : dict) (c : pystr) (a b L : Z) :
  lookup (rename_to_key c) options = Some (VStr (str "random_unicode_char_range")) ->
  default (VInt 10) (lookup (name_length_key c) options) = VInt L ->
  lookup (KStr (str "range_start")) options = Some (VInt a) ->
  lookup (KStr (str "range_end")) options = Some (VInt b) ->
  a <= b ->
  exists o, parse_rename_options options c = (Ok (GenRange a b L), o).
Proof.
  intros Hs Hl Ha Hb Hab. rewrite parse_rename_options_eq. cbv zeta.
  rewrite Hs, Hl, Ha, Hb. simpl as_int.
  change (is_str (VStr (str "random_unicode_char_range")) "random_hex") with false.
  change (is_str (VStr (str "random_unicode_char_range")) "random_unicode_char_range")
    with true.
  cbv iota. simpl default. rewrite (py_gt_int (VInt a) (VInt b) a b) by reflexivity.
  destruct (Z.ltb_spec b a); [lia|]. simpl as_int.
  eexists. reflexivity.
Qed.

(** [chr] of a number that is no code point: [ValueError] for a number
    that fits the C type [int], [OverflowError] for any other. *)
Lemma chr_outside (i : Z) :
  i < 0 \/ 1114112 <= i ->
  chr i = if fits_int i then Raise ValueError else Raise OverflowError.
Proof.
  intros H. unfold chr.
  replace ((0 <=? i) && (i <? 1114112)) with false; [reflexivity|].
  symmetry. apply andb_false_iff.
  destruct H; [left; apply Z.leb_gt | right; apply Z.ltb_ge]; lia.
Qed.

(** X2: the bounds are compared with each other only, never with the
    range of the code points: an interval that lies below 0 or above
    0x10FFFF is accepted, and the first call of the generator raises: the
    [ValueError] of [chr] when both bounds fit the C type [int], and
    [OverflowError] when the interval lies below [-2**31] or from [2**31]
    on. *)
Theorem bounds_outside_the_code_points_raise_at_the_call
    (options : dict) (c : pystr) (a b L : Z) :
  lookup (rename_to_key c) options = Some (VStr (str "random_unicode_char_range")) ->
  default (VInt 10) (lookup (name_length_key c) options) = VInt L ->
  lookup (KStr (str "range_start")) options = Some (VInt a) ->
  lookup (KStr (str "range_end")) options = Some (VInt b) ->
  a <= b ->
  b < 0 \/ 1114112 <= a ->
  0 < L ->
  exists g o,
    parse_rename_options options c = (Ok g, o) /\
    (- 2 ^ 31 <= a -> b < 2 ^ 31 -> forall p, call g p = (Raise ValueError, S p)) /\
    (b < - 2 ^ 31 \/ 2 ^ 31 <= a -> forall p, fst (call g p) = Raise OverflowError).
Proof.
  intros Hs Hl Ha Hb Hab Hout HL.
  destruct (parse_range_strategy options c a b L Hs Hl Ha Hb Hab) as [o Ho].
  exists (GenRange a b L), o. split; [exact Ho|].
  assert (Hm : forall p, a <= a + draw p mod (b - a + 1) <= b).
  { intros p. pose proof (Z.mod_pos_bound (draw p) (b - a + 1)). lia. }
  split.
  - intros Hmin Hmax p. simpl.
    destruct (Z.to_nat L) as [|n] eqn:En; [lia|].
    simpl. unfold random_choice_range. destruct (Z.ltb_spec b a); [lia|].
    rewrite (code_points_fit a b) by auto. simpl negb. cbv iota.
    specialize (Hm p). rewrite chr_outside by lia.
    replace (fits_int (a + draw p mod (b - a + 1))) with true; [reflexivity|].
    symmetry. apply fits_int_spec. lia.
  - intros Hfar p. simpl.
    destruct (Z.to_nat L) as [|n] eqn:En; [lia|].
    simpl. unfold random_choice_range. destruct (Z.ltb_spec b a); [lia|].
    destruct (negb (fits_ssize_t (b - a + 1))); [reflexivity|].
    specialize (Hm p). rewrite chr_outside by lia.
    destruct (fits_int (a + draw p mod (b - a + 1))) eqn:E; [|reflexivity].
    apply fits_int_spec in E. change (2 ^ 31) with 2147483648 in *. lia.
Qed.

Lemma random_chars_one_code_point (a : Z) (n p : nat) :
  0 <= a < 1114112 ->
  random_chars a a n p = (Ok (repeat a n), (p + n)%nat).
Proof.
  intros Ha. revert p. induction n as [|n IH]; intros p; simpl.
  - now rewrite Nat.add_0_r.
  - unfold random_choice_range. rewrite Z.ltb_irrefl.
    replace (a - a + 1) with 1 by lia. rewrite Z.mod_1_r, Z.add_0_r.
    change (negb (fits_ssize_t 1)) with false. cbv iota.
    unfold chr.
    replace ((0 <=? a) && (a <? 1114112)) with true
      by (symmetry; apply andb_true_iff; split; [apply Z.leb_le | apply Z.ltb_lt]; lia).
    rewrite IH. f_equal. lia.
Qed.

(** X3: equal bounds are accepted, and then the generator returns the
    same name at every call, whatever is drawn: the one code point, as
    many times as the name is long. *)
Theorem equal_bounds_give_one_name (options : dict) (c : pystr) (a L : Z) :
  lookup (rename_to_key c) options = Some (VStr (str "random_unicode_char_range")) ->
  default (VInt 10) (lookup (name_length_key c) options) = VInt L ->
  lookup (KStr (str "range_start")) options = Some (VInt a) ->
  lookup (KStr (str "range_end")) options = Some (VInt a) ->
  0 <= a < 1114112 ->
  exists g o,
    parse_rename_options options c = (Ok g, o) /\
    forall p, call g p = (Ok (repeat a (Z.to_nat L)), (p + Z.to_nat L)%nat).
Proof.
  intros Hs Hl Ha Hb Hrange.
  destruct (parse_range_strategy options c a a L Hs Hl Ha Hb (Z.le_refl a)) as [o Ho].
  exists (GenRange a a L), o. split; [exact Ho|].
  intros p. simpl. now apply random_chars_one_code_point.
Qed.

(** X4: a negative name length is accepted by option resolution; the
    hexadecimal generator then raises at every call, [ValueError] for a
    length from [-2**63] on and [OverflowError] for one below, which does
    not fit the C type [ssize_t]; the code point generator returns the
    empty name and draws nothing. *)
Theorem negative_length_by_strategy (options : dict) (c : pystr) (L : Z) :
  default (VInt 10) (lookup (name_length_key c) options) = VInt L ->
  L < 0 ->
  (lookup (rename_to_key c) options = Some (VStr (str "random_hex")) ->
   exists g o,
     parse_rename_options options c = (Ok g, o) /\
     forall p,
       call g p = (Raise (if - 2 ^ 63 <=? L then ValueError else OverflowError), p)) /\
  (forall a b,
      lookup (rename_to_key c) options = Some (VStr (str "random_unicode_char_range")) ->
      lookup (KStr (str "range_start")) options = Some (VInt a) ->
      lookup (KStr (str "range_end")) options = Some (VInt b) ->
      a <= b ->
      exists g o,
        parse_rename_options options c = (Ok g, o) /\
        forall p, call g p = (Ok [], p)).
Proof.
  intros Hl HL. split.
  - intros Hs. exists (GenHex L). eexists. split.
    + rewrite parse_rename_options_eq. cbv zeta. rewrite Hs, Hl. simpl as_int.
      change (is_str (VStr (str "random_hex")) "random_hex") with true. reflexivity.
    + intros p. unfold call. destruct (Z.leb_spec (- 2 ^ 63) L).
      * now apply token_hex_negative.
      * apply token_hex_overflow. now left.
  - intros a b Hs Ha Hb Hab.
    destruct (parse_range_strategy options c a b L Hs Hl Ha Hb Hab) as [o Ho].
    exists (GenRange a b L), o. split; [exact Ho|].
    intros p. simpl. now replace (Z.to_nat L) with 0%nat by lia.
Qed.

(** ** Variables and lists *)

(** The options record [parse_rename_options] leaves binds every other
    key as before. *)
Lemma parse_leaves_other_keys (options : dict) (c : pystr) (k : key) :
  k <> rename_to_key c -> k <> name_length_key c ->
  k <> KStr (str "range_start") -> k <> KStr (str "range_end") ->
  lookup k (snd (parse_rename_options options c)) = lookup k options.
Proof.
  intros H1 H2 H3 H4.
  assert (E2 : lookup k (remove (name_length_key c) (remove (rename_to_key c) options))
               = lookup k options) by now rewrite !lookup_remove_other.
  assert (E4 : lookup k (remove (KStr (str "range_end"))
                           (remove (KStr (str "range_start"))
                              (remove (name_length_key c)
                                 (remove (rename_to_key c) options))))
               = lookup k options) by now rewrite !lookup_remove_other.
  rewrite parse_rename_options_eq. cbv zeta.
  destruct (as_int _); [|exact E2].
  destruct (lookup (rename_to_key c) options) as [s|]; [|exact E2].
  destruct (is_str s "random_hex"); [exact E2|].
  destruct (is_str s "random_unicode_char_range"); [|exact E2].
  destruct (py_gt _ _) as [[|]|e]; try exact E4.
  destruct (as_int _); [|exact E4]. now destruct (as_int _).
Qed.

Lemma entry_renamed (g : namegen) (k : key) (kv : key * value) (p : nat)
  (kv' : key * value) (p' : nat) :
  match assign_name g k (snd kv) p with
  | (x', st', e) => ((fst kv, x'), st', e)
  end = (kv', p', None) ->
  fst kv' = fst kv /\ renamed_at g k (snd kv) (snd kv').
Proof.
  intros H. apply entry_done in H as [Hk H]. split; [exact Hk|].
  apply assign_name_done in H as (name & Hcall & Hset).
  now exists name, p, p'.
Qed.

(** The loop over the entries of the dict [what] of one target. *)
Lemma entries_loop_done (g : namegen) (what : pystr) (t : value) (p : nat)
  (t' : value) (p' : nat) :
  at_item (KStr what) (for_items (fun _ => assign_name g (KInt 0))) t p = (t', p', None) ->
  entries_renamed g what t t'.
Proof.
  intros H. apply at_item_done in H as (x & x' & Hx & Hbody & ->).
  apply for_items_done in Hbody as (d & d' & -> & -> & Hd).
  exists d, d'. split; [exact Hx|]. split; [reflexivity|].
  apply (for_each_inv (fun _ => True)) in Hd as [_ Hall]; [|auto|exact I].
  eapply Forall2_impl; [|exact Hall].
  intros kv kv' (s & s' & _ & Hkv). now apply entry_renamed in Hkv.
Qed.

Lemma for_tail_done {S} (body : stmt S) (ts : list value) (st : S)
  (ts' : list value) (st' : S) :
  for_tail body (VList ts) st = (VList ts', st', None) ->
  firstn 1 ts' = firstn 1 ts /\
  Forall2 (fun x x' => exists s s', body x s = (x', s', None)) (skipn 1 ts) (skipn 1 ts').
Proof.
  unfold for_tail. destruct ts as [|stage sprites].
  - intros H. injection H as <- <-. split; [reflexivity | constructor].
  - destruct (for_each body sprites st) as [[r' s1] e] eqn:Hr.
    intros H. injection H as <- <- ->. split; [reflexivity|]. simpl.
    apply (for_each_inv (fun _ => True)) in Hr as [_ Hall]; [|auto|exact I].
    eapply Forall2_impl; [|exact Hall].
    intros x x' (s & s' & _ & Hx). now exists s, s'.
Qed.

Lemma at_first_done {S} (body : stmt S) (ts : list value) (st : S)
  (v' : value) (st' : S) :
  at_item (KInt 0) body (VList ts) st = (v', st', None) ->
  exists stage stage' sprites,
    ts = stage :: sprites /\ v' = VList (stage' :: sprites) /\
    body stage st = (stage', st', None).
Proof.
  intros H. apply at_item_done in H as (x & x' & Hx & Hbody & ->).
  destruct ts as [|stage sprites]; [discriminate Hx|].
  rewrite getitem_first in Hx. injection Hx as <-.
  exists stage, x', sprites. now rewrite put_first.
Qed.

Lemma rename_named_renames (what public private : string) :
  KStr (str public) <> rename_to_key (str what) ->
  KStr (str public) <> name_length_key (str what) ->
  KStr (str private) <> rename_to_key (str what) ->
  KStr (str private) <> name_length_key (str what) ->
  KStr (str public) <> KStr (str "range_start") ->
  KStr (str public) <> KStr (str "range_end") ->
  KStr (str private) <> KStr (str "range_start") ->
  KStr (str private) <> KStr (str "range_end") ->
  KStr (str private) <> KStr (str public) ->
  str public = str "rename_public_" ++ str what ->
  str private = str "rename_private_" ++ str what ->
  renames_entries (rename_named what) what public private.
Proof.
  intros A1 A2 A3 A4 A5 A6 A7 A8 A9 Epub Epriv ts options p ts' p'.
  unfold rename_named, flag, pop.
  pose proof (parse_leaves_other_keys options (str what) _ A1 A2 A5 A6) as Hpub.
  pose proof (parse_leaves_other_keys options (str what) _ A3 A4 A7 A8) as Hpriv.
  destruct (parse_rename_options options (str what)) as [[g|e] o]; [|discriminate].
  simpl in Hpub, Hpriv.
  rewrite <- Epub, <- Epriv, (lookup_remove_other _ _ o A9), Hpub, Hpriv.
  intros H. exists g. split; [reflexivity|].
  destruct (truthy (default (VBool true) (lookup (KStr (str public)) options))).
  - destruct (at_item (KInt 0) _ (VList ts) p) as [[v1 p1] [e1|]] eqn:H1; [discriminate|].
    apply at_first_done in H1 as (stage & stage' & sprites & -> & -> & Hstage).
    apply entries_loop_done in Hstage.
    destruct (truthy (default (VBool true) (lookup (KStr (str private)) options))).
    + apply for_tail_done in H as [Hhead Htail].
      destruct ts' as [|s0 sprites']; [discriminate Hhead|].
      injection Hhead as ->. split; [exact Hstage|].
      simpl in Htail. eapply Forall2_impl; [|exact Htail].
      intros x x' (s & s' & Hx). now apply entries_loop_done in Hx.
    + injection H as <- _. now split.
  - unfold skip in H.
    destruct (truthy (default (VBool true) (lookup (KStr (str private)) options))).
    + apply for_tail_done in H as [Hhead Htail].
      destruct ts as [|stage sprites], ts' as [|stage' sprites']; try discriminate Hhead;
        [reflexivity|].
      injection Hhead as ->. split; [reflexivity|].
      simpl in Htail. eapply Forall2_impl; [|exact Htail].
      intros x x' (s & s' & Hx). now apply entries_loop_done in Hx.
    + injection H as <- _. destruct ts; [reflexivity | now split].
Qed.

(** X5: when [rename_variables] or [rename_lists] ends normally, the
    dict of the variables (of the lists) of the stage, if the public flag
    is on, and of every other target, if the private flag is on, has the
    keys it had, in their order, and each entry is the entry it was with a
    name of the generator stored at index 0; the targets are otherwise as
    they were, and with a flag off its targets are untouched. *)
Theorem rename_variables_and_lists_rename_entries :
  renames_entries rename_variables "variables"
    "rename_public_variables" "rename_private_variables" /\
  renames_entries rename_lists "lists" "rename_public_lists" "rename_private_lists".
Proof.
  split; apply rename_named_renames; try reflexivity; discriminate.
Qed.

(** ** Costumes and backdrops *)

(** The loop over the list [what] of one target. *)
Lemma elements_loop_done (g : namegen) (what : pystr) (t : value) (p : nat)
  (t' : value) (p' : nat) :
  at_item (KStr what) (for_in (assign_name g (KStr (str "name")))) t p = (t', p', None) ->
  elements_renamed g what t t'.
Proof.
  intros H. apply at_item_done in H as (x & x' & Hx & Hbody & ->).
  exists x, x'. split; [exact Hx|]. split; [reflexivity|].
  unfold for_in in Hbody.
  destruct x as [| | | | |l| |];
    try (simpl in Hbody; now injection Hbody as <- _);
    try (simpl in Hbody; destruct (for_each _ _ p) as [[? ?] ?]; now injection Hbody as <- _).
  destruct (for_each (assign_name g (KStr (str "name"))) l p) as [[l' q] e] eqn:Hl.
  injection Hbody as <- <- ->. exists l'. split; [reflexivity|].
  apply (for_each_inv (fun _ => True)) in Hl as [_ Hall]; [|auto|exact I].
  eapply Forall2_impl; [|exact Hall].
  intros c c' (s & s' & _ & Hc).
  apply assign_name_done in Hc as (name & Hcall & Hset). now exists name, s, s'.
Qed.

Lemma for_tail_keeps_first {S} (body : stmt S) (ts : list value) (st : S) :
  exists ts',
    fst (fst (for_tail body (VList ts) st)) = VList ts' /\
    firstn 1 ts' = firstn 1 ts /\ List.length ts' = List.length ts.
Proof.
  unfold for_tail. destruct ts as [|stage sprites]; [now exists []|].
  pose proof (for_each_rel (fun _ _ => True) body (fun _ => I) (fun _ _ => I) sprites st)
    as Hrel.
  destruct (for_each body sprites st) as [[r' s1] e]. simpl in *.
  exists (stage :: r'). repeat split. simpl. f_equal.
  symmetry. eapply Forall2_length. exact Hrel.
Qed.

(** X6: [rename_costumes] never touches the first target, the stage,
    however it ends; when it ends normally, every element of the list of
    costumes of every other target is the element it was with a name of the
    generator stored at ['name'], and the targets are otherwise as they
    were. *)
Theorem rename_costumes_renames_the_costumes_of_sprites
    (ts : list value) (options : dict) (p : nat) (v' : value) (p' : nat) (e : option exn) :
  rename_costumes (VList ts) options p = (v', p', e) ->
  exists ts',
    v' = VList ts' /\
    firstn 1 ts' = firstn 1 ts /\
    List.length ts' = List.length ts /\
    (e = None ->
     exists g,
       fst (parse_rename_options options (str "costumes")) = Ok g /\
       Forall2 (elements_renamed g (str "costumes")) (skipn 1 ts) (skipn 1 ts')).
Proof.
  unfold rename_costumes.
  destruct (parse_rename_options options (str "costumes")) as [[g|e0] o].
  - intros H.
    destruct (for_tail_keeps_first
                (at_item (KStr (str "costumes"))
                   (for_in (assign_name g (KStr (str "name"))))) ts p)
      as (ts' & Hv & Hhead & Hlen).
    rewrite H in Hv. simpl in Hv. subst v'.
    exists ts'. repeat split; try assumption.
    intros ->. exists g. split; [reflexivity|].
    apply for_tail_done in H as [_ Htail].
    eapply Forall2_impl; [|exact Htail].
    intros x x' (s & s' & Hx). now apply elements_loop_done in Hx.
  - intros H. injection H as <- <- <-. exists ts. repeat split. discriminate.
Qed.

(** X7: [rename_backdrops] never touches a target but the first, the
    stage, however it ends; when it ends normally, every element of the
    list of costumes of the stage is the element it was with a name of the
    generator stored at ['name']. *)
Theorem rename_backdrops_renames_the_costumes_of_the_stage
    (ts : list value) (options : dict) (p : nat) (v' : value) (p' : nat) (e : option exn) :
  rename_backdrops (VList ts) options p = (v', p', e) ->
  exists ts',
    v' = VList ts' /\
    skipn 1 ts' = skipn 1 ts /\
    List.length ts' = List.length ts /\
    (e = None ->
     exists g stage stage',
       fst (parse_rename_options options (str "backdrops")) = Ok g /\
       nth_error ts 0 = Some stage /\ nth_error ts' 0 = Some stage' /\
       elements_renamed g (str "costumes") stage stage').
Proof.
  unfold rename_backdrops.
  destruct (parse_rename_options options (str "backdrops")) as [[g|e0] o].
  - destruct ts as [|stage sprites].
    + intros H. injection H as <- <- <-. exists []. repeat split. discriminate.
    + unfold at_item at 1. rewrite getitem_first.
      destruct (at_item (KStr (str "costumes")) _ stage p) as [[stage' q] e1] eqn:Hs.
      rewrite put_first. intros H. injection H as <- <- <-.
      exists (stage' :: sprites). repeat split.
      intros ->. exists g, stage, stage'. repeat split.
      now apply elements_loop_done in Hs.
  - intros H. injection H as <- <- <-. exists ts. repeat split. discriminate.
Qed.

(** ** Sprites *)

(** X8: [rename_sprites] never changes the name of the first target, the
    stage, however it ends; when it ends normally, every other target had
    a hashable name and now bears a name the generator returned. *)
Theorem rename_sprites_renames_the_sprites
    (ts : list value) (options : dict) (p : nat) (v' : value) (p' : nat) (e : option exn) :
  rename_sprites (VList ts) options p = (v', p', e) ->
  exists ts',
    v' = VList ts' /\
    (forall stage stage',
        nth_error ts 0 = Some stage -> nth_error ts' 0 = Some stage' ->
        getitem stage' (KStr (str "name")) = getitem stage (KStr (str "name"))) /\
    (e = None ->
     exists g,
       fst (parse_rename_options options (str "sprites")) = Ok g /\
       forall n s s',
         nth_error ts (S n) = Some s -> nth_error ts' (S n) = Some s' ->
         exists old name q q',
           getitem s (KStr (str "name")) = Ok old /\ hashable old = true /\
           call g q = (Ok name, q') /\
           getitem s' (KStr (str "name")) = Ok (VStr name)).
Proof.
  unfold rename_sprites.
  destruct (parse_rename_options options (str "sprites")) as [[g|e0] o].
  2:{ intros H. injection H as <- <- <-. exists ts. repeat split.
      - intros stage stage' H1 H2. congruence.
      - discriminate. }
  assert (Hsecond : forall names l q,
             Forall2 (fun t t' => getitem t' (KStr (str "name"))
                                  = getitem t (KStr (str "name")))
               l (fst (fst (for_each
                              (at_item (KStr (str "blocks"))
                                 (for_items (fun _ => rewrite_menus names menus))) l q)))).
  { intros names l q. apply for_each_rel; [reflexivity|].
    intros x st. apply target_blocks_rel. }
  unfold for_tail. destruct ts as [|stage sprites].
  - unfold for_blocks, for_in. simpl. intros H. injection H as <- <- <-.
    exists []. repeat split.
    + intros stage stage' H1. discriminate H1.
    + intros _. exists g. split; [reflexivity|]. intros n s s' H1. destruct n; discriminate H1.
  - destruct (for_each (rename_sprite g) sprites ([], p)) as [[sprites1 [names p1]] e1] eqn:H1.
    destruct e1 as [e1|].
    + intros H. injection H as <- <- <-. exists (stage :: sprites1). repeat split.
      * intros s0 s0' E0 E0'. simpl in E0, E0'. congruence.
      * discriminate.
    + unfold for_blocks, for_in.
      pose proof (Hsecond names (stage :: sprites1) p1) as Hrel.
      destruct (for_each _ (stage :: sprites1) p1) as [[ts2 q2] e2].
      simpl in Hrel. intros H. injection H as <- <- <-.
      exists ts2. split; [reflexivity|]. split.
      * intros s0 s0' E0 E0'. simpl in E0. injection E0 as <-.
        inversion Hrel as [|? s2 ? r2 Hs Hr]; subst. simpl in E0'. now injection E0' as <-.
      * intros ->. exists g. split; [reflexivity|].
        intros n s s' Hs Hs'. simpl in Hs.
        apply (for_each_inv (fun _ => True)) in H1 as [_ Hall]; [|auto|exact I].
        destruct (Forall2_nth _ _ _ Hall _ _ Hs) as (s1 & Hs1 & [nm q] & [nm' q'] & _ & Hb).
        apply rename_sprite_done in Hb as (old & new & d & Hcall & -> & Hd & Hh & _ & ->).
        inversion Hrel as [|? s2 ? r2 Hst Hr]; subst. simpl in Hs'.
        destruct (Forall2_nth _ _ _ Hr _ _ Hs1) as (s2' & Hs2' & Hname).
        rewrite Hs' in Hs2'. injection Hs2' as <-.
        exists old, new, q, q'. repeat split; try assumption.
        -- simpl. now rewrite Hd.
        -- rewrite Hname. simpl. now rewrite lookup_store_same.
Qed.

(** What a statement [v[k] = rename_to()] can make of [v], however it
    ends. *)
Lemma assign_name_rel (g : namegen) (k : pystr) (v : value) (p : nat) :
  forall k', k' <> KStr k ->
    getitem (fst (fst (assign_name g (KStr k) v p))) k' = getitem v k'.
Proof.
  intros k' Hne. unfold assign_name, assign, eval.
  destruct (call g p) as [[name|e] q]; [|reflexivity].
  destruct v as [| | | | | |d|]; try reflexivity.
  simpl. rewrite lookup_store_other; [reflexivity | exact Hne].
Qed.

(** X9: [rename_sprites] of version 0.1.0 changes nothing but names:
    whatever is bound to another key of a target, its blocks among them,
    is as it was, however the pass ends, so that a menu that named a sprite
    still holds the old name; the first target is untouched, and when the
    pass ends normally every other target is the target it was with a name
    of the generator stored at ['name']. *)
Theorem rename_sprites_0_1_0_keeps_the_blocks
    (ts : list value) (options : dict) (p : nat) (v' : value) (p' : nat) (e : option exn) :
  rename_sprites_0_1_0 (VList ts) options p = (v', p', e) ->
  exists ts',
    v' = VList ts' /\
    firstn 1 ts' = firstn 1 ts /\
    Forall2 (fun t t' => forall k, k <> KStr (str "name") -> getitem t' k = getitem t k)
            ts ts' /\
    (e = None ->
     exists g,
       fst (parse_rename_options options (str "sprites")) = Ok g /\
       Forall2 (renamed_at g (KStr (str "name"))) (skipn 1 ts) (skipn 1 ts')).
Proof.
  unfold rename_sprites_0_1_0.
  destruct (parse_rename_options options (str "sprites")) as [[g|e0] o].
  - intros H.
    assert (Hrel : forall l q,
               Forall2 (fun t t' => forall k, k <> KStr (str "name") ->
                                              getitem t' k = getitem t k)
                 l (fst (fst (for_each (assign_name g (KStr (str "name"))) l q)))).
    { intros l q. apply for_each_rel; [reflexivity|].
      intros x st k Hk. now apply assign_name_rel. }
    destruct ts as [|stage sprites].
    + simpl in H. injection H as <- <- <-. exists []. repeat split; [constructor|].
      intros _. exists g. split; [reflexivity | constructor].
    + pose proof (for_tail_done (assign_name g (KStr (str "name"))) (stage :: sprites) p)
        as Hdone.
      unfold for_tail in H, Hdone. specialize (Hrel sprites p).
      destruct (for_each (assign_name g (KStr (str "name"))) sprites p) as [[r' q] e1].
      simpl in Hrel. injection H as <- <- <-.
      exists (stage :: r'). repeat split.
      * constructor; [reflexivity | exact Hrel].
      * intros ->. exists g. split; [reflexivity|].
        destruct (Hdone (stage :: r') q eq_refl) as [_ Htail]. simpl in Htail. simpl.
        eapply Forall2_impl; [|exact Htail].
        intros x x' (s & s' & Hx).
        apply assign_name_done in Hx as (name & Hcall & Hset). now exists name, s, s'.
  - intros H. injection H as <- <- <-. exists ts. repeat split.
    + clear. induction ts; constructor; auto.
    + discriminate.
Qed.

(** ** Blocks that are lists *)

Lemma rewrite_menus_of_a_list (names : names_of_sprites) (l : list value) (p : nat) :
  snd (rewrite_menus names menus (VList l) p) <> None.
Proof. simpl. unfold andthen. simpl. discriminate. Qed.

(** X10: a block that is a list, the form in which [project.json] keeps
    a variable or list reporter that lies loose in the workspace, has no
    ['opcode'] to subscript: [rename_sprites], [rename_my_blocks] and
    [convert_integers_to_hexadecimal] raise on every document that holds
    one, whatever their options. *)
Theorem a_block_that_is_a_list_is_fatal
    (ts : list value) (j i : nat) (k : key) (l : list value) :
  block_at ts j i = Some (k, VList l) ->
  (forall options p, snd (rename_sprites (VList ts) options p) <> None) /\
  (forall options p, snd (rename_my_blocks (VList ts) options p) <> None) /\
  (forall p, snd (convert_integers_to_hexadecimal (VList ts) true p) <> None).
Proof.
  intros Hb. repeat split.
  - intros options p.
    destruct (rename_sprites (VList ts) options p) as [[v' p'] [e|]] eqn:H;
      [discriminate|]. exfalso. unfold rename_sprites in H.
    destruct (parse_rename_options options (str "sprites")) as [[g|e0] o]; [|discriminate].
    destruct (for_tail (rename_sprite g) (VList ts) ([], p))
      as [[v1 [names p1]] [e1|]] eqn:H1; [discriminate|].
    assert (Hts1 : exists ts1,
               v1 = VList ts1 /\ Forall2 (fun s s' => blocks_of s' = blocks_of s) ts ts1).
    { unfold for_tail in H1. destruct ts as [|stage sprites].
      - injection H1 as <- _ _. exists []. split; [reflexivity | constructor].
      - destruct (for_each (rename_sprite g) sprites ([], p)) as [[r' [nm q]] e1] eqn:Hr.
        injection H1 as <- <- <- ->.
        exists (stage :: r'). split; [reflexivity|].
        constructor; [reflexivity|]. now apply sprites_first_loop in Hr as [Hr _]. }
    destruct Hts1 as (ts1 & -> & Hsame).
    rewrite <- (block_at_same ts ts1 j i Hsame) in Hb.
    destruct (for_blocks_done (fun _ => True) (rewrite_menus names menus) ts1 p1 v' p')
      as (ts2 & _ & _ & Hfwd); [auto | exact I | exact H |].
    destruct (Hfwd _ _ _ _ Hb) as (val' & s & s' & _ & _ & Hbody).
    pose proof (rewrite_menus_of_a_list names l s) as Hl. rewrite Hbody in Hl.
    now apply Hl.
  - intros options p.
    destruct (rename_my_blocks (VList ts) options p) as [[v' p'] [e|]] eqn:H;
      [discriminate|]. exfalso. unfold rename_my_blocks in H.
    destruct (parse_rename_options options (str "my_blocks")) as [[g|e0] o]; [|discriminate].
    destruct (for_blocks (rename_prototype g) (VList ts) ([], p))
      as [[v1 [names p1]] [e1|]] eqn:H1; [discriminate|].
    destruct (for_blocks_done (fun _ => True) (rename_prototype g) ts ([], p) v1 (names, p1))
      as (ts1 & _ & _ & Hfwd); [auto | exact I | exact H1 |].
    destruct (Hfwd _ _ _ _ Hb) as (val' & [nm q] & s' & _ & _ & Hbody).
    discriminate Hbody.
  - intros p.
    destruct (convert_integers_to_hexadecimal (VList ts) true p) as [[v' p'] [e|]] eqn:H;
      [discriminate|]. exfalso. unfold convert_integers_to_hexadecimal in H.
    destruct (for_blocks_done (fun _ => True) convert_block ts p v' p')
      as (ts1 & _ & _ & Hfwd); [auto | exact I | exact H |].
    destruct (Hfwd _ _ _ _ Hb) as (val' & s & s' & _ & _ & Hbody).
    discriminate Hbody.
Qed.

(** ** Integer literals: the whole pass *)

Lemma length_replace {A} (n : nat) (x : A) (l : list A) :
  List.length (replace n x l) = List.length l.
Proof.
  revert n. induction l as [|y l IH]; intros [|n]; simpl; try reflexivity.
  now rewrite IH.
Qed.

Lemma nth_error_replace_same {A} (n : nat) (x y : A) (l : list A) :
  nth_error l n = Some y -> nth_error (replace n x l) n = Some x.
Proof.
  revert n. induction l as [|z l IH]; intros [|n]; simpl; try discriminate.
  - reflexivity.
  - apply IH.
Qed.

Lemma nth_error_replace_other {A} (n m : nat) (x : A) (l : list A) :
  n <> m -> nth_error (replace n x l) m = nth_error l m.
Proof.
  revert n m. induction l as [|z l IH]; intros [|n] [|m] Hne; simpl;
    try reflexivity; try contradiction.
  apply IH. congruence.
Qed.

(** [v[k] = x; v[k]] *)
Lemma setitem_then_getitem (v : value) (k : key) (x v' y : value) :
  getitem v k = Ok y -> setitem v k x = Ok v' -> getitem v' k = Ok x.
Proof.
  destruct v as [| | | | |l|d|]; simpl; try discriminate.
  - destruct k as [s|i]; [discriminate|].
    destruct (index i (List.length l)) as [n|] eqn:Hi; [|discriminate].
    destruct (nth_error l n) as [z|] eqn:Hn; [|discriminate].
    intros _ H. injection H as <-. simpl.
    now rewrite length_replace, Hi, (nth_error_replace_same n x z l Hn).
  - intros _ H. injection H as <-. simpl. now rewrite lookup_store_same.
Qed.

Lemma index_from_the_start (i : Z) (n m : nat) :
  0 <= i -> index i n = Some m -> m = Z.to_nat i.
Proof.
  intros Hi. unfold index. destruct (Z.ltb_spec i 0); [lia|].
  destruct ((0 <=? i) && (i <? Z.of_nat n)); [|discriminate].
  intros E. now injection E as <-.
Qed.

Lemma setitem_1_keeps_0 (v x v' y : value) :
  getitem v (KInt 0) = Ok y -> setitem v (KInt 1) x = Ok v' -> getitem v' (KInt 0) = Ok y.
Proof.
  destruct v as [| | | | |l|d|]; simpl; try discriminate.
  - destruct (index 0 (List.length l)) as [n0|] eqn:H0; [|discriminate].
    destruct (index 1 (List.length l)) as [n1|] eqn:H1; [|discriminate].
    intros Hy H. injection H as <-. simpl. rewrite length_replace, H0.
    rewrite nth_error_replace_other; [exact Hy|].
    apply index_from_the_start in H0, H1; lia.
  - intros Hy H. injection H as <-. simpl.
    rewrite lookup_store_other; [exact Hy | discriminate].
Qed.

Lemma getitem_put (v : value) (k : key) (x y : value) :
  getitem v k = Ok y -> (forall s, v <> VStr s) ->
  exists v', setitem v k x = Ok v' /\ put v k x = v' /\ getitem v' k = Ok x.
Proof.
  intros Hy Hv.
  assert (Hset : exists v', setitem v k x = Ok v').
  { destruct v as [| | | |s| l|d|]; simpl in *; try discriminate.
    - now destruct (Hv s).
    - destruct k as [s|i]; [discriminate|].
      destruct (index i (List.length l)); [eauto | discriminate].
    - eauto. }
  destruct Hset as [v' Hset]. exists v'. split; [exact Hset|].
  split; [unfold put; now rewrite Hset|].
  now apply (setitem_then_getitem v k x v' y).
Qed.

Lemma convert_input_settles : settles convert_input.
Proof.
  intros v p v' p' H. pose proof H as H0.
  apply convert_input_done in H
    as [-> [-> | (literal & kind & text & literal' & Hl & Hk & H4 & Hn & Hm & Hset & ->)]];
    (split; [reflexivity|]); [exact H0|].
  assert (Hv : forall s, v <> VStr s).
  { intros s ->. simpl in Hl.
    destruct (index 1 (List.length s)) as [n|]; [|discriminate].
    destruct (nth_error s n) as [c|]; [|discriminate].
    injection Hl as <-. discriminate Hn. }
  destruct (getitem_put v (KInt 1) literal' literal Hl Hv) as (v' & _ & -> & Hv').
  unfold convert_input, eval. rewrite Hv'.
  destruct (truthy literal'); [|reflexivity].
  rewrite (setitem_1_keeps_0 _ _ _ _ Hk Hset), H4.
  rewrite (setitem_then_getitem _ _ _ _ _ Hn Hset).
  now rewrite hex_is_not_decimal.
Qed.

Lemma for_each_settles {A S} (body : A -> S -> outcome A S) :
  settles body -> settles (for_each body).
Proof.
  intros Hb l. induction l as [|x r IH]; intros s l' s'; simpl.
  - intros H. injection H as <- <-. now split.
  - destruct (body x s) as [[x' s1] [e|]] eqn:Hx; [discriminate|].
    destruct (for_each body r s1) as [[r' s2] e2] eqn:Hr.
    intros H. injection H as <- <- ->.
    apply Hb in Hx as [-> Hx]. apply IH in Hr as [-> Hr].
    split; [reflexivity|]. simpl. now rewrite Hx, Hr.
Qed.

Lemma for_in_settles {S} (body : stmt S) : settles body -> settles (for_in body).
Proof.
  intros Hb v s v' s' H. unfold for_in in *.
  destruct v as [| | | |x|l|d|].
  1-4: discriminate H.
  - simpl in H. destruct (for_each body _ s) as [[l' s1] e] eqn:Hl.
    injection H as <- <- ->. pose proof Hl as Hl0.
    apply (for_each_settles body Hb) in Hl as [-> _].
    split; [reflexivity|]. simpl. now rewrite Hl0.
  - destruct (for_each body l s) as [[l' s1] e] eqn:Hl.
    injection H as <- <- ->. apply (for_each_settles body Hb) in Hl as [-> Hl].
    split; [reflexivity|]. now rewrite Hl.
  - simpl in H. destruct (for_each body _ s) as [[l' s1] e] eqn:Hl.
    injection H as <- <- ->. pose proof Hl as Hl0.
    apply (for_each_settles body Hb) in Hl as [-> _].
    split; [reflexivity|]. simpl. now rewrite Hl0.
  - discriminate H.
Qed.

Lemma for_items_settles {S} (body : key -> stmt S) :
  (forall k, settles (body k)) -> settles (for_items body).
Proof.
  intros Hb v s v' s' H. pose proof H as H0.
  apply for_items_done in H as (d & d' & -> & -> & Hd).
  assert (Hentry : settles (fun (kv : key * value) (st : S) =>
                              match body (fst kv) (snd kv) st with
                              | (x', st', e) => ((fst kv, x'), st', e)
                              end)).
  { intros [k x] s0 kv' s0'. simpl.
    destruct (body k x s0) as [[x' s1] e] eqn:Hx.
    intros E. injection E as <- <- ->. apply Hb in Hx as [-> Hx].
    split; [reflexivity|]. simpl. now rewrite Hx. }
  apply (for_each_settles _ Hentry) in Hd as [-> Hd].
  split; [reflexivity|]. unfold for_items. now rewrite Hd.
Qed.

Lemma at_item_settles {S} (k : pystr) (body : stmt S) :
  settles body -> settles (at_item (KStr k) body).
Proof.
  intros Hb v s v' s' H.
  apply at_item_done in H as (x & x' & Hx & Hbody & ->).
  apply Hb in Hbody as [-> Hbody]. split; [reflexivity|].
  apply getitem_KStr in Hx as (d & -> & Hd).
  unfold at_item. rewrite getitem_put_same, Hbody.
  unfold put. simpl. f_equal. f_equal. f_equal.
  apply store_lookup. apply lookup_store_same.
Qed.

Lemma convert_block_settles : settles convert_block.
Proof.
  intros val p val' p'. unfold convert_block, eval.
  destruct (getitem val (KStr (str "inputs"))) as [inputs|e] eqn:Hi; [|discriminate].
  destruct (truthy inputs) eqn:Ht.
  - intros H. pose proof H as H0.
    apply (at_item_settles (str "inputs") _
             (for_items_settles _ (fun _ => convert_input_settles))) in H as [-> H].
    split; [reflexivity|].
    apply at_item_done in H0 as (x & x' & Hx & _ & ->).
    apply getitem_KStr in Hx as (d & -> & Hd).
    rewrite getitem_put_same. destruct (truthy x'); [exact H | reflexivity].
  - intros H. injection H as <- <-. split; [reflexivity|]. now rewrite Hi, Ht.
Qed.

(** X12: [convert_integers_to_hexadecimal] is idempotent: run again on
    the targets it left, it ends normally and changes nothing more, since
    the texts it wrote begin with [0x] and are not matched again. *)
Theorem convert_integers_to_hexadecimal_is_idempotent
    (targets : value) (convert : bool) (p : nat) (targets' : value) (p' : nat) :
  convert_integers_to_hexadecimal targets convert p = (targets', p', None) ->
  convert_integers_to_hexadecimal targets' convert p' = (targets', p', None).
Proof.
  unfold convert_integers_to_hexadecimal. destruct convert.
  - intros H. unfold for_blocks in *.
    apply (for_in_settles _
             (at_item_settles (str "blocks") _
                (for_items_settles _ (fun _ => convert_block_settles)))) in H as [-> H].
    exact H.
  - intros H. now injection H as <- <-.
Qed.

Lemma at_key_frame {S} (k : pystr) (body : stmt S) (t : value) (st : S) :
  forall k', k' <> KStr k ->
    getitem (fst (fst (at_item (KStr k) body t st))) k' = getitem t k'.
Proof.
  intros k' Hne.
  destruct (at_item_rel (KStr k) body t st) as [-> | (x & Hx & ->)]; [reflexivity|].
  apply getitem_KStr in Hx as (d & -> & _). simpl.
  now rewrite lookup_store_other.
Qed.

Lemma convert_block_draws_nothing (val : value) (p : nat) (val' : value) (p' : nat) :
  convert_block val p = (val', p', None) -> p' = p.
Proof.
  unfold convert_block, eval.
  destruct (getitem val (KStr (str "inputs"))) as [inputs|e]; [|discriminate].
  destruct (truthy inputs); [|intros H; now injection H as _ <-].
  intros H. apply at_item_done in H as (x & x' & _ & Hloop & _).
  apply for_items_done in Hloop as (d & d' & _ & _ & Hd).
  apply (for_each_inv (fun s => s = p)) in Hd as [Hp _]; [exact Hp| |reflexivity].
  intros kv s kv' s' _ -> Hkv. apply entry_done in Hkv as [_ Hkv].
  now apply convert_input_done in Hkv as [Hkv _].
Qed.

(** X13: when [convert_integers_to_hexadecimal] ends normally, every
    target binds every key but ['blocks'] as before, every block is at its
    place under its key, and a block is the block it was, or the block it
    was with its dict of inputs replaced by one with the same keys in which
    each input is as it was or has the text of its literal of kind 4
    replaced by [hex(int(text))]; no random number is drawn. *)
Theorem convert_integers_changes_literals_only
    (ts : list value) (p : nat) (v' : value) (p' : nat) :
  convert_integers_to_hexadecimal (VList ts) true p = (v', p', None) ->
  exists ts',
    v' = VList ts' /\ p' = p /\
    Forall2 (fun t t' => forall k, k <> KStr (str "blocks") -> getitem t' k = getitem t k)
            ts ts' /\
    forall j i k val,
      block_at ts j i = Some (k, val) ->
      exists val',
        block_at ts' j i = Some (k, val') /\
        (val' = val \/
         exists d d',
           getitem val (KStr (str "inputs")) = Ok (VDict d) /\
           val' = put val (KStr (str "inputs")) (VDict d') /\
           Forall2 (fun kv kv' => fst kv' = fst kv /\ input_converted (snd kv) (snd kv'))
                   d d').
Proof.
  unfold convert_integers_to_hexadecimal. intros H.
  assert (Hframe : Forall2 (fun t t' => forall k, k <> KStr (str "blocks") ->
                                                   getitem t' k = getitem t k)
                     ts (fst (fst (for_each
                                     (at_item (KStr (str "blocks"))
                                        (for_items (fun _ => convert_block))) ts p)))).
  { apply for_each_rel; [reflexivity|]. intros x st k Hk. now apply at_key_frame. }
  destruct (for_blocks_done (fun s => s = p) convert_block ts p v' p')
    as (ts' & -> & -> & Hfwd); [|reflexivity|exact H|].
  { intros x s x' s' -> Hx. now apply convert_block_draws_nothing in Hx. }
  exists ts'. split; [reflexivity|]. split; [reflexivity|]. split.
  - unfold for_blocks, for_in in H.
    destruct (for_each _ ts p) as [[l' s1] e]. injection H as <- _ _. exact Hframe.
  - intros j i k val Hb.
    destruct (Hfwd _ _ _ _ Hb) as (val' & s & s' & Hb' & -> & Hbody).
    exists val'. split; [exact Hb'|].
    unfold convert_block, eval in Hbody.
    destruct (getitem val (KStr (str "inputs"))) as [inputs|e] eqn:Hi; [|discriminate].
    destruct (truthy inputs); [|injection Hbody as <- _; now left].
    apply at_item_done in Hbody as (x & x' & Hx & Hloop & ->).
    rewrite Hi in Hx. injection Hx as <-.
    apply for_items_done in Hloop as (d & d' & -> & -> & Hd).
    right. exists d, d'. split; [reflexivity|]. split; [reflexivity|].
    apply (for_each_inv (fun _ => True)) in Hd as [_ Hall]; [|auto|exact I].
    eapply Forall2_impl; [|exact Hall].
    intros kv kv' (s0 & s0' & _ & Hkv). apply entry_done in Hkv as [Hk Hkv].
    split; [exact Hk|]. now apply convert_input_done in Hkv as [_ Hkv].
Qed.

(** ** The whole transform *)

Lemma put_frame (v : value) (k k' : pystr) (x : value) :
  k' <> k -> getitem (put v (KStr k) x) (KStr k') = getitem v (KStr k').
Proof. intros Hne. now apply getitem_put_other. Qed.

(** X14: [obfuscate] writes a document exactly when it raises nothing;
    the document written is the one loaded, with what the passes left of
    its targets bound to ['targets'] and every other key bound as before;
    and nothing is written unless the input file exists and both paths end
    in [.sb3]. *)
Theorem obfuscate_writes_unless_it_raises (f : files) (options : value) (p : nat) :
  (written (obfuscate f options p) = None <-> raised (obfuscate f options p) <> None) /\
  (forall doc,
      written (obfuscate f options p) = Some doc ->
      (exists targets', doc = put (project_json f) (KStr (str "targets")) targets') /\
      (forall k, k <> str "targets" ->
                 getitem doc (KStr k) = getitem (project_json f) (KStr k)) /\
      infile_exists f = true /\
      infile_suffix f = str ".sb3" /\
      outfile_suffix f = str ".sb3").
Proof.
  unfold obfuscate, load_project, save_project.
  destruct (infile_exists f); simpl negb; cbv iota;
    [|split; [split; [discriminate | reflexivity] | discriminate]].
  destruct (str_eqb (infile_suffix f) (str ".sb3")) eqn:Hin; simpl negb; cbv iota;
    [|split; [split; [discriminate | reflexivity] | discriminate]].
  destruct (getitem (project_json f) (KStr (str "targets"))) as [targets|e];
    [|split; [split; [discriminate | reflexivity] | discriminate]].
  destruct options as [| | | | | |options|];
    try (split; [split; [discriminate | reflexivity] | discriminate]).
  destruct (run_options option_names targets options p) as [[t1 [o1 q1]] [e1|]];
    [split; [split; [discriminate | reflexivity] | discriminate]|].
  destruct (str_eqb (outfile_suffix f) (str ".sb3")) eqn:Hout; simpl negb; cbv iota;
    cbn [written raised];
    [|split; [split; [discriminate | reflexivity] | discriminate]].
  split; [split; [discriminate | intros H; now contradiction H]|].
  intros doc H. injection H as <-.
  apply str_eqb_eq in Hin, Hout. repeat split; try assumption.
  - now exists t1.
  - intros k Hk. now apply put_frame.
Qed.

Lemma in_keys_lookup (k : key) (d : dict) : In k (keys d) <-> lookup k d <> None.
Proof.
  unfold keys. induction d as [|[k0 v] d IH]; simpl.
  - split; [contradiction | congruence].
  - destruct (key_eqb k k0) eqn:E.
    + apply key_eqb_eq in E. subst k0. split; [discriminate | now left].
    + apply key_eqb_neq in E. rewrite <- IH. split.
      * intros [H | H]; [congruence | exact H].
      * now right.
Qed.

Lemma in_keys_leftover (names : list (pystr * pass)) (o1 o2 : dict) (k : key) :
  (forall k, lookup k o1 = lookup k o2) ->
  In k (keys (leftover names o1)) -> In k (keys (leftover names o2)).
Proof.
  intros Hsame. rewrite !keys_leftover, !filter_In, !in_keys_lookup, Hsame. auto.
Qed.

(** X15: the passes run in the order of [option_names], not in the order
    of the options record: two records with the same bindings, in whatever
    order, give the same document, or the same exception, and warnings
    about the same keys. *)
Theorem the_order_of_the_options_is_irrelevant (f : files) (o1 o2 : dict) (p : nat) :
  (forall k, lookup k o1 = lookup k o2) ->
  written (obfuscate f (VDict o1) p) = written (obfuscate f (VDict o2) p) /\
  raised (obfuscate f (VDict o1) p) = raised (obfuscate f (VDict o2) p) /\
  (forall k, In k (warnings (obfuscate f (VDict o1) p)) <->
             In k (warnings (obfuscate f (VDict o2) p))).
Proof.
  intros Hsame. unfold obfuscate.
  destruct (load_project f) as [project|e]; [|repeat split; auto].
  destruct (getitem project (KStr (str "targets"))) as [targets|e]; [|repeat split; auto].
  pose proof (run_options_agree option_names targets o1 o2 p
                (fun np _ => Hsame (KStr (fst np)))) as Hagree.
  pose proof (run_options_leftover option_names targets o1 p) as Hleft1.
  pose proof (run_options_leftover option_names targets o2 p) as Hleft2.
  destruct (run_options option_names targets o1 p) as [[t1 [l1 q1]] e1].
  destruct (run_options option_names targets o2 p) as [[t2 [l2 q2]] e2].
  unfold effect in Hagree. simpl in Hagree. injection Hagree as <- <- <-.
  destruct e1 as [e1|]; [repeat split; auto|].
  specialize (Hleft1 t1 l1 q1 eq_refl). specialize (Hleft2 t1 l2 q1 eq_refl). subst l1 l2.
  assert (Hw : forall k, In k (keys (leftover option_names o1)) <->
                         In k (keys (leftover option_names o2))).
  { intros k. split; apply in_keys_leftover; [exact Hsame | now symmetry]. }
  destruct (save_project f (put project (KStr (str "targets")) t1)) as [doc|e];
    cbn [written warnings raised]; repeat split; try apply Hw.
Qed.

Lemma run_options_without_options (names : list (pystr * pass)) (targets : value)
  (options : dict) (p : nat) :
  (forall np, In np names -> lookup (KStr (fst np)) options = None) ->
  run_options names targets options p = (targets, (options, p), None).
Proof.
  induction names as [|[n ps] names IH]; intros Hnone; [reflexivity|].
  simpl. unfold pop.
  pose proof (Hnone (n, ps) (or_introl eq_refl)) as Hn. simpl in Hn. rewrite Hn.
  apply IH. intros np Hin. apply Hnone. now right.
Qed.

(** X16: with an options record that names no pass, the empty record
    among them, [obfuscate] writes the document it loaded, unchanged, and
    warns about every key of the record. *)
Theorem options_that_name_no_pass_leave_the_document
    (f : files) (options : dict) (p : nat) (targets : value) :
  infile_exists f = true ->
  infile_suffix f = str ".sb3" ->
  outfile_suffix f = str ".sb3" ->
  getitem (project_json f) (KStr (str "targets")) = Ok targets ->
  (forall k, In k (keys options) -> recognized k = false) ->
  obfuscate f (VDict options) p
  = {| written := Some (project_json f); warnings := keys options; raised := None |}.
Proof.
  intros Hex Hin Hout Htargets Hnone.
  unfold obfuscate, load_project, save_project.
  rewrite Hex, Hin, Hout, str_eqb_refl. simpl negb. cbv iota. rewrite Htargets.
  rewrite run_options_without_options.
  - now rewrite (put_getitem _ _ _ Htargets).
  - intros np Hnp. destruct (lookup (KStr (fst np)) options) eqn:E; [|reflexivity].
    assert (Hk : In (KStr (fst np)) (keys options)) by (apply in_keys_lookup; congruence).
    apply Hnone in Hk. now rewrite (recognized_name np Hnp) in Hk.
Qed.

Lemma lookup_filter_keys (P : key -> bool) (k : key) (options : dict) :
  P k = true -> lookup k (filter (fun kv => P (fst kv)) options) = lookup k options.
Proof.
  intros Hk. induction options as [|[k0 v] d IH]; simpl; [reflexivity|].
  destruct (P k0) eqn:H0; simpl.
  - now rewrite IH.
  - destruct (key_eqb k k0) eqn:E; [|exact IH].
    apply key_eqb_eq in E. congruence.
Qed.

(** X17: [obfuscate] of version 0.1.0 does not know the options
    [rename_my_blocks] and [convert_integers_to_hexadecimal]: they change
    neither the document it writes nor the exception it raises, and when
    the run ends normally each of them that is given is warned about. *)
Theorem version_0_1_0_only_warns_about_the_later_options
    (f : files) (options : dict) (p : nat) :
  let older := filter (fun kv => negb (later_option (fst kv))) options in
  written (obfuscate_0_1_0 f (VDict options) p)
  = written (obfuscate_0_1_0 f (VDict older) p) /\
  raised (obfuscate_0_1_0 f (VDict options) p)
  = raised (obfuscate_0_1_0 f (VDict older) p) /\
  (raised (obfuscate_0_1_0 f (VDict options) p) = None ->
   forall k, In k (keys options) -> later_option k = true ->
             In k (warnings (obfuscate_0_1_0 f (VDict options) p))).
Proof.
  cbv zeta. unfold obfuscate_0_1_0.
  destruct (load_project f) as [project|e]; [|repeat split; discriminate].
  destruct (getitem project (KStr (str "targets"))) as [targets|e];
    [|repeat split; discriminate].
  pose proof (run_options_agree option_names_0_1_0 targets options
                (filter (fun kv => negb (later_option (fst kv))) options) p) as Hagree.
  pose proof (run_options_leftover option_names_0_1_0 targets options p) as Hleft.
  destruct (run_options option_names_0_1_0 targets options p) as [[t1 [o1 q1]] e1].
  destruct (run_options option_names_0_1_0 targets
              (filter (fun kv => negb (later_option (fst kv))) options) p)
    as [[t2 [o2 q2]] e2].
  unfold effect in Hagree. simpl in Hagree.
  assert (E : (t1, q1, e1) = (t2, q2, e2)).
  { apply Hagree. intros np Hin. symmetry.
    apply (lookup_filter_keys (fun k => negb (later_option k))).
    repeat (destruct Hin as [<- | Hin]; [reflexivity|]). contradiction. }
  injection E as <- <- <-.
  destruct e1 as [e1|]; [repeat split; discriminate|].
  specialize (Hleft t1 o1 q1 eq_refl). subst o1.
  assert (Hw : forall k, In k (keys options) -> later_option k = true ->
                         In k (keys (leftover option_names_0_1_0 options))).
  { intros k Hin Hk. rewrite keys_leftover. apply filter_In. split; [exact Hin|].
    unfold later_option in Hk. apply orb_true_iff in Hk as [Hk | Hk];
      apply key_eqb_eq in Hk; subst k; reflexivity. }
  destruct (save_project f (put project (KStr (str "targets")) t1)) as [doc|e];
    cbn [written warnings raised]; repeat split; try discriminate.
  intros _. exact Hw.
Qed.

(** ** An empty list of targets *)

(** X18: on an empty list of targets, once the options are resolved,
    [rename_variables] and [rename_lists] raise the [IndexError] of
    [targets[0]] unless their public flag is off, [rename_backdrops] raises
    it always, and the other passes return the empty list. *)
Theorem passes_on_an_empty_list_of_targets (options : dict) (p : nat) :
  (forall g,
      fst (parse_rename_options options (str "variables")) = Ok g ->
      rename_variables (VList []) options p
      = (VList [], p,
         if flag "rename_public_variables" options then Some IndexError else None)) /\
  (forall g,
      fst (parse_rename_options options (str "lists")) = Ok g ->
      rename_lists (VList []) options p
      = (VList [], p,
         if flag "rename_public_lists" options then Some IndexError else None)) /\
  (forall g,
      fst (parse_rename_options options (str "backdrops")) = Ok g ->
      rename_backdrops (VList []) options p = (VList [], p, Some IndexError)) /\
  (forall g,
      fst (parse_rename_options options (str "sprites")) = Ok g ->
      rename_sprites (VList []) options p = (VList [], p, None)) /\
  (forall g,
      fst (parse_rename_options options (str "costumes")) = Ok g ->
      rename_costumes (VList []) options p = (VList [], p, None)) /\
  (forall g,
      fst (parse_rename_options options (str "sounds")) = Ok g ->
      rename_sounds (VList []) options p = (VList [], p, None)) /\
  (forall g,
      fst (parse_rename_options options (str "my_blocks")) = Ok g ->
      rename_my_blocks (VList []) options p = (VList [], p, None)) /\
  convert_integers_to_hexadecimal (VList []) true p = (VList [], p, None).
Proof.
  assert (Hnamed : forall what public,
             KStr (str public) <> rename_to_key (str what) ->
             KStr (str public) <> name_length_key (str what) ->
             KStr (str public) <> KStr (str "range_start") ->
             KStr (str public) <> KStr (str "range_end") ->
             str public = str "rename_public_" ++ str what ->
             forall g,
               fst (parse_rename_options options (str what)) = Ok g ->
               rename_named what (VList []) options p
               = (VList [], p, if flag public options then Some IndexError else None)).
  { intros what public A1 A2 A3 A4 Epub g Hg. unfold rename_named, flag, pop.
    pose proof (parse_leaves_other_keys options (str what) _ A1 A2 A3 A4) as Hpub.
    destruct (parse_rename_options options (str what)) as [[g0|e] o]; [|discriminate].
    simpl in Hpub. rewrite <- Epub, Hpub.
    destruct (truthy (default (VBool true) (lookup (KStr (str public)) options)));
      [reflexivity|].
    unfold skip. now destruct (truthy _). }
  split; [apply Hnamed; try reflexivity; discriminate|].
  split; [apply Hnamed; try reflexivity; discriminate|].
  unfold rename_backdrops, rename_sprites, rename_costumes, rename_sounds,
    rename_my_blocks.
  repeat split; intros g Hg;
    match goal with
    | |- context [parse_rename_options ?o ?c] =>
        destruct (parse_rename_options o c) as [[g0|e] o']; [reflexivity | discriminate]
    end.
Qed.

(** ** Procedures: what the pass leaves alone *)

(** [val['mutation']['proccode'] = new_proccode] stores in the dict bound
    to ['mutation'] and nowhere else. *)
Lemma set_proccode_shape {S} (new_proccode : pystr) (val : value) (st : S)
  (val' : value) (st' : S) :
  set_proccode new_proccode val st = (val', st', None) ->
  exists m,
    getitem val (KStr (str "mutation")) = Ok m /\
    val' = put val (KStr (str "mutation"))
             (put m (KStr (str "proccode")) (VStr new_proccode)).
Proof.
  unfold set_proccode. intros H.
  apply at_item_done in H as (m & m' & Hm & Hset & ->).
  apply assign_done in Hset as [Hset _].
  exists m. split; [exact Hm|].
  replace (put m (KStr (str "proccode")) (VStr new_proccode)) with m'; [reflexivity|].
  unfold put. now rewrite Hset.
Qed.

(** X19: when [rename_my_blocks] ends normally every block is at its
    place under its key; a block that is neither a prototype nor a call is
    as it was, and a prototype is the block it was with, in its mutation,
    the proccode replaced by a name of the generator, a space, and the
    placeholders of the old proccode joined by spaces: whatever else the
    old proccode held is dropped, and whatever else the mutation holds, its
    argument names among it, is kept. *)
Theorem rename_my_blocks_touches_procedures_only
    (ts : list value) (options : dict) (p : nat) (ts' : list value) (p' : nat) :
  rename_my_blocks (VList ts) options p = (VList ts', p', None) ->
  exists g,
    fst (parse_rename_options options (str "my_blocks")) = Ok g /\
    forall j i k val,
      block_at ts j i = Some (k, val) ->
      exists val',
        block_at ts' j i = Some (k, val') /\
        (~ has_opcode val "procedures_prototype" ->
         ~ has_opcode val "procedures_call" -> val' = val) /\
        (has_opcode val "procedures_prototype" ->
         exists m original name q q',
           getitem val (KStr (str "mutation")) = Ok m /\
           getitem m (KStr (str "proccode")) = Ok (VStr original) /\
           call g q = (Ok name, q') /\
           val' = put val (KStr (str "mutation"))
                    (put m (KStr (str "proccode"))
                       (VStr (name ++ str " "
                              ++ join (str " ") (findall_placeholders original))))).
Proof.
  unfold rename_my_blocks.
  destruct (parse_rename_options options (str "my_blocks")) as [[g|e] o]; [|discriminate].
  destruct (for_blocks (rename_prototype g) (VList ts) ([], p))
    as [[v1 [names p1]] [e1|]] eqn:H1; [discriminate|].
  destruct (for_blocks_done (fun _ => True) (rename_prototype g) ts ([], p) v1 (names, p1))
    as (ts1 & -> & _ & Hfwd1); [auto | exact I | exact H1 |].
  intros H2.
  destruct (for_blocks_done (fun _ => True) (rewrite_call names) ts1 p1 (VList ts') p')
    as (ts2 & E & _ & Hfwd2); [auto | exact I | exact H2 |].
  injection E as <-.
  exists g. split; [reflexivity|].
  intros j i k val Hb.
  destruct (Hfwd1 _ _ _ _ Hb) as (val1 & [nm q] & [nm' q'] & Hb1 & _ & Hbody1).
  destruct (Hfwd2 _ _ _ _ Hb1) as (val2 & s & s' & Hb2 & _ & Hbody2).
  exists val2. split; [exact Hb2|].
  pose proof Hbody1 as Hdone1.
  apply rename_prototype_done in Hdone1
    as [(Hno & -> & _) | (original & name & Hproto & Hcode & Hcall & _ & Hnew & Hop)].
  - split.
    + intros _ Hnocall.
      apply rewrite_call_done in Hbody2 as [(_ & ->) | (o2 & n2 & Hc & _)];
        [reflexivity | contradiction].
    + intros Hp. contradiction.
  - assert (Hval2 : val2 = val1).
    { apply rewrite_call_done in Hbody2 as [(_ & ->) | (o2 & n2 & Hc & _)];
        [reflexivity|].
      exfalso. apply call_is_no_prototype in Hc. apply Hc.
      destruct Hproto as (op & Hop1 & Hop2). exists op. split; [congruence | exact Hop2]. }
    subst val2. split; [intros Hno; contradiction|].
    intros _. unfold rename_prototype, eval in Hbody1.
    destruct (getitem val (KStr (str "opcode"))) as [op|e] eqn:Hopc; [|discriminate].
    destruct Hproto as (op' & Hop1 & Hop2). rewrite Hopc in Hop1. injection Hop1 as <-.
    rewrite Hop2, Hcode, Hcall in Hbody1.
    apply set_proccode_shape in Hbody1 as (m & Hm & ->).
    exists m, original, name, q, q'. repeat split; try assumption.
    unfold proccode in Hcode. rewrite Hm in Hcode. exact Hcode.
Qed.

(** X20: when [rename_sprites] ends normally, a block whose opcode is
    none of the six menu opcodes is as it was, at its place under its
    key. *)
Theorem rename_sprites_touches_menus_only
    (ts : list value) (options : dict) (p : nat) (ts' : list value) (p' : nat) :
  rename_sprites (VList ts) options p = (VList ts', p', None) ->
  forall j i k b op,
    block_at ts j i = Some (k, b) ->
    getitem b (KStr (str "opcode")) = Ok op ->
    (forall mf, In mf menus -> py_eq op (VStr (fst mf)) = false) ->
    block_at ts' j i = Some (k, b).
Proof.
  unfold rename_sprites.
  destruct (parse_rename_options options (str "sprites")) as [[g|e0] o]; [|discriminate].
  destruct (for_tail (rename_sprite g) (VList ts) ([], p))
    as [[v1 [names p1]] [e1|]] eqn:H1; [discriminate|].
  intros H j i k b op Hb Hop Hnone.
  assert (Hts1 : exists ts1,
             v1 = VList ts1 /\ Forall2 (fun s s' => blocks_of s' = blocks_of s) ts ts1).
  { unfold for_tail in H1. destruct ts as [|stage sprites].
    - injection H1 as <- _ _. exists []. split; [reflexivity | constructor].
    - destruct (for_each (rename_sprite g) sprites ([], p)) as [[r' [nm q]] e1] eqn:Hr.
      injection H1 as <- <- <- ->.
      exists (stage :: r'). split; [reflexivity|].
      constructor; [reflexivity|]. now apply sprites_first_loop in Hr as [Hr _]. }
  destruct Hts1 as (ts1 & -> & Hsame).
  rewrite <- (block_at_same ts ts1 j i Hsame) in Hb.
  destruct (for_blocks_done (fun _ => True) (rewrite_menus names menus) ts1 p1
              (VList ts') p') as (ts2 & E & _ & Hfwd); [auto | exact I | exact H |].
  injection E as <-.
  destruct (Hfwd _ _ _ _ Hb) as (b' & s & s' & Hb' & _ & Hbody).
  rewrite (rewrite_menus_other names menus b op s Hop Hnone) in Hbody.
  now injection Hbody as <- _.
Qed.

(** ** Literals that are no strings *)

Lemma getitem_0_truthy (v y : value) : getitem v (KInt 0) = Ok y -> truthy v = true.
Proof.
  destruct v as [| | | |s|l|d|]; simpl; try discriminate.
  - now destruct s.
  - now destruct l.
  - now destruct d.
Qed.

(** X21: a literal of kind 4 whose value is no string, a JSON number for
    one, is handed to [re.match] as it is: [convert_integers_to_hexadecimal]
    raises on every document that holds one in an input of a block. *)
Theorem a_literal_that_is_no_string_is_fatal
    (ts : list value) (j i : nat) (k : key) (val : value) (d : dict)
    (name : key) (v literal kind num : value) :
  block_at ts j i = Some (k, val) ->
  getitem val (KStr (str "inputs")) = Ok (VDict d) ->
  In (name, v) d ->
  getitem v (KInt 1) = Ok literal ->
  getitem literal (KInt 0) = Ok kind ->
  py_eq kind (VInt 4) = true ->
  getitem literal (KInt 1) = Ok num ->
  (forall s, num <> VStr s) ->
  forall p, snd (convert_integers_to_hexadecimal (VList ts) true p) <> None.
Proof.
  intros Hb Hi Hin Hl Hk H4 Hn Hnum p.
  destruct (convert_integers_to_hexadecimal (VList ts) true p) as [[v' p'] [e|]] eqn:H;
    [discriminate|]. exfalso. unfold convert_integers_to_hexadecimal in H.
  destruct (for_blocks_done (fun _ => True) convert_block ts p v' p')
    as (ts1 & _ & _ & Hfwd); [auto | exact I | exact H |].
  destruct (Hfwd _ _ _ _ Hb) as (val' & s & s' & _ & _ & Hbody).
  unfold convert_block, eval in Hbody. rewrite Hi in Hbody.
  destruct d as [|kv0 d0]; [contradiction|]. cbn [truthy] in Hbody.
  apply at_item_done in Hbody as (x & x' & Hx & Hloop & _).
  rewrite Hi in Hx. injection Hx as <-.
  apply for_items_done in Hloop as (d1 & d' & E & _ & Hd). injection E as <-.
  apply (for_each_inv (fun _ => True)) in Hd as [_ Hall]; [|auto|exact I].
  apply In_nth_error in Hin as [n Hin].
  destruct (Forall2_nth _ _ _ Hall _ _ Hin) as (kv' & _ & s0 & s0' & _ & Hkv).
  apply entry_done in Hkv as [_ Hkv]. simpl in Hkv.
  unfold convert_input, eval in Hkv.
  rewrite Hl, (getitem_0_truthy _ _ Hk), Hk, H4, Hn in Hkv.
  destruct num; try discriminate Hkv. now apply (Hnum s1).
Qed.

(** ** The checks of [obfuscate], in their order *)

Lemma str_eqb_neq (a b : pystr) : a <> b -> str_eqb a b = false.
Proof.
  intros H. destruct (str_eqb a b) eqn:E; [|reflexivity].
  apply str_eqb_eq in E. contradiction.
Qed.

(** X23: [obfuscate] looks at the input path first, then at the document,
    then at the type of the options: a missing input file ends the run in
    [FileNotFoundError] and a suffix other than [.sb3] in
    [IsNotAScratchFileError] whatever the options are, a document without
    ['targets'] in the exception of the subscript, and only then options
    that are no dict in [TypeError]; none of these runs writes or warns. *)
Theorem obfuscate_reports_the_first_failed_check (f : files) (options : value) (p : nat) :
  (infile_exists f = false -> obfuscate f options p = abort FileNotFoundError) /\
  (infile_exists f = true -> infile_suffix f <> str ".sb3" ->
   obfuscate f options p = abort IsNotAScratchFileError) /\
  (infile_exists f = true -> infile_suffix f = str ".sb3" ->
   forall e, getitem (project_json f) (KStr (str "targets")) = Raise e ->
             obfuscate f options p = abort e) /\
  (infile_exists f = true -> infile_suffix f = str ".sb3" ->
   forall targets, getitem (project_json f) (KStr (str "targets")) = Ok targets ->
                   isinstance_dict options = false ->
                   obfuscate f options p = abort TypeError).
Proof.
  unfold obfuscate, load_project. repeat split.
  - intros ->. reflexivity.
  - intros -> Hs. now rewrite (str_eqb_neq _ _ Hs).
  - intros Hex Hin e He. rewrite Hex, Hin, str_eqb_refl. simpl. now rewrite He.
  - intros Hex Hin targets Ht Hd. rewrite Hex, Hin, str_eqb_refl. simpl. rewrite Ht.
    now destruct options.
Qed.

(** X24: the suffix of the output path is looked at last, after every
    pass: with a suffix other than [.sb3] nothing is written; an exception
    that a run with a good output path raises is raised all the same, and a
    run that would end normally issues the same warnings and then ends in
    [IsNotAScratchFileError]. *)
Theorem the_output_path_is_checked_last
    (f : files) (suffix : pystr) (options : dict) (p : nat) :
  outfile_suffix f = str ".sb3" ->
  suffix <> str ".sb3" ->
  written (obfuscate (with_outfile_suffix suffix f) (VDict options) p) = None /\
  (forall e,
      raised (obfuscate f (VDict options) p) = Some e ->
      raised (obfuscate (with_outfile_suffix suffix f) (VDict options) p) = Some e) /\
  (raised (obfuscate f (VDict options) p) = None ->
   raised (obfuscate (with_outfile_suffix suffix f) (VDict options) p)
   = Some IsNotAScratchFileError /\
   warnings (obfuscate (with_outfile_suffix suffix f) (VDict options) p)
   = warnings (obfuscate f (VDict options) p)).
Proof.
  intros Hout Hs. unfold obfuscate, load_project, save_project, with_outfile_suffix.
  cbn [infile_exists infile_suffix outfile_suffix project_json].
  rewrite Hout, str_eqb_refl, (str_eqb_neq _ _ Hs).
  destruct (negb (infile_exists f));
    [repeat split; first [discriminate | now auto]|].
  destruct (negb (str_eqb (infile_suffix f) (str ".sb3")));
    [repeat split; first [discriminate | now auto]|].
  destruct (getitem (project_json f) (KStr (str "targets"))) as [targets|e];
    [|repeat split; first [discriminate | now auto]].
  destruct (run_options option_names targets options p) as [[t1 [o1 q1]] [e1|]];
    [repeat split; first [discriminate | now auto]|].
  simpl. repeat split. discriminate.
Qed.

(** ** An options record is resolved once *)

(** X25: [parse_rename_options] pops the keys it reads from the record it
    is given; what it leaves binds neither the strategy nor the name
    length, so that resolving the same record a second time raises
    [OptionError], whatever the record held. *)
Theorem an_options_record_resolves_once (options : dict) (c : pystr) :
  lookup (rename_to_key c) (snd (parse_rename_options options c)) = None /\
  lookup (name_length_key c) (snd (parse_rename_options options c)) = None /\
  fst (parse_rename_options (snd (parse_rename_options options c)) c) = Raise OptionError.
Proof.
  assert (H2 : forall o,
             lookup (rename_to_key c) (remove (name_length_key c) (remove (rename_to_key c) o))
             = None /\
             lookup (name_length_key c) (remove (name_length_key c) (remove (rename_to_key c) o))
             = None).
  { intros o. split; [|apply lookup_remove_same].
    rewrite lookup_remove_other; [apply lookup_remove_same|].
    intros E. now apply (length_key_neq_rename_key c). }
  assert (H4 : forall o,
             lookup (rename_to_key c)
               (remove (KStr (str "range_end"))
                  (remove (KStr (str "range_start"))
                     (remove (name_length_key c) (remove (rename_to_key c) o)))) = None /\
             lookup (name_length_key c)
               (remove (KStr (str "range_end"))
                  (remove (KStr (str "range_start"))
                     (remove (name_length_key c) (remove (rename_to_key c) o)))) = None).
  { intros o. destruct (H2 o) as [Ha Hb]. split.
    - rewrite (lookup_remove_other _ (KStr (str "range_end")))
        by (intros E; now apply (range_end_neq_rename_key c)).
      rewrite (lookup_remove_other _ (KStr (str "range_start")))
        by (intros E; now apply (range_start_neq_rename_key c)).
      exact Ha.
    - rewrite (lookup_remove_other _ (KStr (str "range_end")))
        by (intros E; now apply (range_end_neq_length_key c)).
      rewrite (lookup_remove_other _ (KStr (str "range_start")))
        by (intros E; now apply (range_start_neq_length_key c)).
      exact Hb. }
  assert (Hleft : lookup (rename_to_key c) (snd (parse_rename_options options c)) = None /\
                  lookup (name_length_key c) (snd (parse_rename_options options c)) = None).
  { rewrite parse_rename_options_eq. cbv zeta.
    destruct (as_int _); [|apply H2].
    destruct (lookup (rename_to_key c) options) as [s|]; [|apply H2].
    destruct (is_str s "random_hex"); [apply H2|].
    destruct (is_str s "random_unicode_char_range"); [|apply H2].
    destruct (py_gt _ _) as [[|]|e]; try apply H4.
    destruct (as_int _); [|apply H4]. destruct (as_int _); apply H4. }
  destruct Hleft as [Hs Hl]. split; [exact Hs|]. split; [exact Hl|].
  now apply parse_missing_strategy.
Qed.

(** ** The example program *)

(** X26: none of the name lengths that [example.py] asks for (8 for
    variables and sounds, 6 for sprites, costumes and backdrops) is read,
    since it writes the keys with the whole category word: each of its six
    records resolves to a generator of the default length 10, so that a
    hexadecimal name has 20 characters; and every key of its options record
    is an option name, so that no warning is issued. *)
Theorem the_example_gets_the_default_name_length :
  fst (parse_rename_options (example_option "rename_variables") (str "variables"))
  = Ok (GenHex 10) /\
  fst (parse_rename_options (example_option "rename_lists") (str "lists"))
  = Ok (GenRange 19968 40959 10) /\
  fst (parse_rename_options (example_option "rename_sprites") (str "sprites"))
  = Ok (GenHex 10) /\
  fst (parse_rename_options (example_option "rename_costumes") (str "costumes"))
  = Ok (GenHex 10) /\
  fst (parse_rename_options (example_option "rename_sounds") (str "sounds"))
  = Ok (GenRange 57344 63743 10) /\
  fst (parse_rename_options (example_option "rename_backdrops") (str "backdrops"))
  = Ok (GenHex 10) /\
  (forall p, exists name,
      call (GenHex 10) p = (Ok name, (p + 10)%nat) /\ List.length name = 20%nat) /\
  Forall (fun k => recognized k = true) (keys example_options).
Proof.
  repeat split; try reflexivity.
  - intros p.
    destruct (token_hex_names 10 p) as (name & Hcall & Hlen & _); [lia | reflexivity |].
    exists name. split; [exact Hcall | exact Hlen].
  - repeat constructor.
Qed.

(** ** Sounds: what the pass leaves alone *)

(** X27: [rename_sounds] keeps the targets, as many and in their order,
    and whatever a target binds to a key other than ['sounds'], however it
    ends; when it ends normally, every element of the list of sounds of
    every target, the stage included, is the element it was with a name of
    the generator stored at ['name']. *)
Theorem rename_sounds_renames_the_sounds_of_every_target
    (ts : list value) (options : dict) (p : nat) (v' : value) (p' : nat) (e : option exn) :
  rename_sounds (VList ts) options p = (v', p', e) ->
  exists ts',
    v' = VList ts' /\
    List.length ts' = List.length ts /\
    Forall2 (fun t t' => forall k, k <> KStr (str "sounds") -> getitem t' k = getitem t k)
            ts ts' /\
    (e = None ->
     exists g,
       fst (parse_rename_options options (str "sounds")) = Ok g /\
       Forall2 (elements_renamed g (str "sounds")) ts ts').
Proof.
  unfold rename_sounds.
  destruct (parse_rename_options options (str "sounds")) as [[g|e0] o].
  - unfold for_in.
    pose proof (for_each_rel
                  (fun t t' => forall k, k <> KStr (str "sounds") ->
                                         getitem t' k = getitem t k)
                  (at_item (KStr (str "sounds"))
                     (for_in (assign_name g (KStr (str "name")))))
                  (fun _ _ _ => eq_refl)
                  (fun x st k Hk => at_key_frame (str "sounds") _ x st k Hk) ts p) as Hrel.
    destruct (for_each _ ts p) as [[l' q] e1] eqn:Hl. simpl in Hrel.
    intros H. injection H as <- <- <-.
    exists l'. split; [reflexivity|].
    split; [symmetry; eapply Forall2_length; exact Hrel|].
    split; [exact Hrel|].
    intros ->. exists g. split; [reflexivity|].
    apply (for_each_inv (fun _ => True)) in Hl as [_ Hall]; [|auto|exact I].
    eapply Forall2_impl; [|exact Hall].
    intros x x' (s & s' & _ & Hx). now apply elements_loop_done in Hx.
  - intros H. injection H as <- <- <-. exists ts. repeat split.
    + clear. induction ts; constructor; auto.
    + discriminate.
Qed.

End Obfuscratchor.

(** * The properties at sample inputs *)

(** ** Option resolution *)

Lemma random_unicode_char_range_names_witness :
  exists g o,
    parse_rename_options (range_options "lists" 10 19968 40959) (str "lists") = (Ok g, o) /\
    (forall p name p',
        call sample_draw g p = (Ok name, p') ->
        Z.of_nat (List.length name) = 10 /\ Forall (fun x => 19968 <= x <= 40959) name) /\
    (0 <= 19968 -> 40959 < 1114112 ->
     forall p, exists name p', call sample_draw g p = (Ok name, p')).
Proof.
  apply (random_unicode_char_range_names sample_draw
           (range_options "lists" 10 19968 40959) (str "lists") 19968 40959 10);
    try reflexivity; lia.
Defined.



(** ** Sounds *)

Lemma rename_sounds_versions_differ :
  rename_sounds sample_draw (VList sample_targets) (hex_options "sounds" 2) 0%nat
  = (VList [target "Stage" "0b30" [];
            target "Cat" "557a"
              [entry "a" (goto_menu "Cat"); entry "b" (goto_menu "_mouse_")]],
     4%nat, None) /\
  rename_sounds_0_1_0 sample_draw (VList sample_targets) (hex_options "sounds" 2) 0%nat
  = (VList [target "Stage" "pop" [];
            target "Cat" "0b30"
              [entry "a" (goto_menu "Cat"); entry "b" (goto_menu "_mouse_")]],
     2%nat, None).
Proof. split; vm_compute; reflexivity. Qed.

Lemma rename_sounds_scopes_witness :
  exists g,
    fst (parse_rename_options (hex_options "sounds" 2) (str "sounds")) = Ok g /\
    Forall (sounds_renamed sample_draw g)
      [target "Stage" "0b30" [];
       target "Cat" "557a"
         [entry "a" (goto_menu "Cat"); entry "b" (goto_menu "_mouse_")]].
Proof.
  apply (proj1 (rename_sounds_scopes sample_draw sample_targets
                  (hex_options "sounds" 2) 0%nat) _ 4%nat).
  vm_compute. reflexivity.
Defined.

(** ** Sprites *)

(** The sprite [Cat] becomes [0b30] in the block of each of the six
    menus, and the block that names the mouse pointer is as it was. *)
Lemma rename_sprites_on_six_menus :
  rename_sprites sample_draw (VList (menu_targets "Cat")) (hex_options "sprites" 2) 0%nat
  = (VList (menu_targets "0b30"), 2%nat, None).
Proof. vm_compute. reflexivity. Qed.

Lemma rename_sprites_rewrites_menus_witness :
  List.length (menu_targets "0b30") = List.length (menu_targets "Cat") /\
  Forall2 same_target (menu_targets "Cat") (menu_targets "0b30") /\
  forall j i k b menu_name field_name x,
    block_at (menu_targets "Cat") j i = Some (k, b) ->
    In (menu_name, field_name)
      [ (str "motion_goto_menu", str "TO");
        (str "motion_glideto_menu", str "TO");
        (str "motion_pointtowards_menu", str "TOWARDS");
        (str "control_create_clone_of_menu", str "CLONE_OPTION");
        (str "sensing_touchingobjectmenu", str "TOUCHINGOBJECTMENU");
        (str "sensing_of_object_menu", str "OBJECT") ] ->
    getitem b (KStr (str "opcode")) = Ok (VStr menu_name) ->
    field0 b field_name = Ok x ->
    exists b',
      block_at (menu_targets "0b30") j i = Some (k, b') /\
      ((exists n s old,
           nth_error (menu_targets "Cat") (S n) = Some s /\
           getitem s (KStr (str "name")) = Ok old /\ py_eq x old = true) ->
       exists n s s' old new,
         nth_error (menu_targets "Cat") (S n) = Some s /\
         nth_error (menu_targets "0b30") (S n) = Some s' /\
         getitem s (KStr (str "name")) = Ok old /\ py_eq x old = true /\
         getitem s' (KStr (str "name")) = Ok (VStr new) /\
         field0 b' field_name = Ok (VStr new)) /\
      ((forall n s old,
           nth_error (menu_targets "Cat") (S n) = Some s ->
           getitem s (KStr (str "name")) = Ok old -> py_eq x old = false) ->
       field0 b' field_name = Ok x).
Proof.
  destruct (rename_sprites_rewrites_menus sample_draw (menu_targets "Cat")
              (hex_options "sprites" 2) 0%nat _ _ _ rename_sprites_on_six_menus)
    as (ts' & E & Hlen & Hsame & Hmenus).
  injection E as <-.
  split; [exact Hlen|]. split; [exact Hsame|]. exact (Hmenus eq_refl).
Defined.

(** ** Procedures *)

Lemma has_dangling_call : has_procedure dangling_call "procedures_call" (text "foo %n").
Proof.
  exists 0%nat, 0%nat, (KStr (str "b")), (procedure_block "procedures_call" "foo %n").
  repeat split. exists (text "procedures_call"). split; reflexivity.
Defined.

Lemma has_no_prototype : ~ has_procedure dangling_call "procedures_prototype" (text "foo %n").
Proof.
  intros (j & i & k & val & Hb & (op & Hop & Hs) & _).
  destruct j as [|[|j]]; destruct i as [|[|i]]; try discriminate Hb.
  injection Hb as <- <-. vm_compute in Hop. injection Hop as <-. discriminate Hs.
Defined.

Lemma dangling_call_is_fatal_witness :
  snd (rename_my_blocks sample_draw (VList dangling_call) (hex_options "my_blocks" 2) 0%nat)
    <> None /\
  written (obfuscate sample_draw ascii_decimal
             (sample_files (VDict [entry "targets" (VList dangling_call)]))
             (VDict [entry "rename_my_blocks" (VDict (hex_options "my_blocks" 2))]) 0%nat)
    = None /\
  raised (obfuscate sample_draw ascii_decimal
            (sample_files (VDict [entry "targets" (VList dangling_call)]))
            (VDict [entry "rename_my_blocks" (VDict (hex_options "my_blocks" 2))]) 0%nat)
    <> None.
Proof.
  destruct (dangling_call_is_fatal sample_draw ascii_decimal dangling_call (text "foo %n")
              has_dangling_call has_no_prototype) as [H1 H2].
  split; [apply H1|].
  apply (H2 (sample_files (VDict [entry "targets" (VList dangling_call)]))
            [entry "rename_my_blocks" (VDict (hex_options "my_blocks" 2))]
            (hex_options "my_blocks" 2) 0%nat); reflexivity.
Defined.

(** C5: [names] is one dict for all the targets, and a generated name
    goes into the proccode as it comes.  With two sprites that each define
    and call [foo %n], the call-site of the first gets the new proccode of
    the prototype of the second, [557a %n], while its own prototype has
    become [0b30 %n].  With the range from ['%'] to ['s'] the generated
    name can be ["%s"]: the call-site of [foo %n] then has the placeholders
    [%s] and [%n]. *)
Theorem rename_my_blocks_parts_calls_from_prototypes :
  rename_my_blocks sample_draw
    (VList [procedure_target "foo %n" "foo %n"; procedure_target "foo %n" "foo %n"])
    (hex_options "my_blocks" 2) 0%nat
  = (VList [procedure_target "0b30 %n" "557a %n"; procedure_target "557a %n" "557a %n"],
     4%nat, None) /\
  rename_my_blocks percent_draw (VList [procedure_target "foo %n" "foo %n"])
    (range_options "my_blocks" 2 37 115) 0%nat
  = (VList [procedure_target "%s %n" "%s %n"], 2%nat, None) /\
  findall_placeholders (str "foo %n") = [str "%n"] /\
  findall_placeholders (str "%s %n") = [str "%s"; str "%n"].
Proof. repeat split; vm_compute; reflexivity. Qed.

Lemma rename_my_blocks_rewrites_calls_witness :
  exists g,
    fst (parse_rename_options (hex_options "my_blocks" 2) (str "my_blocks")) = Ok g /\
    forall j i k val,
      block_at (procedures "foo %n") j i = Some (k, val) ->
      has_opcode val "procedures_call" ->
      exists original name q q' val',
        proccode val = Ok (VStr original) /\
        call sample_draw g q = (Ok name, q') /\
        block_at (procedures "0b30 %n") j i = Some (k, val') /\
        has_opcode val' "procedures_call" /\
        proccode val' = Ok (VStr (new_proccode_of name original)) /\
        findall_placeholders (new_proccode_of name original)
          = findall_placeholders name ++ findall_placeholders original /\
        (findall_placeholders name = [] ->
         findall_placeholders (new_proccode_of name original)
           = findall_placeholders original) /\
        ((exists n, g = GenHex n) -> findall_placeholders name = []) /\
        (exists j2 i2 k2 def def',
            block_at (procedures "foo %n") j2 i2 = Some (k2, def) /\
            block_at (procedures "0b30 %n") j2 i2 = Some (k2, def') /\
            has_opcode def "procedures_prototype" /\
            proccode def = Ok (VStr original) /\
            proccode def' = Ok (VStr (new_proccode_of name original))).
Proof.
  apply (rename_my_blocks_rewrites_calls sample_draw (procedures "foo %n")
           (hex_options "my_blocks" 2) 0%nat (procedures "0b30 %n") 2%nat).
  vm_compute. reflexivity.
Defined.

(** The sample document is well formed and its call has a prototype: the
    pass ends normally on it. *)
Lemma rename_my_blocks_completes_witness :
  exists ts' p',
    rename_my_blocks sample_draw (VList (procedures "foo %n"))
      (hex_options "my_blocks" 2) 0%nat
    = (VList ts', p', None).
Proof.
  apply (rename_my_blocks_completes sample_draw (procedures "foo %n")
           (hex_options "my_blocks" 2) 0%nat (GenHex 2)).
  - reflexivity.
  - apply random_hex_returns_names; [lia | reflexivity].
  - intros t [<- | []]. eexists. split; [reflexivity|].
    intros kv [<- | [<- | []]]; eexists; (split; [reflexivity|]);
      intros _; eexists; reflexivity.
  - intros code (j & i & k & val & Hb & _ & Hcode).
    exists 0%nat, 0%nat, (KStr (str "a")), (procedure_block "procedures_prototype" "foo %n").
    split; [reflexivity|]. split; [eexists; split; reflexivity|].
    destruct j as [|[|j]]; try discriminate Hb.
    destruct i as [|[|[|i]]]; try discriminate Hb;
      injection Hb as <- <-; exact Hcode.
Defined.

(** ** Options of [obfuscate] *)

(** [rename_sprites] bound to the integer 5: the document is written as
    it was loaded, nothing is raised, and nothing is warned about. *)
Lemma mistyped_option_is_dropped_in_silence_witness :
  obfuscate sample_draw ascii_decimal
    (sample_files (VDict [entry "targets" (VList sample_targets)]))
    (VDict [entry "rename_sprites" (VInt 5)]) 0%nat
  = {| written := Some (VDict [entry "targets" (VList sample_targets)]);
       warnings := [];
       raised := None |} /\
  ~ In (KStr (str "rename_sprites"))
      (warnings (obfuscate sample_draw ascii_decimal
                   (sample_files (VDict [entry "targets" (VList sample_targets)]))
                   (VDict [entry "rename_sprites" (VInt 5)]) 0%nat)).
Proof.
  destruct (mistyped_option_is_dropped_in_silence sample_draw ascii_decimal
              (sample_files (VDict [entry "targets" (VList sample_targets)]))
              [entry "rename_sprites" (VInt 5)] 0%nat
              (str "rename_sprites") (OfDict (rename_sprites sample_draw)) (VInt 5))
    as [E Hw].
  - right. right. left. reflexivity.
  - reflexivity.
  - reflexivity.
  - split; [rewrite E; vm_compute; reflexivity | exact Hw].
Defined.

Lemma unknown_options_warn_once_witness :
  warnings (obfuscate sample_draw ascii_decimal
              (sample_files (VDict [entry "targets" (VList sample_targets)]))
              (VDict [entry "foo" (VInt 1);
                      entry "rename_sprites" (VDict (hex_options "sprites" 2))]) 0%nat)
  = [KStr (str "foo")] /\
  count_occ key_eq_dec
    (warnings (obfuscate sample_draw ascii_decimal
                 (sample_files (VDict [entry "targets" (VList sample_targets)]))
                 (VDict [entry "foo" (VInt 1);
                         entry "rename_sprites" (VDict (hex_options "sprites" 2))]) 0%nat))
    (KStr (str "foo")) = 1%nat.
Proof.
  destruct (unknown_options_warn_once sample_draw ascii_decimal
              (sample_files (VDict [entry "targets" (VList sample_targets)]))
              [entry "foo" (VInt 1);
               entry "rename_sprites" (VDict (hex_options "sprites" 2))] 0%nat)
    as (_ & _ & H).
  destruct H as [Hw Hc]; [vm_compute; reflexivity|].
  split; [rewrite Hw; vm_compute; reflexivity|].
  apply Hc.
  - repeat (apply NoDup_cons; [vm_compute; intuition discriminate|]). apply NoDup_nil.
  - left. reflexivity.
  - reflexivity.
Defined.

(** ** Integer literals *)

Lemma literal_with_final_newline_is_converted_witness :
  match_decimal ascii_decimal (str "255" ++ [10]) = true /\
  convert_input ascii_decimal
    (VList [VInt 1; VList [VInt 4; VStr (str "255" ++ [10])]]) 0%nat
  = (VList [VInt 1; VList [VInt 4; VStr (str "0xff")]], 0%nat, None).
Proof.
  destruct (literal_with_final_newline_is_converted ascii_decimal
              (fun c _ => eq_refl) 0%nat) as (H1 & H2 & _).
  now split.
Defined.

(** * The further properties at sample inputs *)

(** ** Option resolution *)

Lemma plural_name_length_is_ignored_witness :
  fst (parse_rename_options
         (store (KStr (str "variables" ++ str "_name_length")) (VInt 8)
            [entry "rename_variables_to" (text "random_hex")])
         (str "variables"))
  = fst (parse_rename_options [entry "rename_variables_to" (text "random_hex")]
           (str "variables")).
Proof. apply plural_name_length_is_ignored. discriminate. Defined.

Lemma bounds_outside_the_code_points_raise_at_the_call_witness :
  exists g o,
    parse_rename_options (range_options "variables" 3 (-5) (-1)) (str "variables")
    = (Ok g, o) /\
    (- 2 ^ 31 <= -5 -> -1 < 2 ^ 31 ->
     forall p, call sample_draw g p = (Raise ValueError, S p)) /\
    (-1 < - 2 ^ 31 \/ 2 ^ 31 <= -5 ->
     forall p, fst (call sample_draw g p) = Raise OverflowError).
Proof.
  apply (bounds_outside_the_code_points_raise_at_the_call sample_draw
           (range_options "variables" 3 (-5) (-1)) (str "variables") (-5) (-1) 3);
    try reflexivity; lia.
Defined.

Lemma equal_bounds_give_one_name_witness :
  exists g o,
    parse_rename_options (range_options "variables" 3 65 65) (str "variables")
    = (Ok g, o) /\
    forall p, call sample_draw g p = (Ok (repeat 65 (Z.to_nat 3)), (p + Z.to_nat 3)%nat).
Proof.
  apply (equal_bounds_give_one_name sample_draw
           (range_options "variables" 3 65 65) (str "variables") 65 3);
    try reflexivity; lia.
Defined.

Lemma negative_length_by_strategy_witness :
  exists g o,
    parse_rename_options (hex_options "variables" (-1)) (str "variables") = (Ok g, o) /\
    forall p,
      call sample_draw g p
      = (Raise (if - 2 ^ 63 <=? -1 then ValueError else OverflowError), p).
Proof.
  destruct (negative_length_by_strategy sample_draw
              (hex_options "variables" (-1)) (str "variables") (-1)) as [H _];
    [reflexivity | lia |].
  apply H. reflexivity.
Defined.

(** ** Variables, costumes and backdrops *)

Lemma rename_variables_and_lists_rename_entries_witness :
  exists g,
    fst (parse_rename_options (hex_options "variables" 2) (str "variables")) = Ok g /\
    entries_renamed sample_draw g (str "variables")
      (document_target "Stage" "score" "log" "backdrop1" [])
      (document_target "Stage" "0b30" "log" "backdrop1" []) /\
    Forall2 (entries_renamed sample_draw g (str "variables"))
      [document_target "Cat" "lives" "path" "cat-a"
         [entry "a" (move_steps (VList [VInt 4; text "255"]))]]
      [document_target "Cat" "557a" "path" "cat-a"
         [entry "a" (move_steps (VList [VInt 4; text "255"]))]].
Proof.
  apply (proj1 (rename_variables_and_lists_rename_entries sample_draw)
           (sample_document "255") (hex_options "variables" 2) 0%nat
           [document_target "Stage" "0b30" "log" "backdrop1" [];
            document_target "Cat" "557a" "path" "cat-a"
              [entry "a" (move_steps (VList [VInt 4; text "255"]))]] 4%nat).
  vm_compute. reflexivity.
Defined.

Lemma rename_costumes_renames_the_costumes_of_sprites_witness :
  exists ts',
    VList [document_target "Stage" "score" "log" "backdrop1" [];
           document_target "Cat" "lives" "path" "0b30"
             [entry "a" (move_steps (VList [VInt 4; text "255"]))]]
    = VList ts' /\
    firstn 1 ts' = firstn 1 (sample_document "255") /\
    List.length ts' = List.length (sample_document "255") /\
    (@None exn = None ->
     exists g,
       fst (parse_rename_options (hex_options "costumes" 2) (str "costumes")) = Ok g /\
       Forall2 (elements_renamed sample_draw g (str "costumes"))
         (skipn 1 (sample_document "255")) (skipn 1 ts')).
Proof.
  apply (rename_costumes_renames_the_costumes_of_sprites sample_draw
           (sample_document "255") (hex_options "costumes" 2) 0%nat _ 2%nat None).
  vm_compute. reflexivity.
Defined.

Lemma rename_backdrops_renames_the_costumes_of_the_stage_witness :
  exists ts',
    VList [document_target "Stage" "score" "log" "0b30" [];
           document_target "Cat" "lives" "path" "cat-a"
             [entry "a" (move_steps (VList [VInt 4; text "255"]))]]
    = VList ts' /\
    skipn 1 ts' = skipn 1 (sample_document "255") /\
    List.length ts' = List.length (sample_document "255") /\
    (@None exn = None ->
     exists g stage stage',
       fst (parse_rename_options (hex_options "backdrops" 2) (str "backdrops")) = Ok g /\
       nth_error (sample_document "255") 0 = Some stage /\
       nth_error ts' 0 = Some stage' /\
       elements_renamed sample_draw g (str "costumes") stage stage').
Proof.
  apply (rename_backdrops_renames_the_costumes_of_the_stage sample_draw
           (sample_document "255") (hex_options "backdrops" 2) 0%nat _ 2%nat None).
  vm_compute. reflexivity.
Defined.

(** ** Sprites *)

Lemma rename_sprites_renames_the_sprites_witness :
  exists ts',
    VList [sample_stage;
           target "0b30" "meow"
             [entry "a" (goto_menu "0b30"); entry "b" (goto_menu "_mouse_")]]
    = VList ts' /\
    (forall stage stage',
        nth_error sample_targets 0 = Some stage -> nth_error ts' 0 = Some stage' ->
        getitem stage' (KStr (str "name")) = getitem stage (KStr (str "name"))) /\
    (@None exn = None ->
     exists g,
       fst (parse_rename_options (hex_options "sprites" 2) (str "sprites")) = Ok g /\
       forall n s s',
         nth_error sample_targets (S n) = Some s -> nth_error ts' (S n) = Some s' ->
         exists old name q q',
           getitem s (KStr (str "name")) = Ok old /\ hashable old = true /\
           call sample_draw g q = (Ok name, q') /\
           getitem s' (KStr (str "name")) = Ok (VStr name)).
Proof.
  apply (rename_sprites_renames_the_sprites sample_draw sample_targets
           (hex_options "sprites" 2) 0%nat _ 2%nat None).
  vm_compute. reflexivity.
Defined.

Lemma rename_sprites_0_1_0_keeps_the_blocks_witness :
  exists ts',
    VList [sample_stage;
           target "0b30" "meow"
             [entry "a" (goto_menu "Cat"); entry "b" (goto_menu "_mouse_")]]
    = VList ts' /\
    firstn 1 ts' = firstn 1 sample_targets /\
    Forall2 (fun t t' => forall k, k <> KStr (str "name") -> getitem t' k = getitem t k)
            sample_targets ts' /\
    (@None exn = None ->
     exists g,
       fst (parse_rename_options (hex_options "sprites" 2) (str "sprites")) = Ok g /\
       Forall2 (renamed_at sample_draw g (KStr (str "name")))
         (skipn 1 sample_targets) (skipn 1 ts')).
Proof.
  apply (rename_sprites_0_1_0_keeps_the_blocks sample_draw sample_targets
           (hex_options "sprites" 2) 0%nat _ 2%nat None).
  vm_compute. reflexivity.
Defined.

Lemma rename_sprites_touches_menus_only_witness :
  block_at
    [document_target "Stage" "score" "log" "backdrop1" [];
     document_target "0b30" "lives" "path" "cat-a"
       [entry "a" (move_steps (VList [VInt 4; text "255"]))]] 1 0
  = Some (KStr (str "a"), move_steps (VList [VInt 4; text "255"])).
Proof.
  apply (rename_sprites_touches_menus_only sample_draw (sample_document "255")
           (hex_options "sprites" 2) 0%nat _ 2%nat)
    with (op := text "motion_movesteps").
  - vm_compute. reflexivity.
  - reflexivity.
  - reflexivity.
  - intros mf Hin. repeat (destruct Hin as [<- | Hin]; [reflexivity|]). contradiction.
Defined.

(** ** Procedures *)

Lemma rename_my_blocks_touches_procedures_only_witness :
  exists g,
    fst (parse_rename_options (hex_options "my_blocks" 2) (str "my_blocks")) = Ok g /\
    forall j i k val,
      block_at (procedures "foo %n") j i = Some (k, val) ->
      exists val',
        block_at (procedures "0b30 %n") j i = Some (k, val') /\
        (~ has_opcode val "procedures_prototype" ->
         ~ has_opcode val "procedures_call" -> val' = val) /\
        (has_opcode val "procedures_prototype" ->
         exists m original name q q',
           getitem val (KStr (str "mutation")) = Ok m /\
           getitem m (KStr (str "proccode")) = Ok (VStr original) /\
           call sample_draw g q = (Ok name, q') /\
           val' = put val (KStr (str "mutation"))
                    (put m (KStr (str "proccode"))
                       (VStr (name ++ str " "
                              ++ join (str " ") (findall_placeholders original))))).
Proof.
  apply (rename_my_blocks_touches_procedures_only sample_draw (procedures "foo %n")
           (hex_options "my_blocks" 2) 0%nat (procedures "0b30 %n") 2%nat).
  vm_compute. reflexivity.
Defined.

(** ** Blocks and literals of another form *)

Lemma a_block_that_is_a_list_is_fatal_witness :
  (forall options p, snd (rename_sprites sample_draw (VList loose_reporter) options p)
                     <> None) /\
  (forall options p, snd (rename_my_blocks sample_draw (VList loose_reporter) options p)
                     <> None) /\
  (forall p, snd (convert_integers_to_hexadecimal ascii_decimal (VList loose_reporter)
                    true p) <> None).
Proof.
  apply (a_block_that_is_a_list_is_fatal sample_draw ascii_decimal loose_reporter
           0%nat 0%nat (KStr (str "r")) [VInt 12; text "score"; text "v"]).
  reflexivity.
Defined.

Lemma a_literal_that_is_no_string_is_fatal_witness :
  snd (convert_integers_to_hexadecimal ascii_decimal (VList number_literal) true 0%nat)
  <> None.
Proof.
  apply (a_literal_that_is_no_string_is_fatal ascii_decimal number_literal 0%nat 0%nat
           (KStr (str "a")) (move_steps (VList [VInt 4; VInt 10]))
           [entry "STEPS" (VList [VInt 1; VList [VInt 4; VInt 10]])]
           (KStr (str "STEPS")) (VList [VInt 1; VList [VInt 4; VInt 10]])
           (VList [VInt 4; VInt 10]) (VInt 4) (VInt 10));
    try reflexivity.
  - left. reflexivity.
  - intros s. discriminate.
Defined.

(** ** Integer literals *)

Lemma ascii_decimal_range (c d : Z) : ascii_decimal c = Some d -> 0 <= d <= 9.
Proof.
  unfold ascii_decimal.
  destruct (Z.leb_spec 48 c), (Z.leb_spec c 57); simpl; try discriminate.
  intros E. injection E as <-. lia.
Qed.

Lemma convert_input_converts_witness :
  exists ds,
    convert_input ascii_decimal (VList [VInt 1; VList [VInt 4; VStr (str "255")]]) 0%nat
    = (VList [VInt 1; VList [VInt 4; VStr (str "0x" ++ ds)]], 0%nat, None) /\
    forallb is_hexdigit ds = true /\
    hex_value ds = int_of_decimal ascii_decimal (str "255").
Proof.
  destruct (convert_input_converts ascii_decimal ascii_decimal_range
              (VInt 1) (VInt 4) (str "255") [] [] 0%nat) as [H _]; try reflexivity.
  apply H. vm_compute. discriminate.
Defined.

Lemma convert_integers_to_hexadecimal_is_idempotent_witness :
  convert_integers_to_hexadecimal ascii_decimal (VList (sample_document "0xff")) true 0%nat
  = (VList (sample_document "0xff"), 0%nat, None).
Proof.
  apply (convert_integers_to_hexadecimal_is_idempotent ascii_decimal
           (fun c _ => eq_refl) (VList (sample_document "255")) true 0%nat).
  vm_compute. reflexivity.
Defined.

Lemma convert_integers_changes_literals_only_witness :
  exists ts',
    VList (sample_document "0xff") = VList ts' /\
    0%nat = 0%nat /\
    Forall2 (fun t t' => forall k, k <> KStr (str "blocks") -> getitem t' k = getitem t k)
            (sample_document "255") ts' /\
    forall j i k val,
      block_at (sample_document "255") j i = Some (k, val) ->
      exists val',
        block_at ts' j i = Some (k, val') /\
        (val' = val \/
         exists d d',
           getitem val (KStr (str "inputs")) = Ok (VDict d) /\
           val' = put val (KStr (str "inputs")) (VDict d') /\
           Forall2 (fun kv kv' => fst kv' = fst kv /\
                                  input_converted ascii_decimal (snd kv) (snd kv'))
                   d d').
Proof.
  apply (convert_integers_changes_literals_only ascii_decimal (sample_document "255")
           0%nat (VList (sample_document "0xff")) 0%nat).
  vm_compute. reflexivity.
Defined.

(** ** The whole transform *)

Lemma the_order_of_the_options_is_irrelevant_witness :
  let f := sample_files (VDict [entry "targets" (VList (sample_document "255"))]) in
  let o1 := [entry "rename_sprites" (VDict (hex_options "sprites" 2));
             entry "rename_costumes" (VDict (hex_options "costumes" 2))] in
  let o2 := [entry "rename_costumes" (VDict (hex_options "costumes" 2));
             entry "rename_sprites" (VDict (hex_options "sprites" 2))] in
  written (obfuscate sample_draw ascii_decimal f (VDict o1) 0%nat)
  = written (obfuscate sample_draw ascii_decimal f (VDict o2) 0%nat) /\
  raised (obfuscate sample_draw ascii_decimal f (VDict o1) 0%nat)
  = raised (obfuscate sample_draw ascii_decimal f (VDict o2) 0%nat) /\
  (forall k, In k (warnings (obfuscate sample_draw ascii_decimal f (VDict o1) 0%nat)) <->
             In k (warnings (obfuscate sample_draw ascii_decimal f (VDict o2) 0%nat))).
Proof.
  cbv zeta. apply the_order_of_the_options_is_irrelevant.
  intros k. simpl.
  destruct (key_eqb k (KStr (str "rename_sprites"))) eqn:E1;
    destruct (key_eqb k (KStr (str "rename_costumes"))) eqn:E2; try reflexivity.
  apply key_eqb_eq in E1, E2. subst k. discriminate E2.
Defined.

Lemma options_that_name_no_pass_leave_the_document_witness :
  let project := VDict [entry "targets" (VList (sample_document "255"));
                        entry "meta" (VDict [entry "semver" (text "3.0.0")])] in
  obfuscate sample_draw ascii_decimal (sample_files project)
    (VDict [entry "verbose" (VBool true)]) 0%nat
  = {| written := Some project;
       warnings := [KStr (str "verbose")];
       raised := None |}.
Proof.
  cbv zeta.
  apply (options_that_name_no_pass_leave_the_document sample_draw ascii_decimal
           (sample_files (VDict [entry "targets" (VList (sample_document "255"));
                                 entry "meta" (VDict [entry "semver" (text "3.0.0")])]))
           [entry "verbose" (VBool true)] 0%nat (VList (sample_document "255")));
    try reflexivity.
  intros k [<- | []]. reflexivity.
Defined.

Lemma version_0_1_0_only_warns_about_the_later_options_witness :
  In (KStr (str "rename_my_blocks"))
     (warnings (obfuscate_0_1_0 sample_draw
                  (sample_files (VDict [entry "targets" (VList (procedures "foo %n"))]))
                  (VDict [entry "rename_my_blocks" (VDict (hex_options "my_blocks" 2))])
                  0%nat)).
Proof.
  apply (proj2 (proj2 (version_0_1_0_only_warns_about_the_later_options sample_draw
                         (sample_files
                            (VDict [entry "targets" (VList (procedures "foo %n"))]))
                         [entry "rename_my_blocks" (VDict (hex_options "my_blocks" 2))]
                         0%nat))).
  - reflexivity.
  - left. reflexivity.
  - reflexivity.
Defined.

Lemma the_output_path_is_checked_last_witness :
  let f := sample_files (VDict [entry "targets" (VList (sample_document "255"))]) in
  let g := with_outfile_suffix (str ".sb2") f in
  let options := VDict [entry "verbose" (VBool true)] in
  written (obfuscate sample_draw ascii_decimal g options 0%nat) = None /\
  (forall e,
      raised (obfuscate sample_draw ascii_decimal f options 0%nat) = Some e ->
      raised (obfuscate sample_draw ascii_decimal g options 0%nat) = Some e) /\
  (raised (obfuscate sample_draw ascii_decimal f options 0%nat) = None ->
   raised (obfuscate sample_draw ascii_decimal g options 0%nat)
   = Some IsNotAScratchFileError /\
   warnings (obfuscate sample_draw ascii_decimal g options 0%nat)
   = warnings (obfuscate sample_draw ascii_decimal f options 0%nat)).
Proof.
  cbv zeta. apply the_output_path_is_checked_last; [reflexivity | discriminate].
Defined.

Lemma rename_sounds_renames_the_sounds_of_every_target_witness :
  exists ts',
    VList [target "Stage" "0b30" [];
           target "Cat" "557a"
             [entry "a" (goto_menu "Cat"); entry "b" (goto_menu "_mouse_")]]
    = VList ts' /\
    List.length ts' = List.length sample_targets /\
    Forall2 (fun t t' => forall k, k <> KStr (str "sounds") -> getitem t' k = getitem t k)
            sample_targets ts' /\
    (@None exn = None ->
     exists g,
       fst (parse_rename_options (hex_options "sounds" 2) (str "sounds")) = Ok g /\
       Forall2 (elements_renamed sample_draw g (str "sounds")) sample_targets ts').
Proof.
  apply (rename_sounds_renames_the_sounds_of_every_target sample_draw sample_targets
           (hex_options "sounds" 2) 0%nat _ 4%nat None).
  vm_compute. reflexivity.
Defined.
